(** * Brayns: shading kernel, morphology loader and keyboard shortcuts

    A shallow embedding of
    - [brayns/common/input/KeyboardHandler.cpp],
    - the ISPC kernel of the advanced simulation renderer
      ([AdvancedSimulationRenderer_shadeRay] and its helpers),
    - [brayns/io/MorphologyLoader.cpp],
    together with the properties established about them.

    Conventions.  A C++/ISPC [float] is an IEEE-754 binary32 number, taken from
    the Standard Library's [SpecFloat] at precision 24 and maximal exponent
    128.  Unsigned machine integers are [Z] with the wrap-around written out.
    Functions of the host ray tracer (OSPRay, Embree), of the ISPC standard
    library, of Brion/Brain, of Boost and of vmmlib are not part of the
    sources: they are fields of the records [Engine] and [Brion] below, and
    every definition takes them as an argument. *)

From Stdlib Require Import ZArith List String Ascii Bool Lia SpecFloat Permutation.
From stdpp Require Import gmap strings list.
Import ListNotations.

(** ** Binary32 floating point *)

Module F32.

Definition prec : Z := 24.
Definition emax : Z := 128.

Definition float : Type := spec_float.

Definition add : float -> float -> float := SFadd prec emax.
Definition sub : float -> float -> float := SFsub prec emax.
Definition mul : float -> float -> float := SFmul prec emax.
Definition div : float -> float -> float := SFdiv prec emax.
Definition opp : float -> float := SFopp.
Definition abs : float -> float := SFabs.

(** The comparisons of C: every comparison with a NaN is false, except [!=]. *)
Definition ltb (a b : float) : bool := SFltb a b.
Definition leb (a b : float) : bool := SFleb a b.
Definition gtb (a b : float) : bool := SFltb b a.
Definition geb (a b : float) : bool := SFleb b a.
Definition eqb (a b : float) : bool := SFeqb a b.
Definition neqb (a b : float) : bool := negb (SFeqb a b).

(** Conversion of an integer to [float] (round to nearest, ties to even). *)
Definition of_Z (z : Z) : float := binary_normalize prec emax z 0 false.

Definition zero : float := S754_zero false.
Definition one : float := Eval cbv in of_Z 1.
Definition two : float := Eval cbv in of_Z 2.
Definition three : float := Eval cbv in of_Z 3.
Definition hundred : float := Eval cbv in of_Z 100.
Definition half : float := Eval cbv in div (of_Z 1) (of_Z 2).
(** [0.01f]: the binary32 number nearest to 1/100. *)
Definition hundredth : float := Eval cbv in div (of_Z 1) (of_Z 100).
Definition infinity : float := S754_infinity false.

(** Conversion of a [float] to an unsigned 64-bit integer: truncation towards
    zero; the conversion is undefined in C++ (here [None]) when the truncated
    value is not representable, and for infinities and NaN. *)
Definition to_uint64 (f : float) : option Z :=
  match f with
  | S754_zero _ => Some 0%Z
  | S754_finite s m e =>
      let v := (if (0 <=? e)%Z then Z.shiftl (Zpos m) e
                else Z.shiftr (Zpos m) (- e))%Z in
      if s then (if (v =? 0)%Z then Some 0%Z else None)
      else if (v <? 2 ^ 64)%Z then Some v else None
  | _ => None
  end.

(** [min], [max] and [clamp] of the ISPC standard library ([min(a, b)] is
    [a < b ? a : b], [max(a, b)] is [a > b ? a : b], as the SSE/AVX
    instructions they compile to; [clamp(v, lo, hi)] is [min(max(v, lo), hi)]). *)
Definition min (a b : float) : float := if ltb a b then a else b.
Definition max (a b : float) : float := if gtb a b then a else b.
Definition clamp (v lo hi : float) : float := min (max v lo) hi.

(** [std::min] and [std::max] of C++: [std::min(a, b)] is [b < a ? b : a] and
    [std::max(a, b)] is [a < b ? b : a]. *)
Definition std_min (a b : float) : float := if ltb b a then b else a.
Definition std_max (a b : float) : float := if ltb a b then b else a.

Definition is_finite (f : float) : bool :=
  match f with
  | S754_zero _ | S754_finite _ _ _ => true
  | _ => false
  end.

(** *** Facts about comparisons and [clamp] *)

Lemma ltb_leb (a b : float) : ltb a b = true -> leb a b = true.
Proof.
  unfold ltb, leb, SFltb, SFleb.
  destruct (SFcompare a b) as [[ | | ]|]; congruence.
Qed.

Lemma clamp_unit_range (v : float) :
  leb zero (clamp v zero one) = true /\ leb (clamp v zero one) one = true.
Proof.
  unfold clamp, max, gtb. fold (ltb zero v).
  destruct (ltb zero v) eqn:Hpos.
  - unfold min. destruct (ltb v one) eqn:Hlt.
    + split; apply ltb_leb; assumption.
    + split; reflexivity.
  - split; reflexivity.
Qed.

(** A NaN is below nothing: a loop guarded by [x < 1.f] stops on a NaN. *)
Lemma ltb_nan_l (b : float) : ltb S754_nan b = false.
Proof. reflexivity. Qed.

Lemma to_uint64_range (f : float) (v : Z) :
  to_uint64 f = Some v -> (0 <= v < 2 ^ 64)%Z.
Proof.
  destruct f as [s|s| |s m e]; cbn [to_uint64]; try discriminate.
  - intros [= <-]. split; [reflexivity | reflexivity].
  - set (x := if (0 <=? e)%Z then Z.shiftl (Z.pos m) e
              else Z.shiftr (Z.pos m) (- e)).
    assert (Hx : (0 <= x)%Z).
    { unfold x. destruct (0 <=? e)%Z.
      - apply Z.shiftl_nonneg. discriminate.
      - apply Z.shiftr_nonneg. discriminate. }
    destruct s.
    + destruct (x =? 0)%Z; [|discriminate].
      intros [= <-]. split; reflexivity.
    + destruct (x <? 2 ^ 64)%Z eqn:Hlt; [|discriminate].
      intros [= <-]. apply Z.ltb_lt in Hlt. split; assumption.
Qed.

(** *** The conversion of a 64-bit unsigned integer is finite *)

Local Open Scope Z_scope.

Lemma digits2_pos_size (p : positive) : digits2_pos p = Pos.size p.
Proof. induction p as [p IH|p IH|]; cbn; congruence. Qed.

Lemma digits2_pos_log2 (p : positive) :
  Z.pos (digits2_pos p) = Z.log2 (Z.pos p) + 1.
Proof.
  rewrite digits2_pos_size.
  destruct p as [p|p|]; cbn [Pos.size Z.log2]; lia.
Qed.

Lemma Zdigits2_bound (m k : Z) : 0 <= m < 2 ^ k -> 0 <= k -> 0 <= Zdigits2 m <= k.
Proof.
  intros [H0 H1] Hk. destruct m as [|p|p]; cbn [Zdigits2]; [lia| |lia].
  rewrite digits2_pos_log2.
  assert (Z.log2 (Z.pos p) < k) by (apply Z.log2_lt_pow2; lia).
  pose proof (Z.log2_nonneg (Z.pos p)). lia.
Qed.

Lemma shr_1_bound (mrs : shr_record) :
  0 <= shr_m mrs -> 0 <= shr_m (shr_1 mrs) <= shr_m mrs.
Proof.
  destruct mrs as [m r s]. cbn [shr_m]. intros Hm.
  destruct m as [|[p|p|]|p]; cbn; lia.
Qed.

Lemma iter_pos_invariant {A : Type} (P : A -> Prop) (f : A -> A) :
  (forall x, P x -> P (f x)) ->
  forall n x, P x -> P (SpecFloat.iter_pos f n x).
Proof.
  intros Hf n.
  induction n as [n IH|n IH|]; intros x Hx; cbn [SpecFloat.iter_pos]; auto.
Qed.

Lemma shr_bound (mrs : shr_record) (e n B : Z) :
  0 <= shr_m mrs <= B ->
  0 <= shr_m (fst (shr mrs e n)) <= B
  /\ (snd (shr mrs e n) = e \/ snd (shr mrs e n) = e + n).
Proof.
  intros Hm. unfold shr. destruct n as [|p|p]; cbn [fst snd]; auto.
  split; [|auto].
  apply (iter_pos_invariant (fun x => 0 <= shr_m x <= B)); [|assumption].
  intros x Hx. pose proof (shr_1_bound x). lia.
Qed.

Lemma shr_record_of_loc_m (m : Z) (l : location) : shr_m (shr_record_of_loc m l) = m.
Proof. destruct l as [|[ | | ]]; reflexivity. Qed.

Lemma shr_fexp_bound (m e B : Z) (l : location) :
  0 <= m <= B ->
  0 <= shr_m (fst (shr_fexp prec emax m e l)) <= B
  /\ (snd (shr_fexp prec emax m e l) = e
      \/ snd (shr_fexp prec emax m e l) = fexp prec emax (Zdigits2 m + e)).
Proof.
  intros Hm. unfold shr_fexp.
  destruct (shr_bound (shr_record_of_loc m l) e
              (fexp prec emax (Zdigits2 m + e) - e) B) as [H1 H2].
  { now rewrite shr_record_of_loc_m. }
  split; [exact H1|]. destruct H2 as [H2|H2]; [auto|right; lia].
Qed.

Lemma round_nearest_even_bound (m : Z) (l : location) :
  0 <= m -> m <= round_nearest_even m l <= m + 1.
Proof.
  intros Hm. unfold round_nearest_even.
  destruct l as [|[ | | ]]; try lia. destruct (Z.even m); lia.
Qed.

Lemma binary_round_aux_finite (sx : bool) (mx ex : Z) (lx : location) :
  0 <= mx < 2 ^ 64 -> ex <= 0 ->
  match binary_round_aux prec emax sx mx ex lx with
  | S754_zero s | S754_finite s _ _ => s = sx
  | _ => False
  end.
Proof.
  intros Hm He. unfold binary_round_aux.
  destruct (shr_fexp_bound mx ex (2 ^ 64 - 1) lx ltac:(lia)) as [Hm1 He1].
  destruct (shr_fexp prec emax mx ex lx) as [mrs1 e1]. cbn [fst snd] in *.
  pose proof (Zdigits2_bound mx 64 Hm ltac:(lia)) as Hd.
  assert (He1' : e1 <= 40).
  { destruct He1 as [->| ->]; [lia|]. unfold fexp, emin, prec, emax. lia. }
  pose proof (round_nearest_even_bound (shr_m mrs1) (loc_of_shr_record mrs1)
                ltac:(lia)) as Hr.
  set (m2 := round_nearest_even (shr_m mrs1) (loc_of_shr_record mrs1)) in *.
  destruct (shr_fexp_bound m2 e1 (2 ^ 64) loc_Exact ltac:(lia)) as [Hm2 He2].
  destruct (shr_fexp prec emax m2 e1 loc_Exact) as [mrs2 e2].
  cbn [fst snd] in *.
  pose proof (Zdigits2_bound m2 65 ltac:(lia) ltac:(lia)) as Hd2.
  assert (He2' : e2 <= 104).
  { destruct He2 as [->| ->]; [lia|]. unfold fexp, emin, prec, emax. lia. }
  destruct (shr_m mrs2) as [|p|p]; [reflexivity| |lia].
  unfold emax, prec.
  destruct (e2 <=? 128 - 24) eqn:Hle; [reflexivity|].
  apply Z.leb_gt in Hle. lia.
Qed.

Lemma iter_xO (m d : positive) : Z.pos (Pos.iter xO m d) = Z.pos m * 2 ^ Z.pos d.
Proof.
  induction d as [|d IH] using Pos.peano_ind.
  - cbn. lia.
  - rewrite Pos.iter_succ, Pos2Z.inj_succ, Z.pow_succ_r by lia.
    rewrite Pos2Z.inj_xO, IH. lia.
Qed.

Lemma of_Z_finite (z : Z) :
  0 <= z < 2 ^ 64 ->
  match of_Z z with
  | S754_zero s | S754_finite s _ _ => s = false
  | _ => False
  end.
Proof.
  intros Hz. unfold of_Z, binary_normalize.
  destruct z as [|p|p]; [reflexivity| |lia].
  unfold binary_round, shl_align.
  pose proof (Zdigits2_bound (Z.pos p) 64 Hz ltac:(lia)) as Hd.
  cbn [Zdigits2] in Hd.
  destruct (fexp prec emax (Z.pos (digits2_pos p) + 0) - 0) as [|d|d] eqn:Hf.
  - apply binary_round_aux_finite; lia.
  - apply binary_round_aux_finite; lia.
  - apply binary_round_aux_finite.
    + rewrite iter_xO.
      assert (Hfe : fexp prec emax (Z.pos (digits2_pos p) + 0) = Z.neg d) by lia.
      unfold fexp, emin, prec, emax in Hfe.
      assert (Hdig : Z.pos (digits2_pos p) - 24 = Z.neg d) by lia.
      assert (Hp : Z.pos p < 2 ^ Z.pos (digits2_pos p)).
      { rewrite digits2_pos_log2.
        pose proof (Z.log2_spec (Z.pos p) ltac:(lia)). 
        replace (Z.log2 (Z.pos p) + 1) with (Z.succ (Z.log2 (Z.pos p))) by lia. lia. }
      split; [lia|].
      assert (Z.pos p * 2 ^ Z.pos d < 2 ^ Z.pos (digits2_pos p) * 2 ^ Z.pos d).
      { apply Z.mul_lt_mono_pos_r; lia. }
      rewrite <- Z.pow_add_r in H by lia.
      replace (Z.pos (digits2_pos p) + Z.pos d) with 24 in H by lia.
      lia.
    + lia.
Qed.

(** Adding [x * 0.f] changes nothing when the operands come from unsigned
    64-bit integers. *)
Lemma add_mul_zero (o i : Z) :
  0 <= o < 2 ^ 64 -> 0 <= i < 2 ^ 64 ->
  add (of_Z o) (mul (of_Z i) zero) = of_Z o.
Proof.
  intros Ho Hi.
  pose proof (of_Z_finite o Ho) as Fo. pose proof (of_Z_finite i Hi) as Fi.
  destruct (of_Z o) as [so|so| |so mo eo], (of_Z i) as [si|si| |si mi ei];
    try contradiction; subst; reflexivity.
Qed.

End F32.

(** ** Keyboard shortcuts ([KeyboardHandler.cpp]) *)

Module KeyboardHandler.

Section Shortcuts.

(** [std::function<void()>]: the functor bound to a key is kept abstract. *)
Variable Functor : Type.

Record ShortcutInformation : Type := mkShortcut {
  description : string;
  functor : Functor
}.

(** The handler: [_registeredShortcuts] is a [std::map<unsigned char, ...>];
    [errors] is what has been sent to [BRAYNS_ERROR], oldest first, and
    [infos] what has been sent to [BRAYNS_INFO]. *)
Record t : Type := mkHandler {
  _registeredShortcuts : gmap ascii ShortcutInformation;
  errors : list string;
  infos : list string
}.

Definition already_registered (key : ascii) : string :=
  String key " is already registered".

Definition registerKeyboardShortcut
  (key : ascii) (descr : string) (f : Functor) (h : t) : t :=
  match _registeredShortcuts h !! key with
  | Some _ =>
      {| _registeredShortcuts := _registeredShortcuts h;
         errors := errors h ++ [already_registered key];
         infos := infos h |}
  | None =>
      {| _registeredShortcuts :=
           <[key := mkShortcut descr f]> (_registeredShortcuts h);
         errors := errors h;
         infos := infos h |}
  end.

Definition unregisterKeyboardShortcut (key : ascii) (h : t) : t :=
  match _registeredShortcuts h !! key with
  | Some _ =>
      {| _registeredShortcuts := delete key (_registeredShortcuts h);
         errors := errors h;
         infos := infos h |}
  | None => h
  end.

(** [handleKeyboardShortcut]: the functor to run, if any, and the handler
    after the "Processing ..." line has been logged. *)
Definition handleKeyboardShortcut (key : ascii) (h : t) : option Functor * t :=
  match _registeredShortcuts h !! key with
  | Some s =>
      (Some (functor s),
       {| _registeredShortcuts := _registeredShortcuts h;
          errors := errors h;
          infos := infos h ++ [("Processing " ++ description s)%string] |})
  | None => (None, h)
  end.

(** A key that is already bound keeps its binding. *)
Lemma register_bound_key key descr f h s :
  _registeredShortcuts h !! key = Some s ->
  _registeredShortcuts (registerKeyboardShortcut key descr f h)
    = _registeredShortcuts h
  /\ errors (registerKeyboardShortcut key descr f h)
     = errors h ++ [already_registered key].
Proof.
  intros Hs. unfold registerKeyboardShortcut. rewrite Hs. simpl. split; reflexivity.
Qed.

(** A fresh key gets exactly the new binding. *)
Lemma register_fresh_key key descr f h :
  _registeredShortcuts h !! key = None ->
  _registeredShortcuts (registerKeyboardShortcut key descr f h)
    = <[key := mkShortcut descr f]> (_registeredShortcuts h)
  /\ errors (registerKeyboardShortcut key descr f h) = errors h.
Proof.
  intros Hs. unfold registerKeyboardShortcut. rewrite Hs. simpl. split; reflexivity.
Qed.

(** C8.  Registering a key that is already registered logs
    "<key> is already registered" and leaves the shortcut map unchanged, so
    the description and functor registered before are kept and the new ones
    are discarded; registering a key that is not yet registered logs nothing,
    binds that key to the given description and functor, and changes the
    binding of no other key. *)
Theorem registerKeyboardShortcut_spec
  (key : ascii) (descr : string) (f : Functor) (h : t) :
  let h' := registerKeyboardShortcut key descr f h in
  (forall old, _registeredShortcuts h !! key = Some old ->
     _registeredShortcuts h' = _registeredShortcuts h
     /\ _registeredShortcuts h' !! key = Some old
     /\ errors h' = errors h ++ [already_registered key])
  /\ (_registeredShortcuts h !! key = None ->
     _registeredShortcuts h' !! key = Some (mkShortcut descr f)
     /\ (forall k, k <> key ->
           _registeredShortcuts h' !! k = _registeredShortcuts h !! k)
     /\ errors h' = errors h).
Proof.
  cbv zeta. split.
  - intros old Hold.
    destruct (register_bound_key key descr f h old Hold) as [Hm He].
    rewrite Hm. auto.
  - intros Hnone.
    destruct (register_fresh_key key descr f h Hnone) as [Hm He].
    rewrite Hm. split; [apply lookup_insert_eq|].
    split; [|exact He].
    intros k Hk. apply lookup_insert_ne. congruence.
Qed.

End Shortcuts.

Arguments mkShortcut {Functor}.
Arguments mkHandler {Functor}.

(** A handler whose functors are numbered actions, with 'q' bound. *)
Definition sample_handler : t nat :=
  mkHandler {[ "q"%char := mkShortcut "Quit" 0%nat ]} [] [].

Example register_twice :
  _registeredShortcuts nat
    (registerKeyboardShortcut nat "q"%char "Other" 7%nat sample_handler)
    !! "q"%char = Some (mkShortcut "Quit" 0%nat).
Proof. reflexivity. Qed.

Lemma registerKeyboardShortcut_spec_witness :
  let h := sample_handler in
  let h1 := registerKeyboardShortcut nat "q"%char "Other" 7%nat h in
  let h2 := registerKeyboardShortcut nat "w"%char "Wire" 3%nat h in
  (_registeredShortcuts nat h1 = _registeredShortcuts nat h
   /\ errors nat h1 = ["q is already registered"%string])
  /\ (_registeredShortcuts nat h2 !! "w"%char = Some (mkShortcut "Wire" 3%nat)
      /\ _registeredShortcuts nat h2 !! "q"%char
         = Some (mkShortcut "Quit" 0%nat)).
Proof.
  cbv zeta. split.
  - destruct (registerKeyboardShortcut_spec nat "q"%char "Other" 7%nat
                sample_handler) as [H _].
    destruct (H (mkShortcut "Quit" 0%nat) eq_refl) as (H1 & _ & H3).
    split; [exact H1 | exact H3].
  - destruct (registerKeyboardShortcut_spec nat "w"%char "Wire" 3%nat
                sample_handler) as [_ H].
    destruct (H eq_refl) as (H1 & H2 & _).
    split; [exact H1|].
    rewrite H2; [reflexivity | discriminate].
Defined.

End KeyboardHandler.

(** ** The shading kernel of the advanced simulation renderer (ISPC)

    The kernel is SPMD code; the embedding follows one program instance (one
    screen sample), so a [varying] value is a single value and
    [foreach_unique (mat in material)] runs its body once, for the material
    of that instance. *)

Module Renderer.

Import F32.

Declare Scope f32_scope.
Delimit Scope f32_scope with f32.
Infix "+" := F32.add : f32_scope.
Infix "-" := F32.sub : f32_scope.
Infix "*" := F32.mul : f32_scope.
Infix "/" := F32.div : f32_scope.
Infix "<?" := F32.ltb : f32_scope.
Infix "<=?" := F32.leb : f32_scope.
Infix ">?" := F32.gtb : f32_scope.
Infix "=?" := F32.eqb : f32_scope.
Infix "!=?" := F32.neqb (at level 70) : f32_scope.

(** *** Vectors (OSPRay's [vec.ih]: all operations are component-wise) *)

Record vec2f : Type := mk2 { x2 : float; y2 : float }.
Record vec3f : Type := mk3 { x3 : float; y3 : float; z3 : float }.
Record vec4f : Type := mk4 { x4 : float; y4 : float; z4 : float; w4 : float }.
Record vec3i : Type := mk3i { xi : Z; yi : Z; zi : Z }.

Definition make_vec2f (f : float) : vec2f := mk2 f f.
Definition make_vec3f (f : float) : vec3f := mk3 f f f.
Definition make_vec3f_of4 (v : vec4f) : vec3f := mk3 (x4 v) (y4 v) (z4 v).
Definition make_vec4f (f : float) : vec4f := mk4 f f f f.
Definition make_vec4f_of3 (v : vec3f) (w : float) : vec4f :=
  mk4 (x3 v) (y3 v) (z3 v) w.

Definition v3add (a b : vec3f) : vec3f :=
  mk3 (x3 a + x3 b)%f32 (y3 a + y3 b)%f32 (z3 a + z3 b)%f32.
Definition v3sub (a b : vec3f) : vec3f :=
  mk3 (x3 a - x3 b)%f32 (y3 a - y3 b)%f32 (z3 a - z3 b)%f32.
Definition v3mul (a b : vec3f) : vec3f :=
  mk3 (x3 a * x3 b)%f32 (y3 a * y3 b)%f32 (z3 a * z3 b)%f32.
Definition v3scale (f : float) (a : vec3f) : vec3f :=
  mk3 (f * x3 a)%f32 (f * y3 a)%f32 (f * z3 a)%f32.
Definition v3scale_r (a : vec3f) (f : float) : vec3f :=
  mk3 (x3 a * f)%f32 (y3 a * f)%f32 (z3 a * f)%f32.
Definition v3sub_scalar (a : vec3f) (f : float) : vec3f :=
  mk3 (x3 a - f)%f32 (y3 a - f)%f32 (z3 a - f)%f32.
Definition v3neg (a : vec3f) : vec3f :=
  mk3 (F32.opp (x3 a)) (F32.opp (y3 a)) (F32.opp (z3 a)).
Definition v3max (a b : vec3f) : vec3f :=
  mk3 (F32.max (x3 a) (x3 b)) (F32.max (y3 a) (y3 b)) (F32.max (z3 a) (z3 b)).
Definition v3clamp (a lo hi : vec3f) : vec3f :=
  mk3 (F32.clamp (x3 a) (x3 lo) (x3 hi)) (F32.clamp (y3 a) (y3 lo) (y3 hi))
      (F32.clamp (z3 a) (z3 lo) (z3 hi)).
Definition v4mul (a b : vec4f) : vec4f :=
  mk4 (x4 a * x4 b)%f32 (y4 a * y4 b)%f32 (z4 a * z4 b)%f32 (w4 a * w4 b)%f32.

(** *** Data of the host engine *)

Record Ray : Type := mkRay {
  ray_org : vec3f;
  ray_dir : vec3f;
  ray_t0 : float;
  ray_t : float;
  ray_time : float;
  ray_primID : Z;
  ray_geomID : Z;
  ray_instID : Z
}.

Definition set_org (v : vec3f) (r : Ray) : Ray :=
  mkRay v (ray_dir r) (ray_t0 r) (ray_t r) (ray_time r)
        (ray_primID r) (ray_geomID r) (ray_instID r).
Definition set_dir (v : vec3f) (r : Ray) : Ray :=
  mkRay (ray_org r) v (ray_t0 r) (ray_t r) (ray_time r)
        (ray_primID r) (ray_geomID r) (ray_instID r).
Definition set_t0 (v : float) (r : Ray) : Ray :=
  mkRay (ray_org r) (ray_dir r) v (ray_t r) (ray_time r)
        (ray_primID r) (ray_geomID r) (ray_instID r).
Definition set_t (v : float) (r : Ray) : Ray :=
  mkRay (ray_org r) (ray_dir r) (ray_t0 r) v (ray_time r)
        (ray_primID r) (ray_geomID r) (ray_instID r).
Definition set_time (v : float) (r : Ray) : Ray :=
  mkRay (ray_org r) (ray_dir r) (ray_t0 r) (ray_t r) v
        (ray_primID r) (ray_geomID r) (ray_instID r).
Definition set_primID (v : Z) (r : Ray) : Ray :=
  mkRay (ray_org r) (ray_dir r) (ray_t0 r) (ray_t r) (ray_time r)
        v (ray_geomID r) (ray_instID r).
Definition set_geomID (v : Z) (r : Ray) : Ray :=
  mkRay (ray_org r) (ray_dir r) (ray_t0 r) (ray_t r) (ray_time r)
        (ray_primID r) v (ray_instID r).
Definition set_instID (v : Z) (r : Ray) : Ray :=
  mkRay (ray_org r) (ray_dir r) (ray_t0 r) (ray_t r) (ray_time r)
        (ray_primID r) (ray_geomID r) v.

(** A texture slot of a material; whether it holds a texture is [valid]. *)
Record TextureParam : Type := mkTexture { texture_id : option nat }.

(** [DefaultMaterial]: the fields the kernel reads. *)
Record Material : Type := mkMaterial {
  mat_d : float;
  mat_Kd : vec3f;
  mat_Ks : vec3f;
  mat_Ns : float;
  mat_a : float;
  mat_glossiness : float;
  mat_refraction : float;
  mat_reflection : float;
  map_d : TextureParam;
  map_Kd : TextureParam;
  map_Ks : TextureParam;
  map_Ns : TextureParam;
  map_a : TextureParam;
  map_Bump : TextureParam;
  map_reflection : TextureParam
}.

(** [DifferentialGeometry]: a null [material] pointer is [None]; [dg_prim]
    stands for the fields the kernel only hands back to the engine. *)
Record DifferentialGeometry : Type := mkDG {
  dg_P : vec3f;
  dg_Ns : vec3f;
  dg_epsilon : float;
  dg_color : vec4f;
  dg_material : option Material;
  dg_prim : Z
}.

Definition set_dg_P (v : vec3f) (d : DifferentialGeometry) :=
  mkDG v (dg_Ns d) (dg_epsilon d) (dg_color d) (dg_material d) (dg_prim d).
Definition set_dg_Ns (v : vec3f) (d : DifferentialGeometry) :=
  mkDG (dg_P d) v (dg_epsilon d) (dg_color d) (dg_material d) (dg_prim d).
Definition set_dg_epsilon (v : float) (d : DifferentialGeometry) :=
  mkDG (dg_P d) (dg_Ns d) v (dg_color d) (dg_material d) (dg_prim d).

Inductive DGFlag : Type :=
  | DG_NG | DG_NS | DG_NORMALIZE | DG_FACEFORWARD | DG_TANGENTS
  | DG_MATERIALID | DG_COLOR | DG_TEXCOORD.

Record Light_SampleRes : Type := mkLightSample {
  ls_weight : vec3f;
  ls_dir : vec3f
}.

(** A light is its [sample] function. *)
Record Light : Type := mkLight {
  light_sample : DifferentialGeometry -> vec2f -> Light_SampleRes
}.

Record box3f : Type := mkBox { box_lower : vec3f; box_upper : vec3f }.

(** A volume with its function pointers and its transfer function. *)
Record Volume : Type := mkVolume {
  boundingBox : box3f;
  samplingStep : float;
  samplingRate : float;
  singleShade : bool;
  gradientShadingEnabled : bool;
  specular : vec3f;
  vol_sample : vec3f -> float;
  vol_computeGradient : vec3f -> vec3f;
  getOpacityForValue : float -> float;
  getColorForValue : float -> vec3f
}.

(** The model: [scene] names the geometry the engine traces rays against;
    [volumes] holds [volumeCount] volumes. *)
Record Model : Type := mkModel {
  scene : nat;
  volumes : list Volume
}.

Record ScreenSample : Type := mkSample {
  sample_ray : Ray;
  sampleID : vec3i;
  sample_z : float;
  sample_alpha : float;
  sample_rgb : vec3f
}.

Definition set_sample_z (v : float) (s : ScreenSample) : ScreenSample :=
  mkSample (sample_ray s) (sampleID s) v (sample_alpha s) (sample_rgb s).
Definition set_sample_alpha (v : float) (s : ScreenSample) : ScreenSample :=
  mkSample (sample_ray s) (sampleID s) (sample_z s) v (sample_rgb s).
Definition set_sample_rgb (v : vec3f) (s : ScreenSample) : ScreenSample :=
  mkSample (sample_ray s) (sampleID s) (sample_z s) (sample_alpha s) v.
Definition set_sample_ray (v : Ray) (s : ScreenSample) : ScreenSample :=
  mkSample v (sampleID s) (sample_z s) (sample_alpha s) (sample_rgb s).

(** [AdvancedSimulationRenderer] with the fields of its base structures
    ([super.super.super] is the OSPRay [Renderer]).  [lights] holds
    [numLights] lights; a null array is the empty list. *)
Record AdvancedSimulationRenderer : Type := mkRenderer {
  model : Model;
  fb_size_x : Z;
  bgMaterial : option Material;
  lights : list Light;
  simulationData : list float;
  randomNumber : Z;
  shadows : float;
  softShadows : float;
  ambientOcclusionStrength : float;
  ambientOcclusionDistance : float;
  shadingEnabled : bool;
  electronShadingEnabled : bool;
  samplingThreshold : float;
  volumeSpecularExponent : float;
  volumeAlphaCorrection : float
}.

Record ShadingAttributes : Type := mkAttributes {
  renderer : AdvancedSimulationRenderer;
  origin : vec3f;
  normal : vec3f;
  reflectedNormal : vec3f;
  refraction : float;
  reflection : float;
  opacity : float;
  diffuseColor : vec3f;
  specularColor : vec3f;
  specularExponent : float;
  lightEmissionColor : vec3f;
  lightEmissionIntensity : float;
  shadowIntensity : float;
  simulationColor : vec3f;
  simulationIntensity : float;
  indirectColor : vec3f;
  indirectIntensity : float;
  volumeColor : vec3f;
  volumeIntensity : float;
  shadingContribution : vec3f;
  finalContribution : vec3f
}.

(** What the kernel takes from outside its source file: the host ray tracer,
    the vector and texture helpers, the Brayns utility headers ([Consts.ih],
    [SimulationRenderer.ih] and the random and sky-box helpers), and the
    content of storage that the kernel reads before writing it. *)
Record Engine : Type := mkEngine {
  traceRay : Model -> Ray -> Ray;
  postIntersect :
    Model -> DifferentialGeometry -> Ray -> list DGFlag -> DifferentialGeometry;
  setRay : Ray -> vec3f -> vec3f -> Ray;
  intersectBox : Ray -> box3f -> float * float;
  dot : vec3f -> vec3f -> float;
  normalize : vec3f -> vec3f;
  safe_normalize : vec3f -> vec3f;
  reduce_max : vec3f -> float;
  powf : float -> float -> float;
  valid : TextureParam -> bool;
  get1f : TextureParam -> DifferentialGeometry -> float;
  get3f : TextureParam -> DifferentialGeometry -> vec3f;
  get3f_default : TextureParam -> DifferentialGeometry -> vec3f -> vec3f;
  get4f : TextureParam -> DifferentialGeometry -> vec4f;
  getRandomVector : Z -> ScreenSample -> vec3f -> Z -> vec3f;
  getRandomValue : ScreenSample -> Z -> float;
  skyboxMapping :
    AdvancedSimulationRenderer -> Ray -> option Material -> vec4f;
  composite : vec4f -> vec4f -> float -> vec4f;
  refractedVector : vec3f -> vec3f -> float -> float -> vec3f;
  hasSimulationMapping : DifferentialGeometry -> bool;
  getSimulationColor :
    AdvancedSimulationRenderer -> DifferentialGeometry -> vec4f;
  DEFAULT_SKY_POWER : float;
  NB_MAX_REBOUNDS : Z;
  uninitialized_dg : DifferentialGeometry;
  uninitialized_vec3f : vec3f;
  uninitialized_attributes : ShadingAttributes
}.

(** Assignments to the fields of [ShadingAttributes]. *)

Definition set_renderer (v : AdvancedSimulationRenderer) (a : ShadingAttributes) : ShadingAttributes :=
  mkAttributes v (origin a) (normal a) (reflectedNormal a) (refraction a)
    (reflection a) (opacity a) (diffuseColor a) (specularColor a)
    (specularExponent a) (lightEmissionColor a) (lightEmissionIntensity a)
    (shadowIntensity a) (simulationColor a) (simulationIntensity a)
    (indirectColor a) (indirectIntensity a) (volumeColor a)
    (volumeIntensity a) (shadingContribution a) (finalContribution a).

Definition set_origin (v : vec3f) (a : ShadingAttributes) : ShadingAttributes :=
  mkAttributes (renderer a) v (normal a) (reflectedNormal a) (refraction a)
    (reflection a) (opacity a) (diffuseColor a) (specularColor a)
    (specularExponent a) (lightEmissionColor a) (lightEmissionIntensity a)
    (shadowIntensity a) (simulationColor a) (simulationIntensity a)
    (indirectColor a) (indirectIntensity a) (volumeColor a)
    (volumeIntensity a) (shadingContribution a) (finalContribution a).

Definition set_normal (v : vec3f) (a : ShadingAttributes) : ShadingAttributes :=
  mkAttributes (renderer a) (origin a) v (reflectedNormal a) (refraction a)
    (reflection a) (opacity a) (diffuseColor a) (specularColor a)
    (specularExponent a) (lightEmissionColor a) (lightEmissionIntensity a)
    (shadowIntensity a) (simulationColor a) (simulationIntensity a)
    (indirectColor a) (indirectIntensity a) (volumeColor a)
    (volumeIntensity a) (shadingContribution a) (finalContribution a).

Definition set_reflectedNormal (v : vec3f) (a : ShadingAttributes) : ShadingAttributes :=
  mkAttributes (renderer a) (origin a) (normal a) v (refraction a)
    (reflection a) (opacity a) (diffuseColor a) (specularColor a)
    (specularExponent a) (lightEmissionColor a) (lightEmissionIntensity a)
    (shadowIntensity a) (simulationColor a) (simulationIntensity a)
    (indirectColor a) (indirectIntensity a) (volumeColor a)
    (volumeIntensity a) (shadingContribution a) (finalContribution a).

Definition set_refraction (v : float) (a : ShadingAttributes) : ShadingAttributes :=
  mkAttributes (renderer a) (origin a) (normal a) (reflectedNormal a) v
    (reflection a) (opacity a) (diffuseColor a) (specularColor a)
    (specularExponent a) (lightEmissionColor a) (lightEmissionIntensity a)
    (shadowIntensity a) (simulationColor a) (simulationIntensity a)
    (indirectColor a) (indirectIntensity a) (volumeColor a)
    (volumeIntensity a) (shadingContribution a) (finalContribution a).

Definition set_reflection (v : float) (a : ShadingAttributes) : ShadingAttributes :=
  mkAttributes (renderer a) (origin a) (normal a) (reflectedNormal a)
    (refraction a) v (opacity a) (diffuseColor a) (specularColor a)
    (specularExponent a) (lightEmissionColor a) (lightEmissionIntensity a)
    (shadowIntensity a) (simulationColor a) (simulationIntensity a)
    (indirectColor a) (indirectIntensity a) (volumeColor a)
    (volumeIntensity a) (shadingContribution a) (finalContribution a).

Definition set_opacity (v : float) (a : ShadingAttributes) : ShadingAttributes :=
  mkAttributes (renderer a) (origin a) (normal a) (reflectedNormal a)
    (refraction a) (reflection a) v (diffuseColor a) (specularColor a)
    (specularExponent a) (lightEmissionColor a) (lightEmissionIntensity a)
    (shadowIntensity a) (simulationColor a) (simulationIntensity a)
    (indirectColor a) (indirectIntensity a) (volumeColor a)
    (volumeIntensity a) (shadingContribution a) (finalContribution a).

Definition set_diffuseColor (v : vec3f) (a : ShadingAttributes) : ShadingAttributes :=
  mkAttributes (renderer a) (origin a) (normal a) (reflectedNormal a)
    (refraction a) (reflection a) (opacity a) v (specularColor a)
    (specularExponent a) (lightEmissionColor a) (lightEmissionIntensity a)
    (shadowIntensity a) (simulationColor a) (simulationIntensity a)
    (indirectColor a) (indirectIntensity a) (volumeColor a)
    (volumeIntensity a) (shadingContribution a) (finalContribution a).

Definition set_specularColor (v : vec3f) (a : ShadingAttributes) : ShadingAttributes :=
  mkAttributes (renderer a) (origin a) (normal a) (reflectedNormal a)
    (refraction a) (reflection a) (opacity a) (diffuseColor a) v
    (specularExponent a) (lightEmissionColor a) (lightEmissionIntensity a)
    (shadowIntensity a) (simulationColor a) (simulationIntensity a)
    (indirectColor a) (indirectIntensity a) (volumeColor a)
    (volumeIntensity a) (shadingContribution a) (finalContribution a).

Definition set_specularExponent (v : float) (a : ShadingAttributes) : ShadingAttributes :=
  mkAttributes (renderer a) (origin a) (normal a) (reflectedNormal a)
    (refraction a) (reflection a) (opacity a) (diffuseColor a)
    (specularColor a) v (lightEmissionColor a) (lightEmissionIntensity a)
    (shadowIntensity a) (simulationColor a) (simulationIntensity a)
    (indirectColor a) (indirectIntensity a) (volumeColor a)
    (volumeIntensity a) (shadingContribution a) (finalContribution a).

Definition set_lightEmissionColor (v : vec3f) (a : ShadingAttributes) : ShadingAttributes :=
  mkAttributes (renderer a) (origin a) (normal a) (reflectedNormal a)
    (refraction a) (reflection a) (opacity a) (diffuseColor a)
    (specularColor a) (specularExponent a) v (lightEmissionIntensity a)
    (shadowIntensity a) (simulationColor a) (simulationIntensity a)
    (indirectColor a) (indirectIntensity a) (volumeColor a)
    (volumeIntensity a) (shadingContribution a) (finalContribution a).

Definition set_lightEmissionIntensity (v : float) (a : ShadingAttributes) : ShadingAttributes :=
  mkAttributes (renderer a) (origin a) (normal a) (reflectedNormal a)
    (refraction a) (reflection a) (opacity a) (diffuseColor a)
    (specularColor a) (specularExponent a) (lightEmissionColor a) v
    (shadowIntensity a) (simulationColor a) (simulationIntensity a)
    (indirectColor a) (indirectIntensity a) (volumeColor a)
    (volumeIntensity a) (shadingContribution a) (finalContribution a).

Definition set_shadowIntensity (v : float) (a : ShadingAttributes) : ShadingAttributes :=
  mkAttributes (renderer a) (origin a) (normal a) (reflectedNormal a)
    (refraction a) (reflection a) (opacity a) (diffuseColor a)
    (specularColor a) (specularExponent a) (lightEmissionColor a)
    (lightEmissionIntensity a) v (simulationColor a) (simulationIntensity a)
    (indirectColor a) (indirectIntensity a) (volumeColor a)
    (volumeIntensity a) (shadingContribution a) (finalContribution a).

Definition set_simulationColor (v : vec3f) (a : ShadingAttributes) : ShadingAttributes :=
  mkAttributes (renderer a) (origin a) (normal a) (reflectedNormal a)
    (refraction a) (reflection a) (opacity a) (diffuseColor a)
    (specularColor a) (specularExponent a) (lightEmissionColor a)
    (lightEmissionIntensity a) (shadowIntensity a) v (simulationIntensity a)
    (indirectColor a) (indirectIntensity a) (volumeColor a)
    (volumeIntensity a) (shadingContribution a) (finalContribution a).

Definition set_simulationIntensity (v : float) (a : ShadingAttributes) : ShadingAttributes :=
  mkAttributes (renderer a) (origin a) (normal a) (reflectedNormal a)
    (refraction a) (reflection a) (opacity a) (diffuseColor a)
    (specularColor a) (specularExponent a) (lightEmissionColor a)
    (lightEmissionIntensity a) (shadowIntensity a) (simulationColor a) v
    (indirectColor a) (indirectIntensity a) (volumeColor a)
    (volumeIntensity a) (shadingContribution a) (finalContribution a).

Definition set_indirectColor (v : vec3f) (a : ShadingAttributes) : ShadingAttributes :=
  mkAttributes (renderer a) (origin a) (normal a) (reflectedNormal a)
    (refraction a) (reflection a) (opacity a) (diffuseColor a)
    (specularColor a) (specularExponent a) (lightEmissionColor a)
    (lightEmissionIntensity a) (shadowIntensity a) (simulationColor a)
    (simulationIntensity a) v (indirectIntensity a) (volumeColor a)
    (volumeIntensity a) (shadingContribution a) (finalContribution a).

Definition set_indirectIntensity (v : float) (a : ShadingAttributes) : ShadingAttributes :=
  mkAttributes (renderer a) (origin a) (normal a) (reflectedNormal a)
    (refraction a) (reflection a) (opacity a) (diffuseColor a)
    (specularColor a) (specularExponent a) (lightEmissionColor a)
    (lightEmissionIntensity a) (shadowIntensity a) (simulationColor a)
    (simulationIntensity a) (indirectColor a) v (volumeColor a)
    (volumeIntensity a) (shadingContribution a) (finalContribution a).

Definition set_volumeColor (v : vec3f) (a : ShadingAttributes) : ShadingAttributes :=
  mkAttributes (renderer a) (origin a) (normal a) (reflectedNormal a)
    (refraction a) (reflection a) (opacity a) (diffuseColor a)
    (specularColor a) (specularExponent a) (lightEmissionColor a)
    (lightEmissionIntensity a) (shadowIntensity a) (simulationColor a)
    (simulationIntensity a) (indirectColor a) (indirectIntensity a) v
    (volumeIntensity a) (shadingContribution a) (finalContribution a).

Definition set_volumeIntensity (v : float) (a : ShadingAttributes) : ShadingAttributes :=
  mkAttributes (renderer a) (origin a) (normal a) (reflectedNormal a)
    (refraction a) (reflection a) (opacity a) (diffuseColor a)
    (specularColor a) (specularExponent a) (lightEmissionColor a)
    (lightEmissionIntensity a) (shadowIntensity a) (simulationColor a)
    (simulationIntensity a) (indirectColor a) (indirectIntensity a)
    (volumeColor a) v (shadingContribution a) (finalContribution a).

Definition set_shadingContribution (v : vec3f) (a : ShadingAttributes) : ShadingAttributes :=
  mkAttributes (renderer a) (origin a) (normal a) (reflectedNormal a)
    (refraction a) (reflection a) (opacity a) (diffuseColor a)
    (specularColor a) (specularExponent a) (lightEmissionColor a)
    (lightEmissionIntensity a) (shadowIntensity a) (simulationColor a)
    (simulationIntensity a) (indirectColor a) (indirectIntensity a)
    (volumeColor a) (volumeIntensity a) v (finalContribution a).

Definition set_finalContribution (v : vec3f) (a : ShadingAttributes) : ShadingAttributes :=
  mkAttributes (renderer a) (origin a) (normal a) (reflectedNormal a)
    (refraction a) (reflection a) (opacity a) (diffuseColor a)
    (specularColor a) (specularExponent a) (lightEmissionColor a)
    (lightEmissionIntensity a) (shadowIntensity a) (simulationColor a)
    (simulationIntensity a) (indirectColor a) (indirectIntensity a)
    (volumeColor a) (volumeIntensity a) (shadingContribution a) v.


(** *** The kernel *)

Section Kernel.

Variable E : Engine.

(** The number of iterations granted to each loop that the code does not
    bound itself (the ray-marching loops, the shadow-ray loop, and the
    rebound loop, whose bound is a theorem below); a loop that needs more
    yields [None]. *)
Variable fuel : nat.

(** [HACK: Since OSPRay 1.8 we need to increase the epsilon to avoid
    artifacts]. *)
Definition EPSILON_QUOTIENT : float := F32.hundred.

Record RandomRay : Type := mkRandomRay {
  rr_hit : bool;
  rr_geometry : DifferentialGeometry;
  rr_backgroundColor : vec3f;
  rr_distanceToIntersection : float;
  rr_randomDirection : vec3f
}.

Definition launchRandomRay
  (self : AdvancedSimulationRenderer) (sample : ScreenSample)
  (intersection normal : vec3f) (geometry : DifferentialGeometry)
  (distanceToIntersection : float) : RandomRay :=
  let randomDirection :=
    getRandomVector E (fb_size_x self) sample normal (randomNumber self) in
  let randomDirection :=
    if (dot E randomDirection normal <? F32.zero)%f32
    then v3neg randomDirection else randomDirection in
  let randomRay := setRay E (sample_ray sample) intersection randomDirection in
  let randomRay :=
    set_instID (-1) (set_geomID (-1) (set_primID (-1)
      (set_t (ambientOcclusionDistance self)
        (set_t0 (dg_epsilon geometry) randomRay)))) in
  let randomRay := traceRay E (model self) randomRay in
  if (ray_geomID randomRay <? 0)%Z then
    mkRandomRay false geometry
      (make_vec3f_of4 (skyboxMapping E self randomRay (bgMaterial self)))
      distanceToIntersection randomDirection
  else
    mkRandomRay true
      (postIntersect E (model self) geometry randomRay
         [DG_NG; DG_NS; DG_NORMALIZE; DG_MATERIALID; DG_COLOR; DG_TEXCOORD])
      (make_vec3f F32.zero)
      (ray_t randomRay * ray_t randomRay)%f32 randomDirection.

(** [indirectShading]: the geometry after the call, the colour and the power.
    In the light-emitting case the source first assigns [mat->a] (or
    [reduce_max(Ka)]) to the power and then overwrites it with
    [1.f / distanceToIntersection]. *)
Definition indirectShading
  (self : AdvancedSimulationRenderer) (sample : ScreenSample)
  (intersection normal : vec3f) (geometry : DifferentialGeometry)
  : DifferentialGeometry * vec3f * float :=
  let r := launchRandomRay self sample intersection normal geometry
             F32.infinity in
  let geometry := rr_geometry r in
  let randomDirection := rr_randomDirection r in
  let '(color, power) :=
    if rr_hit r then
      let '(color, power) :=
        match dg_material geometry with
        | Some mat =>
            if (mat_a mat !=? F32.zero)%f32
               && (dot E (dg_Ns geometry) randomDirection <? F32.zero)%f32
            then
              let localDiffuseColor :=
                if valid E (map_Kd mat) then get3f E (map_Kd mat) geometry
                else mat_Kd mat in
              let Ka :=
                if valid E (map_a mat) then get3f E (map_a mat) geometry
                else make_vec3f (mat_a mat) in
              (v3mul localDiffuseColor Ka,
               (F32.one / rr_distanceToIntersection r)%f32)
            else (make_vec3f F32.one, F32.opp (mat_d mat))
        | None =>
            (make_vec3f (w4 (dg_color geometry)),
             F32.opp (w4 (dg_color geometry)))
        end in
      (color, (power * F32.abs (dot E normal randomDirection))%f32)
    else (rr_backgroundColor r, DEFAULT_SKY_POWER E) in
  (geometry, color, (power * ambientOcclusionStrength self)%f32).

(** The marching loop of [getVolumeShadowContribution]:
    [for (t = t1; t > epsilon && shadowIntensity < 1.f; t -= epsilon)]. *)
Fixpoint volumeShadow_march (n : nat) (volume : Volume) (ray : Ray)
  (epsilon t shadowIntensity : float) : option float :=
  if (t >? epsilon)%f32 && (shadowIntensity <? F32.one)%f32 then
    match n with
    | O => None
    | S n' =>
        let point := v3add (ray_org ray) (v3scale_r (ray_dir ray) t) in
        let sample := vol_sample volume point in
        volumeShadow_march n' volume ray epsilon (t - epsilon)%f32
          (shadowIntensity + getOpacityForValue volume sample)%f32
    end
  else Some shadowIntensity.

Definition getVolumeShadowContribution
  (volume : Volume) (self : AdvancedSimulationRenderer) (ray : Ray)
  (sample : ScreenSample) : option float :=
  let '(t0, t1) := intersectBox E ray (boundingBox volume) in
  let epsilon := (samplingStep volume / samplingRate volume)%f32 in
  volumeShadow_march fuel volume ray epsilon t1 F32.zero.

(** The loop over the lights of [getVolumeShadowContributions], from the
    lights still to visit and the running [shadowIntensity]:
    [for (i = 0; shadowIntensity < 1.f && lights && i < numLights; ++i)]. *)
Fixpoint volumeShadow_lights
  (volume : Volume) (self : AdvancedSimulationRenderer) (ray : Ray)
  (sample : ScreenSample) (point : vec3f) (epsilon : float)
  (ls : list Light) (shadowIntensity : float) : option float :=
  match ls with
  | [] => Some shadowIntensity
  | light :: rest =>
      if (shadowIntensity <? F32.one)%f32 then
        let dg := set_dg_P point (uninitialized_dg E) in
        let lightSample := light_sample light dg (make_vec2f F32.half) in
        let lightRay :=
          set_geomID (-1) (set_org point (set_t0 epsilon
            (set_t F32.infinity ray))) in
        let lightRay :=
          set_dir
            (if (softShadows self >? F32.zero)%f32 then
               normalize E
                 (v3add (ls_dir lightSample)
                    (v3scale (softShadows self)
                       (getRandomVector E (fb_size_x self) sample
                          (ls_dir lightSample) (randomNumber self))))
             else ls_dir lightSample)
            lightRay in
        let lightRay := traceRay E (model self) lightRay in
        if negb (ray_geomID lightRay =? -1)%Z then
          (* Intersection with geometry: [shadowIntensity += 1.f; break;] *)
          Some (shadowIntensity + F32.one)%f32
        else
          match getVolumeShadowContribution volume self lightRay sample with
          | None => None
          | Some c =>
              volumeShadow_lights volume self ray sample point epsilon rest
                (shadowIntensity + c)%f32
          end
      else Some shadowIntensity
  end.

Definition getVolumeShadowContributions
  (volume : Volume) (self : AdvancedSimulationRenderer) (ray : Ray)
  (sample : ScreenSample) (point : vec3f) (epsilon : float) : option float :=
  match volumeShadow_lights volume self ray sample point epsilon
          (lights self) F32.zero with
  | None => None
  | Some shadowIntensity => Some (shadowIntensity * shadows self)%f32
  end.

(** The state of the ray-marching loop of [getVolumeContribution]. *)
Record MarchState : Type := mkMarch {
  m_t : float;
  m_epsilon : float;
  m_pathColor : vec4f;
  m_shadowIntensity : float;
  m_shadingOccurence : Z
}.

(** The loop condition [t < t1 && pathColor.w < 1.f]. *)
Definition march_continues (t1 : float) (s : MarchState) : bool :=
  (m_t s <? t1)%f32 && (w4 (m_pathColor s) <? F32.one)%f32.

(** The light contributions of a shaded voxel (the inner loop over the
    lights). *)
Fixpoint volume_light_shading
  (volume : Volume) (self : AdvancedSimulationRenderer) (ray : Ray)
  (dg : DifferentialGeometry) (gradient volumeSampleColor : vec3f)
  (ls : list Light) (shadedColor : vec3f) : vec3f :=
  match ls with
  | [] => shadedColor
  | l :: rest =>
      let light := light_sample l dg (make_vec2f F32.half) in
      let cosNL :=
        if (x3 gradient =? F32.zero)%f32 && (y3 gradient =? F32.zero)%f32
           && (z3 gradient =? F32.zero)%f32
        then F32.one
        else F32.abs (dot E (safe_normalize E (ls_dir light)) gradient) in
      let shadedColor :=
        v3clamp
          (v3add shadedColor
             (v3mul (v3scale_r volumeSampleColor cosNL) (ls_weight light)))
          (make_vec3f F32.zero) (make_vec3f F32.one) in
      let reflectedNormal :=
        normalize E
          (v3sub (ray_dir ray)
             (v3scale (F32.two * dot E (ray_dir ray) gradient)%f32 gradient)) in
      let cosNS :=
        powf E (F32.max F32.zero (dot E (ls_dir light) reflectedNormal))
          (volumeSpecularExponent self) in
      let shadedColor := v3add shadedColor (v3scale_r (specular volume) cosNS) in
      volume_light_shading volume self ray dg gradient volumeSampleColor
        rest shadedColor
  end.

(** One iteration of the marching loop, with the increment [t += epsilon]
    of the [for] statement: [None] when the shadow rays of the voxel do not
    come back within [fuel]. *)
Definition march_body
  (volume : Volume) (self : AdvancedSimulationRenderer) (ray : Ray)
  (sample : ScreenSample) (s : MarchState) : option MarchState :=
  let t := m_t s in
  let point := v3add (ray_org ray) (v3scale t (ray_dir ray)) in
  let volumeSample := vol_sample volume point in
  let sampleOpacity := getOpacityForValue volume volumeSample in
  if (sampleOpacity <=? samplingThreshold self)%f32 then
    (* [continue]: the voxel opacity is below the sampling threshold *)
    Some (mkMarch (t + m_epsilon s)%f32 (m_epsilon s) (m_pathColor s)
            (m_shadowIntensity s) (m_shadingOccurence s))
  else
    let shadingOccurence := m_shadingOccurence s in
    let epsilon :=
      ((samplingStep volume + F32.of_Z shadingOccurence)
       / samplingRate volume)%f32 in
    let volumeSampleColor := getColorForValue volume volumeSample in
    let firstShadingOccurence := (shadingOccurence =? 0)%Z in
    let shade := if singleShade volume then firstShadingOccurence else true in
    let shadingEnabled := shade && gradientShadingEnabled volume in
    let aoEnabled :=
      firstShadingOccurence
      && (ambientOcclusionStrength self >? F32.zero)%f32 in
    let shadowsEnabled :=
      firstShadingOccurence && (shadows self >? F32.zero)%f32 in
    let gradient :=
      if shadingEnabled || aoEnabled
      then safe_normalize E (vol_computeGradient volume point)
      else uninitialized_vec3f E in
    let dg :=
      if shadingEnabled || aoEnabled
      then set_dg_Ns gradient (set_dg_epsilon epsilon
             (set_dg_P point (uninitialized_dg E)))
      else uninitialized_dg E in
    let volumeSampleColor :=
      if shadingEnabled
      then volume_light_shading volume self ray dg gradient volumeSampleColor
             (lights self) (make_vec3f F32.zero)
      else volumeSampleColor in
    let volumeSampleColor :=
      if aoEnabled then
        let '(_, indirectColor, indirectIntensity) :=
          indirectShading self sample point gradient dg in
        v3add volumeSampleColor
          (v3scale_r (v3scale sampleOpacity indirectColor) indirectIntensity)
      else volumeSampleColor in
    match
      (if shadowsEnabled
       then getVolumeShadowContributions volume self ray sample point epsilon
       else Some (m_shadowIntensity s))
    with
    | None => None
    | Some shadowIntensity =>
        let pathColor :=
          composite E (make_vec4f_of3 volumeSampleColor sampleOpacity)
            (m_pathColor s) (volumeAlphaCorrection self * epsilon)%f32 in
        Some (mkMarch (t + epsilon)%f32 epsilon pathColor shadowIntensity
                ((shadingOccurence + 1) mod 2 ^ 32)%Z)
    end.

Fixpoint march (n : nat)
  (volume : Volume) (self : AdvancedSimulationRenderer) (ray : Ray)
  (sample : ScreenSample) (t1 : float) (s : MarchState) : option MarchState :=
  if march_continues t1 s then
    match n with
    | O => None
    | S n' =>
        match march_body volume self ray sample s with
        | None => None
        | Some s' => march n' volume self ray sample t1 s'
        end
    end
  else Some s.

(** The state in which the marching loop of [getVolumeContribution] starts,
    and the distance [t1] at which it stops. *)
Definition march_start
  (volume : Volume) (self : AdvancedSimulationRenderer) (ray : Ray)
  (sample : ScreenSample) : MarchState * float :=
  let '(t0, t1) := intersectBox E ray (boundingBox volume) in
  let t1 := F32.min (ray_t ray) t1 in
  let t0 :=
    (t0 - getRandomValue E sample (randomNumber self)
          * ((t1 - t0) * F32.hundredth))%f32 in
  (mkMarch t0 (samplingStep volume) (make_vec4f F32.zero) F32.zero 0, t1).

Definition getVolumeContribution
  (volume : Volume) (self : AdvancedSimulationRenderer) (ray : Ray)
  (sample : ScreenSample) : option vec4f :=
  let '(s0, t1) := march_start volume self ray sample in
  match march fuel volume self ray sample t1 s0 with
  | None => None
  | Some s =>
      (* Apply shadow to RGB values only *)
      Some (v4mul (m_pathColor s)
              (make_vec4f_of3
                 (make_vec3f (F32.one - m_shadowIntensity s)%f32) F32.one))
  end.

(** The opacity of the geometry hit by a shadow ray. *)
Definition shadowing_opacity (shadowingGeometry : DifferentialGeometry) : float :=
  match dg_material shadowingGeometry with
  | None => (F32.one - w4 (dg_color shadowingGeometry))%f32
  | Some mat =>
      if valid E (map_d mat) then x4 (get4f E (map_d mat) shadowingGeometry)
      else if valid E (map_Kd mat)
      then (F32.one - w4 (get4f E (map_Kd mat) shadowingGeometry))%f32
      else mat_d mat
  end.

(** The geometry shadow loop [while (shadowIntensity < 1.f)] of
    [shadedLightIntensity]. *)
Fixpoint shadow_geometry_loop (n : nat) (self : AdvancedSimulationRenderer)
  (shadowIntensity : float) (shadowRay : Ray) : option (float * Ray) :=
  if (shadowIntensity <? F32.one)%f32 then
    match n with
    | O => None
    | S n' =>
        let shadowRay := traceRay E (model self) shadowRay in
        if (ray_geomID shadowRay =? -1)%Z then Some (shadowIntensity, shadowRay)
        else
          let shadowingGeometry :=
            postIntersect E (model self) (uninitialized_dg E) shadowRay
              [DG_MATERIALID; DG_TEXCOORD; DG_COLOR] in
          let opacity := shadowing_opacity shadowingGeometry in
          shadow_geometry_loop n' self (shadowIntensity + opacity)%f32
            (set_instID (-1) (set_geomID (-1) (set_primID (-1)
               (set_t F32.infinity
                  (set_t0 (ray_t shadowRay + dg_epsilon shadowingGeometry)%f32
                     shadowRay)))))
    end
  else Some (shadowIntensity, shadowRay).

(** The volume shadow loop of [shadedLightIntensity]:
    [for (i = 0; shadowIntensity < 1.f && i < volumeCount; ++i)]. *)
Fixpoint shadow_volume_loop (self : AdvancedSimulationRenderer)
  (shadowRay : Ray) (sample : ScreenSample) (vs : list Volume)
  (shadowIntensity : float) : option float :=
  match vs with
  | [] => Some shadowIntensity
  | volume :: rest =>
      if (shadowIntensity <? F32.one)%f32 then
        match getVolumeShadowContribution volume self shadowRay sample with
        | None => None
        | Some c =>
            shadow_volume_loop self shadowRay sample rest
              (shadowIntensity + c * shadows self)%f32
        end
      else Some shadowIntensity
  end.

Definition shadedLightIntensity
  (sample : ScreenSample) (ray : Ray) (dg : DifferentialGeometry)
  (attributes : ShadingAttributes) (lightDirection : vec3f) : option float :=
  let self := renderer attributes in
  let ld :=
    if (softShadows self !=? F32.zero)%f32 then
      (* Slightly alter light direction for soft shadows *)
      normalize E
        (v3add lightDirection
           (v3scale (softShadows self)
              (getRandomVector E (fb_size_x self) sample (normal attributes)
                 (randomNumber self))))
    else lightDirection in
  let shadowRay := setRay E ray (dg_P dg) ld in
  let shadowRay :=
    set_geomID (-1) (set_time (ray_time (sample_ray sample))
      (set_t F32.infinity (set_t0 (dg_epsilon dg) shadowRay))) in
  match shadow_geometry_loop fuel self F32.zero shadowRay with
  | None => None
  | Some (shadowIntensity, shadowRay) =>
      (* Volume shadows *)
      let shadowRay := set_t0 (dg_epsilon dg) (set_org (dg_P dg) shadowRay) in
      match shadow_volume_loop self shadowRay sample (volumes (model self))
              shadowIntensity with
      | None => None
      | Some shadowIntensity =>
          Some (F32.clamp (shadowIntensity * shadows self)%f32
                  F32.zero F32.one)
      end
  end.

Definition initializeShadingAttributes
  (self : AdvancedSimulationRenderer) (attributes : ShadingAttributes)
  : ShadingAttributes :=
  let z := make_vec3f F32.zero in
  mkAttributes self (origin attributes) (normal attributes)
    (reflectedNormal attributes)
    (* refraction, reflection, opacity *)
    F32.one F32.zero F32.zero
    (* diffuse and specular colour, specular exponent *)
    z z F32.zero
    (* light emission colour and intensity *)
    z F32.zero
    (* shadow intensity *)
    F32.zero
    (* simulation colour and intensity *)
    z F32.zero
    (* indirect colour and intensity *)
    z F32.zero
    (* volume colour and intensity *)
    z F32.zero
    (* shading and final contribution *)
    z z.

(** [ray.dir - 2.f * dot(ray.dir, normal) * normal]. *)
Definition reflect_about (ray : Ray) (n : vec3f) : vec3f :=
  v3sub (ray_dir ray) (v3scale (F32.two * dot E (ray_dir ray) n)%f32 n).

Definition setGeometryShadingAttributes
  (self : AdvancedSimulationRenderer) (sample : ScreenSample) (ray : Ray)
  (dg : DifferentialGeometry) (attributes : ShadingAttributes)
  : ShadingAttributes :=
  (* Intersection point with geometry, shading normal, reflected normal *)
  let a := set_origin (dg_P dg) attributes in
  let a := set_normal (dg_Ns dg) a in
  let a := set_reflectedNormal (reflect_about ray (normal a)) a in
  match dg_material dg with
  | None =>
      set_opacity (w4 (dg_color dg))
        (set_diffuseColor (make_vec3f_of4 (dg_color dg)) a)
  | Some mat =>
      (* Glossiness *)
      let a :=
        if (mat_glossiness mat <? F32.one)%f32 then
          let randomNormal :=
            v3scale (F32.one - mat_glossiness mat)%f32
              (getRandomVector E (fb_size_x self) sample (normal a)
                 (randomNumber self)) in
          set_normal (normalize E (v3add (normal a) randomNormal)) a
        else a in
      (* Refraction index *)
      let a := set_refraction (mat_refraction mat) a in
      (* Opacity *)
      let a :=
        if valid E (map_d mat)
        then set_opacity (mat_d mat * get1f E (map_d mat) dg)%f32 a
        else set_opacity (mat_d mat) a in
      (* Diffuse color *)
      let a :=
        set_diffuseColor (v3mul (mat_Kd mat) (make_vec3f_of4 (dg_color dg))) a in
      let a :=
        if valid E (map_Kd mat) then
          let diffuseColorFromMap := get4f E (map_Kd mat) dg in
          set_opacity (opacity a * w4 diffuseColorFromMap)%f32
            (set_diffuseColor
               (v3mul (diffuseColor a) (make_vec3f_of4 diffuseColorFromMap)) a)
        else a in
      (* Specular color *)
      let a :=
        if valid E (map_Ks mat)
        then set_specularColor
               (v3max (specularColor a)
                  (v3mul (mat_Ks mat) (get3f E (map_Ks mat) dg))) a
        else set_specularColor (v3max (specularColor a) (mat_Ks mat)) a in
      (* Specular exponent *)
      let a :=
        if valid E (map_Ns mat)
        then set_specularExponent
               (F32.max (specularExponent a)
                  (mat_Ns mat * get1f E (map_Ns mat) dg)%f32) a
        else set_specularExponent
               (F32.max (specularExponent a) (mat_Ns mat)) a in
      (* Light emission intensity *)
      let a :=
        set_lightEmissionIntensity
          (lightEmissionIntensity a + mat_a mat)%f32 a in
      let a := set_lightEmissionColor (diffuseColor a) a in
      (* Normal mapping *)
      let a :=
        if valid E (map_Bump mat) then
          let n :=
            v3sub_scalar
              (get3f_default E (map_Bump mat) dg (make_vec3f F32.zero))
              F32.half in
          set_normal
            (mk3 (x3 (normal a) - x3 n)%f32 (y3 (normal a) - y3 n)%f32
                 (z3 (normal a))) a
        else a in
      (* Reflection index *)
      let a := set_reflection (mat_reflection mat) a in
      let a :=
        if valid E (map_reflection mat) then
          let value := get3f E (map_reflection mat) dg in
          set_reflection
            (reflection a * ((x3 value + y3 value + z3 value) / F32.three))%f32
            a
        else a in
      (* Update reflected shading normal *)
      set_reflectedNormal (reflect_about ray (normal a)) a
  end.

Definition processBackgroundColor
  (sample : ScreenSample) (ray : Ray) (attributes : ShadingAttributes)
  : ShadingAttributes :=
  let self := renderer attributes in
  let bgColor := skyboxMapping E self ray (bgMaterial self) in
  set_shadingContribution (make_vec3f_of4 bgColor) attributes.

Definition computeIndirectShading
  (dg : DifferentialGeometry) (sample : ScreenSample)
  (attributes : ShadingAttributes) : DifferentialGeometry * ShadingAttributes :=
  let self := renderer attributes in
  if (ambientOcclusionStrength self <? samplingThreshold self)%f32
  then (dg, attributes)
  else
    let '(dg', indirectColor, indirectIntensity) :=
      indirectShading self sample (origin attributes) (normal attributes) dg in
    (dg', set_indirectIntensity indirectIntensity
            (set_indirectColor indirectColor attributes)).

(** The loop over the lights of [processShadows]. *)
Fixpoint processShadows_lights
  (sample : ScreenSample) (ray : Ray) (dg : DifferentialGeometry)
  (ls : list Light) (attributes : ShadingAttributes)
  : option ShadingAttributes :=
  match ls with
  | [] => Some attributes
  | light :: rest =>
      let lightSample := light_sample light dg (make_vec2f F32.half) in
      let radiance := reduce_max E (ls_weight lightSample) in
      let lightDirection := ls_dir lightSample in
      if (radiance <=? F32.zero)%f32
      then processShadows_lights sample ray dg rest attributes
      else
        let shadowsEnabled :=
          (lightEmissionIntensity attributes
           <? samplingThreshold (renderer attributes))%f32 in
        match
          (if shadowsEnabled
           then shadedLightIntensity sample ray dg attributes lightDirection
           else Some F32.zero)
        with
        | None => None
        | Some i =>
            processShadows_lights sample ray dg rest
              (set_shadowIntensity (shadowIntensity attributes + i)%f32
                 attributes)
        end
  end.

Definition processShadows
  (sample : ScreenSample) (ray : Ray) (dg : DifferentialGeometry)
  (attributes : ShadingAttributes) : option ShadingAttributes :=
  match processShadows_lights sample ray dg (lights (renderer attributes))
          attributes with
  | None => None
  | Some a =>
      if (shadowIntensity a >? F32.zero)%f32
      then (* Remove specular color if surface is in the shades *)
        Some (set_specularColor (make_vec3f F32.zero) a)
      else Some a
  end.

(** The loop over the lights of [processLightShading]. *)
Fixpoint processLightShading_lights
  (dg : DifferentialGeometry) (ls : list Light)
  (attributes : ShadingAttributes) : ShadingAttributes :=
  match ls with
  | [] => attributes
  | light :: rest =>
      let lightSample := light_sample light dg (make_vec2f F32.half) in
      let radiance := reduce_max E (ls_weight lightSample) in
      let lightDirection := ls_dir lightSample in
      if (radiance <=? F32.zero)%f32
      then processLightShading_lights dg rest attributes
      else
        let '(cosNL, a) :=
          if shadingEnabled (renderer attributes) then
            (* Phong + Blinn shading *)
            let cosLR := dot E lightDirection (reflectedNormal attributes) in
            (F32.max F32.zero (dot E lightDirection (normal attributes)),
             set_specularColor
               (v3scale_r (specularColor attributes)
                  (powf E cosLR (specularExponent attributes)))
               attributes)
          else
            (F32.one, set_specularColor (make_vec3f F32.zero) attributes) in
        let a := set_diffuseColor (v3scale cosNL (diffuseColor a)) a in
        let a := set_simulationColor (v3scale cosNL (simulationColor a)) a in
        (* Process light contribution *)
        let a :=
          set_shadingContribution
            (v3add (shadingContribution a)
               (v3scale radiance (diffuseColor a))) a in
        processLightShading_lights dg rest a
  end.

Definition processLightShading
  (sample : ScreenSample) (ray : Ray) (dg : DifferentialGeometry)
  (attributes : ShadingAttributes) : ShadingAttributes :=
  processLightShading_lights dg (lights (renderer attributes))
    (set_shadingContribution (make_vec3f F32.zero) attributes).

Definition processElectronShading
  (sample : ScreenSample) (attributes : ShadingAttributes)
  : ShadingAttributes :=
  let viewer :=
    normalize E (v3sub (ray_org (sample_ray sample)) (origin attributes)) in
  let el := F32.max F32.zero (dot E viewer (normal attributes)) in
  let cosNL := (F32.one - el)%f32 in
  let a :=
    set_shadingContribution (v3scale cosNL (diffuseColor attributes))
      attributes in
  let a := set_simulationColor (v3scale cosNL (simulationColor a)) a in
  set_specularColor (make_vec3f F32.zero) a.

(** The loop over the volumes of [processVolumeContribution]. *)
Fixpoint processVolumeContribution_volumes
  (sample : ScreenSample) (ray : Ray) (vs : list Volume)
  (attributes : ShadingAttributes) : option ShadingAttributes :=
  match vs with
  | [] => Some attributes
  | volume :: rest =>
      match getVolumeContribution volume (renderer attributes) ray sample with
      | None => None
      | Some volumetricValue =>
          let a :=
            set_volumeColor
              (v3add (volumeColor attributes) (make_vec3f_of4 volumetricValue))
              attributes in
          let a :=
            set_volumeIntensity
              (volumeIntensity a + w4 volumetricValue)%f32 a in
          processVolumeContribution_volumes sample ray rest a
      end
  end.

Definition processVolumeContribution
  (sample : ScreenSample) (ray : Ray) (attributes : ShadingAttributes)
  : option ShadingAttributes :=
  processVolumeContribution_volumes sample ray
    (volumes (model (renderer attributes))) attributes.

Definition processFinalContribution (attributes : ShadingAttributes)
  : ShadingAttributes :=
  (* Indirect light contribution *)
  let indirectContribution :=
    v3scale_r (v3scale (opacity attributes) (indirectColor attributes))
      (indirectIntensity attributes) in
  (* Specular contribution *)
  let totalContributions :=
    v3add (shadingContribution attributes) (specularColor attributes) in
  (* Surface shading + volume final contribution *)
  let totalContributions :=
    v3add
      (v3add
         (v3scale_r (simulationColor attributes)
            (simulationIntensity attributes))
         (v3scale_r totalContributions
            (F32.one - simulationIntensity attributes)%f32))
      indirectContribution in
  (* Shadow contribution *)
  let totalContributions :=
    v3mul totalContributions
      (make_vec3f (F32.one - shadowIntensity attributes)%f32) in
  (* Light emission contribution *)
  let totalContributions :=
    v3add totalContributions
      (v3scale (lightEmissionIntensity attributes)
         (lightEmissionColor attributes)) in
  (* Volume contribution *)
  let '(totalContributions, a) :=
    if (volumeIntensity attributes >? F32.zero)%f32 then
      (v3add
         (v3scale_r (volumeColor attributes) (volumeIntensity attributes))
         (v3scale_r totalContributions
            (F32.one - volumeIntensity attributes)%f32),
       set_opacity (opacity attributes + volumeIntensity attributes)%f32
         attributes)
    else (totalContributions, attributes) in
  (* Store final contribution *)
  set_finalContribution
    (v3clamp totalContributions (make_vec3f F32.zero) (make_vec3f F32.one)) a.

(** The variables of the rebound loop of [AdvancedSimulationRenderer_shadeRay];
    [st_depth] is an [unsigned int]. *)
Record ShadeState : Type := mkShade {
  st_ray : Ray;
  st_color : vec3f;
  st_depth : Z;
  st_oldlocalRefraction : float;
  st_moreRebounds : bool;
  st_pathOpacity : float;
  st_totalOpacity : float;
  st_sample : ScreenSample
}.

(** The loop condition
    [moreRebounds && depth < NB_MAX_REBOUNDS && pathOpacity > 0.f]. *)
Definition rebound_continues (st : ShadeState) : bool :=
  st_moreRebounds st && (st_depth st <? NB_MAX_REBOUNDS E)%Z
  && (st_pathOpacity st >? F32.zero)%f32.

(** What the first part of the loop body (down to [epsilon = dg.epsilon])
    leaves behind. *)
Record Shaded : Type := mkShaded {
  sh_attributes : ShadingAttributes;
  sh_ray : Ray;
  sh_moreRebounds : bool;
  sh_totalOpacity : float;
  sh_epsilon : float;
  sh_sample : ScreenSample
}.

Definition shade_intersection
  (self : AdvancedSimulationRenderer) (st : ShadeState) : option Shaded :=
  let sample := st_sample st in
  let attributes :=
    initializeShadingAttributes self (uninitialized_attributes E) in
  (* Trace ray *)
  let ray := traceRay E (model self) (st_ray st) in
  if (ray_geomID ray <? 0)%Z then
    (* Background contribution *)
    let attributes := processBackgroundColor sample ray attributes in
    (* Volume contribution *)
    match processVolumeContribution sample ray attributes with
    | None => None
    | Some attributes =>
        (* No geometry intersection. No need to iterate more *)
        Some (mkShaded attributes ray false
                (st_totalOpacity st + volumeIntensity attributes)%f32
                F32.zero sample)
    end
  else
    (* Get intersection information *)
    let dg :=
      postIntersect E (model self) (uninitialized_dg E) ray
        [DG_NG; DG_NS; DG_NORMALIZE; DG_FACEFORWARD; DG_TANGENTS;
         DG_MATERIALID; DG_COLOR; DG_TEXCOORD] in
    let attributes :=
      setGeometryShadingAttributes self sample ray dg attributes in
    (* Compute simulation contribution *)
    let attributes :=
      if hasSimulationMapping E dg then
        let color := getSimulationColor E self dg in
        set_simulationIntensity (w4 color)
          (set_simulationColor (make_vec3f_of4 color) attributes)
      else attributes in
    (* Z-Depth *)
    let sample :=
      if (st_depth st =? 0)%Z then set_sample_z (ray_t ray) sample
      else sample in
    match
      (if (opacity attributes >? samplingThreshold self)%f32
          && st_moreRebounds st
       then
         (* Compute indirect lighting contribution *)
         let '(dg, attributes) := computeIndirectShading dg sample attributes in
         (* Compute surface shading *)
         let attributes :=
           if electronShadingEnabled self
           then processElectronShading sample attributes
           else processLightShading sample ray dg attributes in
         (* Compute shadows *)
         match
           (if (shadows (renderer attributes) >? F32.zero)%f32
            then processShadows sample ray dg attributes
            else Some attributes)
         with
         | None => None
         | Some attributes =>
             (* Compute volume contribution *)
             match processVolumeContribution sample ray attributes with
             | None => None
             | Some attributes => Some (attributes, ray, dg)
             end
         end
       else
         (* Fully transparent object. Ignore intersection *)
         Some (attributes, set_t0 (ray_t ray + F32.one)%f32 ray, dg))
    with
    | None => None
    | Some (attributes, ray, dg) =>
        Some (mkShaded attributes ray (st_moreRebounds st)
                (st_totalOpacity st + opacity attributes)%f32
                (dg_epsilon dg) sample)
    end.

(** The switch between refraction and reflection
    ([sample.sampleID.z % 4 == 1], the remainder of a signed division). *)
Definition reflect (sample : ScreenSample) : bool :=
  (Z.rem (zi (sampleID sample)) 4 =? 1)%Z.

(** The values of the variables [doRefraction] and [doReflection] when the
    ray is prepared for the next iteration. *)
Definition doRefraction (attributes : ShadingAttributes)
  (sample : ScreenSample) : bool :=
  let doRefraction := (opacity attributes <? F32.one)%f32 in
  let doReflection := (reflection attributes >? F32.zero)%f32 in
  if doRefraction && doReflection then negb (reflect sample) else doRefraction.

Definition doReflection (attributes : ShadingAttributes)
  (sample : ScreenSample) : bool :=
  let doRefraction := (opacity attributes <? F32.one)%f32 in
  let doReflection := (reflection attributes >? F32.zero)%f32 in
  if doRefraction && doReflection then reflect sample else doReflection.

(** The second part of the loop body: the pixel colour, the ray of the next
    iteration, and [++depth]. *)
Definition rebound (st : ShadeState) (sh : Shaded) : ShadeState :=
  (* Combine all contributions *)
  let attributes := processFinalContribution (sh_attributes sh) in
  let pathOpacity := st_pathOpacity st in
  (* Pixel Color *)
  let color :=
    v3add (v3scale_r (finalContribution attributes) pathOpacity)
          (v3scale_r (st_color st) (F32.one - pathOpacity)%f32) in
  (* Prepare ray for next iteration *)
  let ray :=
    set_instID (-1) (set_geomID (-1) (set_primID (-1)
      (set_t F32.infinity
        (set_t0 (sh_epsilon sh * EPSILON_QUOTIENT)%f32
          (set_org (origin attributes) (sh_ray sh)))))) in
  let depth := ((st_depth st + 1) mod 2 ^ 32)%Z in
  if doRefraction attributes (sh_sample sh) then
    (* Refraction *)
    mkShade
      (set_dir (refractedVector E (ray_dir ray) (normal attributes)
                  (st_oldlocalRefraction st) (refraction attributes)) ray)
      color depth (refraction attributes) (sh_moreRebounds sh)
      (pathOpacity * (F32.one - opacity attributes))%f32
      (sh_totalOpacity sh) (sh_sample sh)
  else if doReflection attributes (sh_sample sh) then
    (* Reflection *)
    mkShade (set_dir (reflectedNormal attributes) ray)
      color depth (st_oldlocalRefraction st) (sh_moreRebounds sh)
      (pathOpacity * reflection attributes)%f32
      (sh_totalOpacity sh) (sh_sample sh)
  else
    mkShade ray color depth (st_oldlocalRefraction st) false pathOpacity
      (sh_totalOpacity sh) (sh_sample sh).

(** One iteration of the rebound loop. *)
Definition bounce (self : AdvancedSimulationRenderer) (st : ShadeState)
  : option ShadeState :=
  match shade_intersection self st with
  | None => None
  | Some sh => Some (rebound st sh)
  end.

(** The rebound loop, with the number of iterations it has executed. *)
Fixpoint shadeRay_loop (n : nat) (self : AdvancedSimulationRenderer)
  (st : ShadeState) : option (ShadeState * nat) :=
  if rebound_continues st then
    match n with
    | O => None
    | S n' =>
        match bounce self st with
        | None => None
        | Some st' =>
            match shadeRay_loop n' self st' with
            | None => None
            | Some (st'', k) => Some (st'', S k)
            end
        end
    end
  else Some (st, O).

Definition shadeRay_start (sample : ScreenSample) : ShadeState :=
  mkShade (sample_ray sample) (make_vec3f F32.zero) 0 F32.one true F32.one
    F32.zero (set_sample_z F32.infinity sample).

(** [AdvancedSimulationRenderer_shadeRay]: the colour and the sample. *)
Definition AdvancedSimulationRenderer_shadeRay
  (self : AdvancedSimulationRenderer) (sample : ScreenSample)
  : option (vec3f * ScreenSample) :=
  match shadeRay_loop fuel self (shadeRay_start sample) with
  | None => None
  | Some (st, _) =>
      Some (st_color st,
            set_sample_alpha (F32.min F32.one (st_totalOpacity st))
              (st_sample st))
  end.

Definition AdvancedSimulationRenderer_renderSample
  (self : AdvancedSimulationRenderer) (sample : ScreenSample)
  : option ScreenSample :=
  let sample :=
    set_sample_ray (set_time F32.infinity (sample_ray sample)) sample in
  match AdvancedSimulationRenderer_shadeRay self sample with
  | None => None
  | Some (rgb, sample) => Some (set_sample_rgb rgb sample)
  end.

(** *** Properties of the rebound loop *)

Lemma rebound_depth (st : ShadeState) (sh : Shaded) :
  st_depth (rebound st sh) = ((st_depth st + 1) mod 2 ^ 32)%Z.
Proof.
  unfold rebound.
  destruct (doRefraction _ _); [reflexivity|].
  destruct (doReflection _ _); reflexivity.
Qed.

Lemma bounce_depth (self : AdvancedSimulationRenderer) (st st' : ShadeState) :
  bounce self st = Some st' ->
  st_depth st' = ((st_depth st + 1) mod 2 ^ 32)%Z.
Proof.
  unfold bounce. destruct (shade_intersection self st) as [sh|]; [|discriminate].
  intros [= <-]. apply rebound_depth.
Qed.

Lemma rebound_continues_false (st : ShadeState) :
  rebound_continues st = false <->
  st_moreRebounds st = false
  \/ (NB_MAX_REBOUNDS E <= st_depth st)%Z
  \/ (st_pathOpacity st >? F32.zero)%f32 = false.
Proof.
  unfold rebound_continues. rewrite !andb_false_iff, Z.ltb_ge. tauto.
Qed.

Lemma shadeRay_loop_exit (n : nat) (self : AdvancedSimulationRenderer)
  (st : ShadeState) :
  rebound_continues st = false -> shadeRay_loop n self st = Some (st, O).
Proof. intros H. destruct n; simpl; rewrite H; reflexivity. Qed.

Lemma shadeRay_loop_count (self : AdvancedSimulationRenderer) :
  (NB_MAX_REBOUNDS E < 2 ^ 32)%Z ->
  forall (n : nat) (st st' : ShadeState) (k : nat),
    (0 <= st_depth st)%Z ->
    shadeRay_loop n self st = Some (st', k) ->
    st_depth st' = (st_depth st + Z.of_nat k)%Z
    /\ rebound_continues st' = false
    /\ (k = O \/ (st_depth st + Z.of_nat k <= NB_MAX_REBOUNDS E)%Z).
Proof.
  intros HN n. induction n as [|n IH]; intros st st' k Hd; simpl.
  - destruct (rebound_continues st) eqn:Hc; [discriminate|].
    intros [= <- <-]. rewrite Z.add_0_r. auto.
  - destruct (rebound_continues st) eqn:Hc.
    + destruct (bounce self st) as [st0|] eqn:Hb; [|discriminate].
      destruct (shadeRay_loop n self st0) as [[st1 k1]|] eqn:Hl; [|discriminate].
      intros [= <- <-].
      assert (Hlt : (st_depth st < NB_MAX_REBOUNDS E)%Z).
      { unfold rebound_continues in Hc.
        apply andb_true_iff in Hc as [Hc _].
        apply andb_true_iff in Hc as [_ Hc]. now apply Z.ltb_lt in Hc. }
      assert (Hd0 : st_depth st0 = (st_depth st + 1)%Z).
      { rewrite (bounce_depth _ _ _ Hb). apply Z.mod_small. lia. }
      destruct (IH st0 st1 k1 ltac:(lia) Hl) as (H1 & H2 & H3).
      split; [lia|]. split; [exact H2|]. right. lia.
    + intros [= <- <-]. rewrite Z.add_0_r. auto.
Qed.

Lemma shadeRay_loop_returns (self : AdvancedSimulationRenderer) :
  (NB_MAX_REBOUNDS E < 2 ^ 32)%Z ->
  (forall st, bounce self st <> None) ->
  forall (n : nat) (st : ShadeState),
    (0 <= st_depth st)%Z ->
    (NB_MAX_REBOUNDS E - st_depth st <= Z.of_nat n)%Z ->
    exists r, shadeRay_loop n self st = Some r.
Proof.
  intros HN Hbody n. induction n as [|n IH]; intros st Hd Hn; simpl.
  - destruct (rebound_continues st) eqn:Hc; [|eauto].
    unfold rebound_continues in Hc.
    apply andb_true_iff in Hc as [Hc _].
    apply andb_true_iff in Hc as [_ Hc]. apply Z.ltb_lt in Hc. lia.
  - destruct (rebound_continues st) eqn:Hc; [|eauto].
    assert (Hlt : (st_depth st < NB_MAX_REBOUNDS E)%Z).
    { unfold rebound_continues in Hc.
      apply andb_true_iff in Hc as [Hc _].
      apply andb_true_iff in Hc as [_ Hc]. now apply Z.ltb_lt in Hc. }
    destruct (bounce self st) as [st0|] eqn:Hb; [|now destruct (Hbody st)].
    assert (Hd0 : st_depth st0 = (st_depth st + 1)%Z).
    { rewrite (bounce_depth _ _ _ Hb). apply Z.mod_small. lia. }
    destruct (IH st0 ltac:(lia) ltac:(lia)) as [[st1 k1] Hr].
    rewrite Hr. eauto.
Qed.


(** C2.  When the ray is prepared for the next iteration: if the opacity is
    below one and the reflection is above zero, exactly one of refraction
    and reflection is selected, reflection when [sampleID.z % 4 == 1] and
    refraction otherwise; if only one of the two conditions holds, that one is
    selected; if neither holds, none is.  The selected rebound is the one
    performed: refraction sets the ray direction to the refracted vector,
    scales [pathOpacity] by [1 - opacity] and records the refraction index;
    reflection sets the direction to the reflected normal and scales
    [pathOpacity] by the reflection; with none selected [moreRebounds]
    becomes false. *)
Theorem rebound_refraction_or_reflection (st : ShadeState) (sh : Shaded) :
  let a := processFinalContribution (sh_attributes sh) in
  let s := sh_sample sh in
  let st' := rebound st sh in
  let transparent := (opacity a <? F32.one)%f32 in
  let reflective := (reflection a >? F32.zero)%f32 in
  (* the selection *)
  (transparent = true -> reflective = true ->
     doReflection a s = (Z.rem (zi (sampleID s)) 4 =? 1)%Z
     /\ doRefraction a s = negb (doReflection a s))
  /\ (transparent = true -> reflective = false ->
        doRefraction a s = true /\ doReflection a s = false)
  /\ (transparent = false -> reflective = true ->
        doRefraction a s = false /\ doReflection a s = true)
  /\ (transparent = false -> reflective = false ->
        doRefraction a s = false /\ doReflection a s = false
        /\ st_moreRebounds st' = false)
  (* what is performed *)
  /\ (doRefraction a s = true ->
        ray_dir (st_ray st')
        = refractedVector E (ray_dir (sh_ray sh)) (normal a)
            (st_oldlocalRefraction st) (refraction a)
        /\ st_pathOpacity st'
           = (st_pathOpacity st * (F32.one - opacity a))%f32
        /\ st_oldlocalRefraction st' = refraction a
        /\ st_moreRebounds st' = sh_moreRebounds sh)
  /\ (doRefraction a s = false -> doReflection a s = true ->
        ray_dir (st_ray st') = reflectedNormal a
        /\ st_pathOpacity st' = (st_pathOpacity st * reflection a)%f32
        /\ st_oldlocalRefraction st' = st_oldlocalRefraction st
        /\ st_moreRebounds st' = sh_moreRebounds sh)
  /\ (doRefraction a s = false -> doReflection a s = false ->
        st_moreRebounds st' = false
        /\ ray_dir (st_ray st') = ray_dir (sh_ray sh)
        /\ st_pathOpacity st' = st_pathOpacity st).
Proof.
  cbv zeta. unfold rebound, doRefraction, doReflection, reflect.
  set (a := processFinalContribution (sh_attributes sh)).
  destruct (opacity a <? F32.one)%f32, (reflection a >? F32.zero)%f32;
    cbn [andb];
    destruct (Z.rem (zi (sampleID (sh_sample sh))) 4 =? 1)%Z;
    cbn [negb]; repeat split; intros; try discriminate; reflexivity.
Qed.

(** *** Properties of the volume ray marching *)

Lemma march_exit (n : nat) (volume : Volume)
  (self : AdvancedSimulationRenderer) (ray : Ray) (sample : ScreenSample)
  (t1 : float) (s : MarchState) :
  march_continues t1 s = false -> march n volume self ray sample t1 s = Some s.
Proof. intros H. destruct n; simpl; rewrite H; reflexivity. Qed.

Lemma march_final (volume : Volume) (self : AdvancedSimulationRenderer)
  (ray : Ray) (sample : ScreenSample) (t1 : float) :
  forall (n : nat) (s s' : MarchState),
    march n volume self ray sample t1 s = Some s' ->
    march_continues t1 s' = false.
Proof.
  induction n as [|n IH]; intros s s'; simpl.
  - destruct (march_continues t1 s) eqn:Hc; [discriminate|]. now intros [= <-].
  - destruct (march_continues t1 s) eqn:Hc; [|now intros [= <-]].
    destruct (march_body volume self ray sample s) as [s0|]; [|discriminate].
    apply IH.
Qed.

(** A state that an iteration leaves as it is, and in which the loop
    continues, is never left. *)
Lemma march_stalls (volume : Volume) (self : AdvancedSimulationRenderer)
  (ray : Ray) (sample : ScreenSample) (t1 : float) (s : MarchState) :
  march_continues t1 s = true ->
  march_body volume self ray sample s = Some s ->
  forall n, march n volume self ray sample t1 s = None.
Proof.
  intros Hc Hb n. induction n as [|n IH]; simpl; rewrite Hc; [reflexivity|].
  rewrite Hb. exact IH.
Qed.

(** The state after an iteration that shades its sample. *)
Lemma march_body_shaded (volume : Volume) (self : AdvancedSimulationRenderer)
  (ray : Ray) (sample : ScreenSample) (s s' : MarchState) :
  (getOpacityForValue volume
     (vol_sample volume (v3add (ray_org ray) (v3scale (m_t s) (ray_dir ray))))
   <=? samplingThreshold self)%f32 = false ->
  march_body volume self ray sample s = Some s' ->
  let opacity :=
    getOpacityForValue volume
      (vol_sample volume
         (v3add (ray_org ray) (v3scale (m_t s) (ray_dir ray)))) in
  let epsilon :=
    ((samplingStep volume + F32.of_Z (m_shadingOccurence s))
     / samplingRate volume)%f32 in
  exists color shadowIntensity,
    s' = mkMarch (m_t s + epsilon)%f32 epsilon
           (composite E (make_vec4f_of3 color opacity) (m_pathColor s)
              (volumeAlphaCorrection self * epsilon)%f32)
           shadowIntensity ((m_shadingOccurence s + 1) mod 2 ^ 32)%Z.
Proof.
  intros Hs. unfold march_body. rewrite Hs.
  match goal with
  | |- context [match ?c with Some _ => _ | None => None end] =>
      destruct c as [si|]
  end; [|discriminate].
  intros [= <-]. cbv zeta. eauto.
Qed.


(** *** Properties of the shadow accumulation *)

Lemma shadow_geometry_loop_exit (n : nat) (self : AdvancedSimulationRenderer)
  (shadowIntensity : float) (shadowRay : Ray) :
  (shadowIntensity <? F32.one)%f32 = false ->
  shadow_geometry_loop n self shadowIntensity shadowRay
  = Some (shadowIntensity, shadowRay).
Proof. intros H. destruct n; simpl; rewrite H; reflexivity. Qed.

Lemma shadow_volume_loop_exit (self : AdvancedSimulationRenderer)
  (shadowRay : Ray) (sample : ScreenSample) (vs : list Volume)
  (shadowIntensity : float) :
  (shadowIntensity <? F32.one)%f32 = false ->
  shadow_volume_loop self shadowRay sample vs shadowIntensity
  = Some shadowIntensity.
Proof. intros H. destruct vs; simpl; [|rewrite H]; reflexivity. Qed.

Lemma volumeShadow_lights_exit (volume : Volume)
  (self : AdvancedSimulationRenderer) (ray : Ray) (sample : ScreenSample)
  (point : vec3f) (epsilon : float) (ls : list Light) (shadowIntensity : float) :
  (shadowIntensity <? F32.one)%f32 = false ->
  volumeShadow_lights volume self ray sample point epsilon ls shadowIntensity
  = Some shadowIntensity.
Proof. intros H. destruct ls; simpl; [|rewrite H]; reflexivity. Qed.


End Kernel.

(** *** A scene without geometry

    An engine in which every traced ray misses, with a camera ray along the
    z axis for which [intersectBox] yields the z extent of the box. *)

Definition black : vec3f := make_vec3f F32.zero.
Definition forward : vec3f := mk3 F32.zero F32.zero F32.one.

Definition camera_ray : Ray :=
  mkRay black forward F32.zero F32.infinity F32.zero (-1) (-1) (-1).

Definition first_sample : ScreenSample :=
  mkSample camera_ray (mk3i 0 0 0) F32.zero F32.zero black.

Definition blank_dg : DifferentialGeometry :=
  mkDG black forward F32.zero (make_vec4f F32.zero) None 0.

(** A renderer for [m] with no lights, shadows off and a sampling threshold
    of zero. *)
Definition plain_renderer (m : Model) : AdvancedSimulationRenderer :=
  mkRenderer m 1 None [] [] 0 F32.zero F32.zero F32.zero F32.zero true false
    F32.zero F32.zero F32.one.

Definition blank_attributes : ShadingAttributes :=
  mkAttributes (plain_renderer (mkModel 0 [])) black black black
    F32.zero F32.zero F32.zero black black F32.zero black F32.zero F32.zero
    black F32.zero black F32.zero black F32.zero black black.

Definition empty_space : Engine :=
  {| traceRay := fun _ r => set_geomID (-1) r;
     postIntersect := fun _ dg _ _ => dg;
     setRay := fun r o d => set_dir d (set_org o r);
     intersectBox := fun _ b => (z3 (box_lower b), z3 (box_upper b));
     dot := fun a b =>
       (x3 a * x3 b + y3 a * y3 b + z3 a * z3 b)%f32;
     normalize := fun v => v;
     safe_normalize := fun v => v;
     reduce_max := fun v => F32.max (F32.max (x3 v) (y3 v)) (z3 v);
     powf := fun a _ => a;
     valid := fun t => match texture_id t with Some _ => true | None => false end;
     get1f := fun _ _ => F32.one;
     get3f := fun _ _ => make_vec3f F32.one;
     get3f_default := fun _ _ d => d;
     get4f := fun _ _ => make_vec4f F32.one;
     getRandomVector := fun _ _ n _ => n;
     getRandomValue := fun _ _ => F32.zero;
     skyboxMapping := fun _ _ _ => make_vec4f F32.zero;
     composite := fun _ dst _ => dst;
     refractedVector := fun d _ _ _ => d;
     hasSimulationMapping := fun _ => false;
     getSimulationColor := fun _ _ => make_vec4f F32.zero;
     DEFAULT_SKY_POWER := F32.half;
     NB_MAX_REBOUNDS := 10;
     uninitialized_dg := blank_dg;
     uninitialized_vec3f := black;
     uninitialized_attributes := blank_attributes |}.

(** A fully transparent volume between z = 16777216 and z = 33554432,
    sampled with a step of 1. *)
Definition far_volume : Volume :=
  mkVolume
    (mkBox (mk3 (F32.opp F32.one) (F32.opp F32.one) (F32.of_Z 16777216))
           (mk3 F32.one F32.one (F32.of_Z 33554432)))
    F32.one F32.one false false black
    (fun _ => F32.zero) (fun _ => black) (fun _ => F32.zero) (fun _ => black).

Definition far_renderer : AdvancedSimulationRenderer :=
  plain_renderer (mkModel 0 [far_volume]).

Definition void_renderer : AdvancedSimulationRenderer :=
  plain_renderer (mkModel 0 []).

(** In binary32, 16777216 + 1 is 16777216. *)
Example absorbed_step :
  F32.add (F32.of_Z 16777216) F32.one = F32.of_Z 16777216.
Proof. reflexivity. Qed.

Lemma far_volume_not_crossed (fuel : nat) :
  getVolumeContribution empty_space fuel far_volume far_renderer
    (set_geomID (-1) camera_ray) (set_sample_z F32.infinity first_sample)
  = None.
Proof.
  unfold getVolumeContribution.
  destruct (march_start empty_space far_volume far_renderer
              (set_geomID (-1) camera_ray)
              (set_sample_z F32.infinity first_sample)) as [s0 t1] eqn:Hs.
  vm_compute in Hs. injection Hs as <- <-.
  rewrite march_stalls; [reflexivity | reflexivity | reflexivity].
Qed.

Lemma far_rebound_not_shaded (fuel : nat) :
  shade_intersection empty_space fuel far_renderer (shadeRay_start first_sample)
  = None.
Proof.
  unfold shade_intersection.
  change (ray_geomID
            (traceRay empty_space (model far_renderer)
               (st_ray (shadeRay_start first_sample))) <? 0)%Z with true.
  cbv iota. unfold processVolumeContribution.
  change (volumes (model (renderer _))) with [far_volume].
  cbn [processVolumeContribution_volumes].
  change (getVolumeContribution empty_space fuel far_volume _ _ _)
    with (getVolumeContribution empty_space fuel far_volume far_renderer
            (set_geomID (-1) camera_ray)
            (set_sample_z F32.infinity first_sample)).
  rewrite far_volume_not_crossed. reflexivity.
Qed.


Lemma void_bounce_returns (fuel : nat) (st : ShadeState) :
  bounce empty_space fuel void_renderer st <> None.
Proof.
  unfold bounce, shade_intersection.
  change (ray_geomID (traceRay empty_space (model void_renderer) (st_ray st))
          <? 0)%Z with true.
  cbv iota. unfold processVolumeContribution.
  change (volumes (model (renderer _))) with (@nil Volume).
  cbn [processVolumeContribution_volumes]. discriminate.
Qed.


End Renderer.

(** ** The morphology loader ([MorphologyLoader.cpp]) *)

Module MorphologyLoader.

Import F32.

Local Open Scope Z_scope.

(** *** Effects

    A call returns, throws a C++ exception, runs into undefined behaviour
    (an index out of range, a division by zero, a null pointer, a conversion
    out of range), or is still running when its fuel is spent.  The state
    reached is kept in every case. *)

Inductive exn : Type :=
  | runtime_error (what : string)
  | bad_lexical_cast
  | other_exception (what : string).

Inductive outcome (A : Type) : Type :=
  | Returned (a : A)
  | Thrown (e : exn)
  | Undefined
  | Unfinished.

Arguments Returned {A} a.
Arguments Thrown {A} e.
Arguments Undefined {A}.
Arguments Unfinished {A}.

(** What a call into a library gives back: a value or an exception. *)
Inductive result (A : Type) : Type :=
  | Ok (a : A)
  | Raise (e : exn).

Arguments Ok {A} a.
Arguments Raise {A} e.

Definition of_result {A : Type} (r : result A) : outcome A :=
  match r with
  | Ok a => Returned a
  | Raise e => Thrown e
  end.

Definition Eff (S A : Type) : Type := S -> S * outcome A.

Definition ret {S A : Type} (a : A) : Eff S A := fun s => (s, Returned a).

Definition bind {S A B : Type} (m : Eff S A) (k : A -> Eff S B) : Eff S B :=
  fun s =>
    match m s with
    | (s', Returned a) => k a s'
    | (s', Thrown e) => (s', Thrown e)
    | (s', Undefined) => (s', Undefined)
    | (s', Unfinished) => (s', Unfinished)
    end.

Definition lift {S A : Type} (o : outcome A) : Eff S A := fun s => (s, o).
Definition throw {S A : Type} (e : exn) : Eff S A := lift (Thrown e).
Definition call {S A : Type} (r : result A) : Eff S A := lift (of_result r).
Definition get {S : Type} : Eff S S := fun s => (s, Returned s).
Definition modify {S : Type} (f : S -> S) : Eff S unit :=
  fun s => (f s, Returned tt).

(** [try { m } catch (const std::runtime_error& e) { handler e.what() }]. *)
Definition try_catch_runtime_error {S A : Type}
  (m : Eff S A) (handler : string -> Eff S A) : Eff S A :=
  fun s =>
    match m s with
    | (s', Thrown (runtime_error what)) => handler what s'
    | r => r
    end.

(** [try { m } catch (...) { handler }]. *)
Definition try_catch_all {S A : Type} (m : Eff S A) (handler : Eff S A)
  : Eff S A :=
  fun s =>
    match m s with
    | (s', Thrown _) => handler s'
    | r => r
    end.

Declare Scope eff_scope.
Delimit Scope eff_scope with eff.
Notation "x <- m ;; k" := (bind m (fun x => k))
  (at level 100, m at next level, right associativity) : eff_scope.
Notation "m ;;; k" := (bind m (fun _ => k))
  (at level 100, right associativity) : eff_scope.
Local Open Scope eff_scope.

(** [v[i]] on a [std::vector]: undefined out of range. *)
Definition at_index {A : Type} (v : list A) (i : Z) : outcome A :=
  if (0 <=? i) && (i <? Z.of_nat (length v)) then
    match nth_error v (Z.to_nat i) with
    | Some a => Returned a
    | None => Undefined
    end
  else Undefined.

(** [size_t] arithmetic (64 bits). *)
Definition wrap64 (z : Z) : Z := z mod 2 ^ 64.
Definition size (A : Type) (v : list A) : Z := Z.of_nat (length v).
Arguments size {A} v.

(** *** Geometry *)

Record Vector3f : Type := mkV3 { v3x : float; v3y : float; v3z : float }.
Record Vector4f : Type :=
  mkV4 { v4x : float; v4y : float; v4z : float; v4w : float }.

Definition Vector3f_add (a b : Vector3f) : Vector3f :=
  mkV3 (F32.add (v3x a) (v3x b)) (F32.add (v3y a) (v3y b))
       (F32.add (v3z a) (v3z b)).
Definition Vector3f_sub (a b : Vector3f) : Vector3f :=
  mkV3 (F32.sub (v3x a) (v3x b)) (F32.sub (v3y a) (v3y b))
       (F32.sub (v3z a) (v3z b)).
Definition xyz (s : Vector4f) : Vector3f := mkV3 (v4x s) (v4y s) (v4z s).

Record Matrix4f : Type := mkMatrix { entries : list float }.

(** [Matrix4f()]: the identity. *)
Definition Matrix4f_identity : Matrix4f :=
  mkMatrix [one; zero; zero; zero; zero; one; zero; zero;
            zero; zero; one; zero; zero; zero; zero; one].

(** [Sphere(material, center, radius, timestamp, value)] and its siblings,
    with the arguments in the order of the constructor calls. *)
Record Sphere : Type := mkSphere {
  sphere_material : Z;
  sphere_center : Vector3f;
  sphere_radius : float;
  sphere_distance : float;
  sphere_offset : float
}.

Record Cylinder : Type := mkCylinder {
  cylinder_material : Z;
  cylinder_center : Vector3f;
  cylinder_up : Vector3f;
  cylinder_radius : float;
  cylinder_distance : float;
  cylinder_offset : float
}.

Record Cone : Type := mkCone {
  cone_material : Z;
  cone_center : Vector3f;
  cone_up : Vector3f;
  cone_centerRadius : float;
  cone_upRadius : float;
  cone_distance : float;
  cone_offset : float
}.

(** [std::map<size_t, std::vector<T>>] and [m[key].push_back(x)]. *)
Definition push_back {A : Type} (m : gmap Z (list A)) (key : Z) (x : A)
  : gmap Z (list A) :=
  <[key := default [] (m !! key) ++ [x]]> m.

(** [for (const auto& p : src) dst[p.first].insert(dst[p.first].end(),
    src[p.first].begin(), src[p.first].end());] *)
Definition append_all {A : Type} (dst src : gmap Z (list A))
  : gmap Z (list A) :=
  map_fold (fun key xs acc => <[key := default [] (acc !! key) ++ xs]> acc)
    dst src.

(** *** Parameters and enumerations *)

Inductive SectionType : Type :=
  | soma | axon | dendrite | apicalDendrite | undefined.

Inductive ColorScheme : Type :=
  | cs_none | neuron_by_id | neuron_by_type | neuron_by_segment_type
  | neuron_by_layer | neuron_by_mtype | neuron_by_etype
  | protein_atoms | protein_chains | protein_residues.

Inductive GeometryQuality : Type := low | medium | high.

Inductive NeuronAttributes : Type :=
  | NEURON_LAYER | NEURON_MTYPE | NEURON_ETYPE | NEURON_ALL.

Record MorphologyLayout : Type := mkLayout {
  nbColumns : Z;
  verticalSpacing : Z;
  horizontalSpacing : Z
}.

(** The getters of [GeometryParameters] that the loader calls; the circuit
    density is an unsigned integer percentage. *)
Record GeometryParameters : Type := mkParameters {
  useMetaballs : bool;
  getMorphologySectionTypes : Z;
  getColorScheme : ColorScheme;
  getRadiusCorrection : float;
  getRadiusMultiplier : float;
  getMorphologyLayout : MorphologyLayout;
  getGeometryQuality : GeometryQuality;
  getUseSimulationModel : bool;
  getMetaballsSamplesFromSoma : Z;
  getMetaballsGridSize : Z;
  getMetaballsThreshold : float;
  getCircuitDensity : Z;
  getMeshedMorphologiesFolder : string;
  getNonSimulatedCells : Z;
  getSimulationCacheFile : string;
  getStartSimulationTime : float;
  getEndSimulationTime : float
}.

(** The constants of [brayns/common/types.h] used by the loader; the number
    of system materials is below the number of materials. *)
Record Constants : Type := mkConstants {
  NO_MATERIAL : Z;
  NB_MAX_MATERIALS : Z;
  NB_SYSTEM_MATERIALS : Z;
  MST_SOMA : Z;
  MST_AXON : Z;
  MST_DENDRITE : Z;
  MST_APICAL_DENDRITE : Z
}.

(** *** Data read through Brion and Brain *)

Record URI : Type := mkURI { getPath : string }.

Record Section_ : Type := mkSection {
  getType : SectionType;
  getSamples : list Vector4f;
  getDistanceToSoma : float;
  getSampleDistancesToSoma : list float;
  (** [hasParent()] and [getParent().getType()] *)
  getParentType : option SectionType
}.

Record Soma : Type := mkSoma {
  getCentroid : Vector3f;
  getMeanRadius : float;
  getChildren : list Section_
}.

Record Morphology : Type := mkMorphology {
  getPoints : list Vector4f;
  getSoma : result Soma;
  getSections : list SectionType -> list Section_
}.

(** [SimulationInformation]: the compartment counts and offsets of one
    cell. *)
Record SimulationInformation : Type := mkSimulationInformation {
  compartmentCounts : list Z;
  compartmentOffsets : list Z
}.

Record CompartmentReport : Type := mkReport {
  getCompartmentCounts : list (list Z);
  getOffsets : list (list Z);
  report_getGIDs : list Z;
  getStartTime : float;
  getEndTime : float;
  getTimestep : float;
  getFrameSize : Z;
  (** [loadFrame]: a null pointer is [None] *)
  loadFrame : float -> option (list float)
}.

Record BlueConfig : Type := mkBlueConfig {
  getCircuitSource : URI;
  getReportSource : string -> URI
}.

(** [brain::Circuit]; a GID set is the increasing list of its members. *)
Record Circuit : Type := mkCircuit {
  getGIDs : list Z;
  getGIDs_target : string -> result (list Z);
  getTransforms : list Z -> list Matrix4f;
  getMorphologyURIs : list Z -> list URI
}.

Inductive LogLine : Type :=
  | BRAYNS_ERROR (message : string)
  | BRAYNS_WARN (message : string)
  | BRAYNS_INFO (message : string) (values : list Z).

(** *** The scene, the libraries and the state of a call *)

Section Loader.

(** [Boxf] (vmmlib's bounding box), the triangle meshes and the materials of
    the scene are only handed over to code outside the sources. *)
Variable Boxf : Type.
Variable Meshes : Type.
Variable Materials : Type.

(** [CircuitSimulationHandler], as far as the loader sets it up. *)
Record CircuitSimulationHandler : Type := mkHandler {
  handler_parameters : GeometryParameters;
  handler_nbFrames : Z;
  handler_frameSize : Z
}.

Record Scene : Type := mkScene {
  getSpheres : gmap Z (list Sphere);
  getCylinders : gmap Z (list Cylinder);
  getCones : gmap Z (list Cone);
  getWorldBounds : Boxf;
  getTriangleMeshes : Meshes;
  getMaterials : Materials;
  getSimulationHandler : option CircuitSimulationHandler
}.

(** What the loader acts on: the scene, the log, and the files it writes. *)
Record World : Type := mkWorld {
  w_scene : Scene;
  w_log : list LogLine;
  w_files : gmap string (list Byte.byte)
}.

(** Code outside the sources: the build configuration, vmmlib, Brion and
    Brain (constructors that read files may throw), Boost, and the Brayns
    classes [MetaballsGenerator], [MeshLoader] and
    [CircuitSimulationHandler]. *)
Record Libraries : Type := mkLibraries {
  BRAYNS_USE_BRION : bool;
  constants : Constants;
  Boxf_new : Boxf;
  merge_point : Boxf -> Vector3f -> Boxf;
  merge_box : Boxf -> Boxf -> Boxf;
  getCenter : Boxf -> Vector3f;
  Vector3f_neq : Vector3f -> Vector3f -> bool;
  open_Morphology : URI -> Matrix4f -> result Morphology;
  open_BlueConfig : string -> result BlueConfig;
  open_Circuit : BlueConfig -> result Circuit;
  open_CompartmentReport : string -> list Z -> result CompartmentReport;
  brion_Circuit_get :
    URI -> list Z -> NeuronAttributes -> result (list (list string));
  lexical_cast : string -> option Z;
  stem : string -> string;
  generateMesh :
    list Sphere -> Z -> float -> Materials -> Z -> Meshes -> Meshes;
  importMeshFromFile :
    string -> Scene -> GeometryQuality -> Matrix4f -> Z -> Scene;
  attachSimulationToCacheFile :
    CircuitSimulationHandler -> gmap string (list Byte.byte) -> string -> bool;
  ofstream_is_open : string -> bool;
  writeHeader : CircuitSimulationHandler -> list Byte.byte;
  writeFrame : CircuitSimulationHandler -> list float -> list Byte.byte
}.

Variable L : Libraries.
Variable _geometryParameters : GeometryParameters.

(** The iterations granted to the segment loop of [_importMorphology]. *)
Variable fuel : nat.

(** The containers [_importMorphology] receives by reference, with the log. *)
Record Build : Type := mkBuild {
  b_spheres : gmap Z (list Sphere);
  b_cylinders : gmap Z (list Cylinder);
  b_cones : gmap Z (list Cone);
  b_bounds : Boxf;
  b_maxDistanceToSoma : float;
  b_log : list LogLine
}.

Definition push_sphere (material : Z) (s : Sphere) : Eff Build unit :=
  modify (fun b =>
    mkBuild (push_back (b_spheres b) material s) (b_cylinders b) (b_cones b)
      (b_bounds b) (b_maxDistanceToSoma b) (b_log b)).
Definition push_cylinder (material : Z) (c : Cylinder) : Eff Build unit :=
  modify (fun b =>
    mkBuild (b_spheres b) (push_back (b_cylinders b) material c) (b_cones b)
      (b_bounds b) (b_maxDistanceToSoma b) (b_log b)).
Definition push_cone (material : Z) (c : Cone) : Eff Build unit :=
  modify (fun b =>
    mkBuild (b_spheres b) (b_cylinders b) (push_back (b_cones b) material c)
      (b_bounds b) (b_maxDistanceToSoma b) (b_log b)).
Definition bounds_merge (p : Vector3f) : Eff Build unit :=
  modify (fun b =>
    mkBuild (b_spheres b) (b_cylinders b) (b_cones b)
      (merge_point L (b_bounds b) p) (b_maxDistanceToSoma b) (b_log b)).
Definition set_maxDistanceToSoma (d : float) : Eff Build unit :=
  modify (fun b =>
    mkBuild (b_spheres b) (b_cylinders b) (b_cones b) (b_bounds b) d (b_log b)).
Definition build_log (l : LogLine) : Eff Build unit :=
  modify (fun b =>
    mkBuild (b_spheres b) (b_cylinders b) (b_cones b) (b_bounds b)
      (b_maxDistanceToSoma b) (b_log b ++ [l])).

(** A loop over the elements of a container. *)
Fixpoint for_each {S A : Type} (l : list A) (body : A -> Eff S unit)
  : Eff S unit :=
  match l with
  | [] => ret tt
  | a :: rest => body a ;;; for_each rest body
  end.

(** A loop over the elements of a container that carries local variables. *)
Fixpoint for_each_with {S A V : Type} (l : list A) (body : V -> A -> Eff S V)
  (v : V) : Eff S V :=
  match l with
  | [] => ret v
  | a :: rest => v' <- body v a ;; for_each_with rest body v'
  end.

Definition _getMaterialFromSectionType
  (morphologyIndex forcedMaterial : Z) (sectionType : SectionType)
  (colorScheme : ColorScheme) : Z :=
  let c := constants L in
  if negb (forcedMaterial =? NO_MATERIAL c) then forcedMaterial
  else
    match colorScheme with
    | neuron_by_id =>
        morphologyIndex mod wrap64 (NB_MAX_MATERIALS c - NB_SYSTEM_MATERIALS c)
    | neuron_by_segment_type =>
        let s :=
          match sectionType with
          | soma => 1
          | axon => 2
          | dendrite => 3
          | apicalDendrite => 4
          | undefined => 0
          end in
        s mod wrap64 (NB_MAX_MATERIALS c - NB_SYSTEM_MATERIALS c)
    | _ => 0
    end.

Definition has_bit (flags bit : Z) : bool := negb (Z.land flags bit =? 0).

Definition _getSectionTypes (morphologySectionTypes : Z) : list SectionType :=
  let c := constants L in
  (if has_bit morphologySectionTypes (MST_SOMA c) then [soma] else [])
  ++ (if has_bit morphologySectionTypes (MST_AXON c) then [axon] else [])
  ++ (if has_bit morphologySectionTypes (MST_DENDRITE c)
      then [dendrite] else [])
  ++ (if has_bit morphologySectionTypes (MST_APICAL_DENDRITE c)
      then [apicalDendrite] else []).

(** [getRadiusCorrection() != 0.f ? getRadiusCorrection() : r *
    getRadiusMultiplier()]. *)
Definition corrected_radius (r : float) : float :=
  if F32.neqb (getRadiusCorrection _geometryParameters) zero
  then getRadiusCorrection _geometryParameters
  else F32.mul r (getRadiusMultiplier _geometryParameters).

(** The containers [_importMorphologyAsMesh] receives by reference. *)
Record MeshBuild : Type := mkMeshBuild {
  mb_meshes : Meshes;
  mb_bounds : Boxf;
  mb_log : list LogLine
}.

Definition mesh_bounds_merge (p : Vector3f) : Eff MeshBuild unit :=
  modify (fun b =>
    mkMeshBuild (mb_meshes b) (merge_point L (mb_bounds b) p) (mb_log b)).

(** The metaballs of one section of [_importMorphologyAsMesh]. *)
Definition section_metaballs (morphologyIndex forcedMaterial : Z)
  (metaballs : list Sphere) (section : Section_)
  : Eff MeshBuild (list Sphere) :=
  let skipped :=
    match getParentType section with
    | Some parentSectionType =>
        match parentSectionType with soma => false | _ => true end
    | None => false
    end in
  if skipped then ret metaballs
  else
    let material :=
      _getMaterialFromSectionType morphologyIndex forcedMaterial
        (getType section) (getColorScheme _geometryParameters) in
    let samples := getSamples section in
    if size samples =? 0 then ret metaballs
    else
      let samplesFromSoma :=
        getMetaballsSamplesFromSoma _geometryParameters in
      let samplesToProcess := Z.min samplesFromSoma (size samples) in
      for_each_with (firstn (Z.to_nat samplesToProcess) samples)
        (fun metaballs sample =>
           let position := xyz sample in
           let radius := corrected_radius (F32.mul (v4w sample) half) in
           mesh_bounds_merge position ;;;
           ret (if F32.gtb radius zero
                then metaballs ++ [mkSphere material position radius zero zero]
                else metaballs))
        metaballs.

Definition _importMorphologyAsMesh
  (source : URI) (morphologyIndex : Z) (materials : Materials)
  (transformation : Matrix4f) (forcedMaterial : Z) : Eff MeshBuild bool :=
  try_catch_runtime_error
    (let morphologySectionTypes :=
       getMorphologySectionTypes _geometryParameters in
     morphology <- call (open_Morphology L source transformation) ;;
     let sectionTypes := _getSectionTypes morphologySectionTypes in
     let sections := getSections morphology sectionTypes in
     metaballs <-
       (if has_bit morphologySectionTypes (MST_SOMA (constants L)) then
          (* Soma *)
          soma_ <- call (getSoma morphology) ;;
          let material :=
            _getMaterialFromSectionType morphologyIndex forcedMaterial soma
              (getColorScheme _geometryParameters) in
          let center := getCentroid soma_ in
          let radius := corrected_radius (getMeanRadius soma_) in
          mesh_bounds_merge center ;;;
          ret [mkSphere material center radius zero zero]
        else ret []) ;;
     (* Dendrites and axon *)
     metaballs <-
       for_each_with sections
         (section_metaballs morphologyIndex forcedMaterial) metaballs ;;
     (* Generate mesh *)
     let gridSize := getMetaballsGridSize _geometryParameters in
     let threshold := getMetaballsThreshold _geometryParameters in
     let material :=
       _getMaterialFromSectionType morphologyIndex forcedMaterial soma
         (getColorScheme _geometryParameters) in
     modify (fun b =>
       mkMeshBuild
         (generateMesh L metaballs gridSize threshold materials material
            (mb_meshes b))
         (mb_bounds b) (mb_log b)) ;;;
     ret true)
    (fun what =>
       modify (fun b =>
         mkMeshBuild (mb_meshes b) (mb_bounds b)
           (mb_log b ++ [BRAYNS_ERROR what])) ;;;
       ret false).

(** The translation that places a morphology in the layout grid. *)
Definition layout_translation (morphology : Morphology) (morphologyIndex : Z)
  : Vector3f :=
  let layout := getMorphologyLayout _geometryParameters in
  if negb (nbColumns layout =? 0) then
    let morphologyAABB :=
      fold_left (fun box point => merge_point L box (xyz point))
        (getPoints morphology) (Boxf_new L) in
    let positionInGrid :=
      mkV3
        (F32.mul (F32.mul (F32.opp one) (of_Z (horizontalSpacing layout)))
           (of_Z (morphologyIndex mod nbColumns layout)))
        (F32.mul (F32.mul (F32.opp one) (of_Z (verticalSpacing layout)))
           (of_Z (morphologyIndex / nbColumns layout)))
        zero in
    Vector3f_sub positionInGrid (getCenter L morphologyAABB)
  else mkV3 zero zero zero.

(** The step of the segment loop for a section with [n] samples. *)
Definition quality_step (n : Z) : Z :=
  match getGeometryQuality _geometryParameters with
  | low => wrap64 (n - 1)
  | medium => let step := n / 2 in if step =? 0 then 1 else step
  | high => 1
  end.

(** The value of [segmentStep] for a section: [0.f] unless
    [simulationInformation] is given, [samples.empty()] holds and the
    section has more than one compartment. *)
Definition segmentStep_of
  (simulationInformation : option SimulationInformation)
  (samples : list Vector4f) (sectionId : Z) : outcome float :=
  match simulationInformation with
  | Some info =>
      let counts := compartmentCounts info in
      (* Number of compartments usually differs from number of samples *)
      match samples with
      | [] =>
          match at_index counts sectionId with
          | Returned c =>
              if 1 <? c
              then Returned (F32.div (of_Z c) (of_Z (size samples)))
              else Returned zero
          | Thrown e => Thrown e
          | Undefined => Undefined
          | Unfinished => Unfinished
          end
      | _ :: _ => Returned zero
      end
  | None => Returned zero
  end.

(** The local variables of the segment loop, with [offset], which lives on
    from one section to the next. *)
Record SegmentVars : Type := mkSegmentVars {
  seg_i : Z;
  seg_done : bool;
  seg_previousSample : Vector4f;
  seg_offset : float
}.

(** The simulation offset given to the primitives of sample [i]. *)
Definition sample_offset
  (simulationInformation : option SimulationInformation)
  (simulationOffset sectionId i : Z) (segmentStep distance offset : float)
  : outcome float :=
  match simulationInformation with
  | Some info =>
      match at_index (compartmentOffsets info) sectionId with
      | Returned o =>
          Returned (F32.add (of_Z o) (F32.mul (of_Z i) segmentStep))
      | Thrown e => Thrown e
      | Undefined => Undefined
      | Unfinished => Unfinished
      end
  | None =>
      if negb (simulationOffset =? 0)
      then Returned (F32.add (of_Z simulationOffset) distance)
      else Returned offset
  end.

(** The segment loop
    [for (size_t i = step; !done && i < samples.size() + step; i += step)]. *)
Fixpoint segments (n : nat)
  (simulationInformation : option SimulationInformation)
  (simulationOffset sectionId material : Z) (translation : Vector3f)
  (section : Section_) (step : Z) (segmentStep : float) (v : SegmentVars)
  : Eff Build SegmentVars :=
  let samples := getSamples section in
  if negb (seg_done v) && (seg_i v <? wrap64 (size samples + step)) then
    match n with
    | O => lift Unfinished
    | S n' =>
        let '(i, done) :=
          if size samples <=? seg_i v
          then (wrap64 (size samples - 1), true)
          else (seg_i v, seg_done v) in
        d <- lift (at_index (getSampleDistancesToSoma section) i) ;;
        let distance := F32.add (getDistanceToSoma section) d in
        b <- get ;;
        set_maxDistanceToSoma (std_max (b_maxDistanceToSoma b) distance) ;;;
        offset <-
          lift (sample_offset simulationInformation simulationOffset sectionId
                  i segmentStep distance (seg_offset v)) ;;
        sample <- lift (at_index samples i) ;;
        previousRadius <-
          (if F32.neqb (getRadiusCorrection _geometryParameters) zero
           then ret (getRadiusCorrection _geometryParameters)
           else
             previous <- lift (at_index samples (wrap64 (i - step))) ;;
             ret (F32.mul (F32.mul (v4w previous) half)
                    (getRadiusMultiplier _geometryParameters))) ;;
        let position := Vector3f_add (xyz sample) translation in
        let target :=
          Vector3f_add (xyz (seg_previousSample v)) translation in
        let radius := corrected_radius (F32.mul (v4w sample) half) in
        (if F32.gtb radius zero
         then push_sphere material
                (mkSphere material position radius distance offset)
         else ret tt) ;;;
        bounds_merge position ;;;
        (if Vector3f_neq L position target && F32.gtb radius zero
            && F32.gtb previousRadius zero
         then
           (if F32.eqb radius previousRadius
            then push_cylinder material
                   (mkCylinder material position target radius distance offset)
            else push_cone material
                   (mkCone material position target radius previousRadius
                      distance offset)) ;;;
           bounds_merge target
         else ret tt) ;;;
        segments n' simulationInformation simulationOffset sectionId material
          translation section step segmentStep
          (mkSegmentVars (wrap64 (i + step)) done sample offset)
    end
  else ret v.

(** One iteration of the loop over the sections ("Dendrites and axon"),
    from the section index and the offset reached so far. *)
Definition import_section
  (simulationInformation : option SimulationInformation)
  (simulationOffset morphologyIndex forcedMaterial : Z)
  (translation : Vector3f) (vars : Z * float) (section : Section_)
  : Eff Build (Z * float) :=
  let '(sectionId, offset) := vars in
  let material :=
    _getMaterialFromSectionType morphologyIndex forcedMaterial
      (getType section) (getColorScheme _geometryParameters) in
  let samples := getSamples section in
  if size samples =? 0 then ret (sectionId, offset)
  else
    previousSample <- lift (at_index samples 0) ;;
    let step := quality_step (size samples) in
    segmentStep <-
      lift (segmentStep_of simulationInformation samples sectionId) ;;
    v <- segments fuel simulationInformation simulationOffset sectionId
           material translation section step segmentStep
           (mkSegmentVars step false previousSample offset) ;;
    ret (wrap64 (sectionId + 1), seg_offset v).

(** The soma and, with a simulation model, the cones towards its children. *)
Definition import_soma (morphology : Morphology)
  (morphologyIndex forcedMaterial : Z) (translation : Vector3f)
  (offset : float) : Eff Build unit :=
  soma_ <- call (getSoma morphology) ;;
  let material :=
    _getMaterialFromSectionType morphologyIndex forcedMaterial soma
      (getColorScheme _geometryParameters) in
  let somaPosition := Vector3f_add (getCentroid soma_) translation in
  let radius := corrected_radius (getMeanRadius soma_) in
  push_sphere material (mkSphere material somaPosition radius zero offset) ;;;
  bounds_merge somaPosition ;;;
  if getUseSimulationModel _geometryParameters then
    for_each (getChildren soma_)
      (fun child =>
         let samples := getSamples child in
         first <- lift (at_index samples 0) ;;
         let sample := xyz first in
         push_cone material
           (mkCone material somaPosition sample radius
              (F32.mul (F32.mul (v4w first) half)
                 (getRadiusMultiplier _geometryParameters))
              zero offset) ;;;
         bounds_merge sample)
  else ret tt.

Definition _importMorphology
  (source : URI) (morphologyIndex : Z) (transformation : Matrix4f)
  (simulationInformation : option SimulationInformation)
  (simulationOffset forcedMaterial : Z) : Eff Build bool :=
  set_maxDistanceToSoma zero ;;;
  try_catch_runtime_error
    (morphology <- call (open_Morphology L source transformation) ;;
     let translation := layout_translation morphology morphologyIndex in
     let morphologySectionTypes :=
       getMorphologySectionTypes _geometryParameters in
     let sectionTypes := _getSectionTypes morphologySectionTypes in
     let sections := getSections morphology sectionTypes in
     let sectionId := 0 in
     offset <-
       match simulationInformation with
       | Some info =>
           o <- lift (at_index (compartmentOffsets info) sectionId) ;;
           ret (of_Z o)
       | None =>
           if negb (simulationOffset =? 0) then ret (of_Z simulationOffset)
           else ret zero
       end ;;
     (if negb (useMetaballs _geometryParameters)
         && has_bit morphologySectionTypes (MST_SOMA (constants L))
      then import_soma morphology morphologyIndex forcedMaterial translation
             offset
      else ret tt) ;;;
     (* Dendrites and axon *)
     for_each_with sections
       (import_section simulationInformation simulationOffset morphologyIndex
          forcedMaterial translation)
       (sectionId, offset) ;;;
     ret true)
    (fun what => build_log (BRAYNS_ERROR what) ;;; ret false).

(** *** Calls on the containers of the scene *)

Definition set_scene (sc : Scene) (w : World) : World :=
  mkWorld sc (w_log w) (w_files w).

Definition log (l : LogLine) : Eff World unit :=
  modify (fun w => mkWorld (w_scene w) (w_log w ++ [l]) (w_files w)).

(** A call of [_importMorphologyAsMesh] on [scene.getTriangleMeshes()] and
    [scene.getWorldBounds()]. *)
Definition on_scene_meshes {A : Type} (m : Eff MeshBuild A) : Eff World A :=
  fun w =>
    let sc := w_scene w in
    let '(b, o) :=
      m (mkMeshBuild (getTriangleMeshes sc) (getWorldBounds sc) (w_log w)) in
    (mkWorld
       (mkScene (getSpheres sc) (getCylinders sc) (getCones sc) (mb_bounds b)
          (mb_meshes b) (getMaterials sc) (getSimulationHandler sc))
       (mb_log b) (w_files w),
     o).

(** A call of [_importMorphology] on the sphere, cylinder and cone
    containers and the bounds of the scene; [maxDistanceToSoma] is a local
    variable of the caller. *)
Definition on_scene_geometry {A : Type} (m : Eff Build A) : Eff World A :=
  fun w =>
    let sc := w_scene w in
    let '(b, o) :=
      m (mkBuild (getSpheres sc) (getCylinders sc) (getCones sc)
           (getWorldBounds sc) zero (w_log w)) in
    (mkWorld
       (mkScene (b_spheres b) (b_cylinders b) (b_cones b) (b_bounds b)
          (getTriangleMeshes sc) (getMaterials sc) (getSimulationHandler sc))
       (b_log b) (w_files w),
     o).

(** [importMorphology]; the index is an [int] converted to [size_t], and the
    material is not forced. *)
Definition importMorphology (uri : URI) (morphologyIndex : Z)
  : Eff World bool :=
  if BRAYNS_USE_BRION L then
    returnValue <-
      (if useMetaballs _geometryParameters then
         sc <- get ;;
         on_scene_meshes
           (_importMorphologyAsMesh uri (wrap64 morphologyIndex)
              (getMaterials (w_scene sc)) Matrix4f_identity
              (NO_MATERIAL (constants L)))
       else ret true) ;;
    if returnValue then
      on_scene_geometry
        (_importMorphology uri (wrap64 morphologyIndex) Matrix4f_identity
           None 0 (NO_MATERIAL (constants L)))
    else ret false
  else
    log (BRAYNS_ERROR "Brion is required to load morphologies") ;;;
    ret false.

Definition getNeuronAttributes (colorScheme : ColorScheme)
  : NeuronAttributes :=
  match colorScheme with
  | neuron_by_layer => NEURON_LAYER
  | neuron_by_mtype => NEURON_MTYPE
  | neuron_by_etype => NEURON_ETYPE
  | _ => NEURON_ALL
  end.

(** [getNeuronMatrix]: the returned flag and the rows pushed to
    [neuronMatrix]. *)
Definition getNeuronMatrix (bc : BlueConfig) (gids : list Z)
  (colorScheme : ColorScheme) : Eff World (bool * list string) :=
  let neuronAttributes := getNeuronAttributes colorScheme in
  match neuronAttributes with
  | NEURON_ALL => ret (false, [])
  | _ =>
      try_catch_all
        (rows <-
           call (brion_Circuit_get L (getCircuitSource bc) gids
                   neuronAttributes) ;;
         neuronMatrix <-
           for_each_with rows
             (fun neuronMatrix a =>
                first <- lift (at_index a 0) ;; ret (neuronMatrix ++ [first]))
             [] ;;
         ret (true, neuronMatrix))
        (log (BRAYNS_WARN
                "Only MVD2 format is currently supported by Brion circuits. Color scheme by layer, e-type or m-type is not available for this circuit") ;;;
         ret (false, []))
  end.

(** *** The parallel regions

    An OpenMP parallel region with a work-sharing loop: every iteration is
    run by one thread, a thread runs its iterations in increasing order on
    its private containers, and after its last iteration ([nowait]) it runs
    the statements that follow the loop.  An execution is an interleaving of
    the threads' steps; a step is one loop iteration, one critical section,
    or the closing merge of the bounds.  [owner] and [schedule] describe the
    execution: the thread of each iteration, and the thread that takes each
    step. *)

Record Parallelism : Type := mkParallelism {
  more_threads : nat;
  owner : Z -> nat;
  schedule : list nat
}.

(** The scene and the log, with the local variables of [importCircuit] that
    its threads share. *)
Record Shared : Type := mkShared {
  sh_world : World;
  sh_simulationOffset : Z;
  sh_morphologyOffsets : gmap Z float
}.

Record Private : Type := mkPrivate {
  private_spheres : gmap Z (list Sphere);
  private_cylinders : gmap Z (list Cylinder);
  private_cones : gmap Z (list Cone);
  private_bounds : Boxf
}.

Definition new_private : Private := mkPrivate ∅ ∅ ∅ (Boxf_new L).

Record Thread : Type := mkThread {
  thread_todo : list Z;
  thread_private : Private;
  (** the statements after the loop that the thread has executed *)
  thread_merged : nat
}.

Definition in_world {A : Type} (m : Eff World A) : Eff Shared A :=
  fun sh =>
    let '(w, o) := m (sh_world sh) in
    (mkShared w (sh_simulationOffset sh) (sh_morphologyOffsets sh), o).

Definition in_shared {A : Type} (m : Eff Shared A)
  : Eff (Shared * Private) A :=
  fun s => let '(sh, o) := m (fst s) in ((sh, snd s), o).

(** A call of [_importMorphology] on the private containers of a thread,
    with the [maxDistanceToSoma] it leaves. *)
Definition on_private_geometry (m : Eff Build bool)
  : Eff (Shared * Private) (bool * float) :=
  fun s =>
    let sh := fst s in
    let p := snd s in
    let '(b, o) :=
      m (mkBuild (private_spheres p) (private_cylinders p) (private_cones p)
           (private_bounds p) zero (w_log (sh_world sh))) in
    ((mkShared
        (mkWorld (w_scene (sh_world sh)) (b_log b) (w_files (sh_world sh)))
        (sh_simulationOffset sh) (sh_morphologyOffsets sh),
      mkPrivate (b_spheres b) (b_cylinders b) (b_cones b) (b_bounds b)),
     match o with
     | Returned ok => Returned (ok, b_maxDistanceToSoma b)
     | Thrown e => Thrown e
     | Undefined => Undefined
     | Unfinished => Unfinished
     end).

Definition map_scene (f : Scene -> Scene) (sh : Shared) : Shared :=
  mkShared (set_scene (f (w_scene (sh_world sh))) (sh_world sh))
    (sh_simulationOffset sh) (sh_morphologyOffsets sh).

(** The statements after the loop: three critical sections and the merge of
    the bounds. *)
Definition merge_spheres (p : Private) (sc : Scene) : Scene :=
  mkScene (append_all (getSpheres sc) (private_spheres p)) (getCylinders sc)
    (getCones sc) (getWorldBounds sc) (getTriangleMeshes sc) (getMaterials sc)
    (getSimulationHandler sc).
Definition merge_cylinders (p : Private) (sc : Scene) : Scene :=
  mkScene (getSpheres sc) (append_all (getCylinders sc) (private_cylinders p))
    (getCones sc) (getWorldBounds sc) (getTriangleMeshes sc) (getMaterials sc)
    (getSimulationHandler sc).
Definition merge_cones (p : Private) (sc : Scene) : Scene :=
  mkScene (getSpheres sc) (getCylinders sc)
    (append_all (getCones sc) (private_cones p)) (getWorldBounds sc)
    (getTriangleMeshes sc) (getMaterials sc) (getSimulationHandler sc).
Definition merge_bounds (p : Private) (sc : Scene) : Scene :=
  mkScene (getSpheres sc) (getCylinders sc) (getCones sc)
    (merge_box L (getWorldBounds sc) (private_bounds p))
    (getTriangleMeshes sc) (getMaterials sc) (getSimulationHandler sc).

Definition thread_finished (t : Thread) : bool :=
  match thread_todo t with
  | [] => (4 <=? thread_merged t)%nat
  | _ :: _ => false
  end.

(** What an execution records of a loop iteration: its index, the shared
    state and the private containers it started from, and the private
    containers it left. *)
Record Event : Type := mkEvent {
  ev_iteration : Z;
  ev_shared : Shared;
  ev_private : Private;
  ev_result : Private
}.

(** One step of a thread, with the loop iteration it ran, if any. *)
Definition thread_step (iteration : Z -> Eff (Shared * Private) unit)
  (sh : Shared) (t : Thread) : Shared * Thread * outcome unit * list Event :=
  match thread_todo t with
  | i :: rest =>
      let '((sh', p'), o) := iteration i (sh, thread_private t) in
      (sh', mkThread rest p' O, o, [mkEvent i sh (thread_private t) p'])
  | [] =>
      let p := thread_private t in
      match thread_merged t with
      | 0%nat =>
          (map_scene (merge_spheres p) sh, mkThread [] p 1, Returned tt, [])
      | 1%nat =>
          (map_scene (merge_cylinders p) sh, mkThread [] p 2, Returned tt, [])
      | 2%nat =>
          (map_scene (merge_cones p) sh, mkThread [] p 3, Returned tt, [])
      | 3%nat =>
          (map_scene (merge_bounds p) sh, mkThread [] p 4, Returned tt, [])
      | _ => (sh, t, Returned tt, [])
      end
  end.

Record Execution : Type := mkExecution {
  ex_shared : Shared;
  ex_threads : list Thread;
  ex_trace : list Event;
  ex_outcome : outcome unit
}.

(** The steps of a schedule.  An exception that leaves a loop iteration
    leaves the parallel region, which OpenMP does not define. *)
Fixpoint run_threads (iteration : Z -> Eff (Shared * Private) unit)
  (steps : list nat) (sh : Shared) (threads : list Thread) : Execution :=
  match steps with
  | [] =>
      mkExecution sh threads []
        (if forallb thread_finished threads then Returned tt else Unfinished)
  | k :: rest =>
      match threads !! k with
      | None => run_threads iteration rest sh threads
      | Some t =>
          let '(sh', t', o, events) := thread_step iteration sh t in
          match o with
          | Returned _ =>
              let ex := run_threads iteration rest sh' (<[k := t']> threads) in
              mkExecution (ex_shared ex) (ex_threads ex)
                (events ++ ex_trace ex) (ex_outcome ex)
          | Unfinished =>
              mkExecution sh' (<[k := t']> threads) events Unfinished
          | _ => mkExecution sh' (<[k := t']> threads) events Undefined
          end
      end
  end.

(** The threads at the start of a region over the iterations [0 .. n-1]. *)
Definition start_threads (par : Parallelism) (n : Z) : list Thread :=
  map (fun k =>
         mkThread
           (filter (fun i => (owner par i mod S (more_threads par))%nat = k)
              (seqZ 0 n))
           new_private O)
      (seq 0 (S (more_threads par))).

Definition parallel_for (par : Parallelism) (n : Z)
  (iteration : Z -> Eff (Shared * Private) unit) : Eff Shared unit :=
  fun sh =>
    let ex := run_threads iteration (schedule par) sh (start_threads par n) in
    (ex_shared ex, ex_outcome ex).

(** *** [importCircuit] *)

Definition empty (s : string) : bool :=
  match s with
  | EmptyString => true
  | String _ _ => false
  end.

(** Division of [size_t]: undefined when the divisor is zero. *)
Definition divide (a b : Z) : outcome Z :=
  if b =? 0 then Undefined else Returned (a / b).

(** [uris.size() / (uris.size() * circuitDensity / 100)]. *)
Definition nbSkippedCells_of (nbUris circuitDensity : Z) : outcome Z :=
  divide nbUris (wrap64 (nbUris * circuitDensity) / 100).

(** [nbSkippedCells != 0 && i % nbSkippedCells != 0]. *)
Definition skipped (nbSkippedCells i : Z) : bool :=
  negb (nbSkippedCells =? 0) && negb (i mod nbSkippedCells =? 0).

(** [boost::lexical_cast<size_t>]. *)
Definition cast_material {S : Type} (s : string) : Eff S Z :=
  match lexical_cast L s with
  | Some m => ret m
  | None => throw bad_lexical_cast
  end.

Definition run_shared {A : Type} (m : Eff Shared A) : Eff World A :=
  fun w => let '(sh, o) := m (mkShared w 1 ∅) in (sh_world sh, o).

(** The sequential loop that loads the meshed morphologies. *)
Definition import_meshes (suffix : string) (uris : list URI)
  (transforms : list Matrix4f) (mvd3Support : bool)
  (neuronMatrix : list string) (nbSkippedCells : Z) : Eff World unit :=
  for_each (seqZ 0 (size uris))
    (fun i =>
       if skipped nbSkippedCells i then ret tt
       else
         material <-
           (if mvd3Support then
              row <- lift (at_index neuronMatrix i) ;; cast_material row
            else
              ret (_getMaterialFromSectionType i (NO_MATERIAL (constants L))
                     undefined (getColorScheme _geometryParameters))) ;;
         uri <- lift (at_index uris i) ;;
         let filenameNoExt := stem L (getPath uri) in
         let meshFilename :=
           (getMeshedMorphologiesFolder _geometryParameters ++ "/"
            ++ filenameNoExt ++ suffix)%string in
         transform <- lift (at_index transforms i) ;;
         modify (fun w =>
           set_scene
             (importMeshFromFile L meshFilename (w_scene w)
                (getGeometryQuality _geometryParameters) transform material)
             w)).

(** The metaballs mesh of a cell, built straight into the scene. *)
Definition cell_mesh (uri : URI) (i : Z) (transforms : list Matrix4f)
  (material : Z) : Eff (Shared * Private) unit :=
  if useMetaballs _geometryParameters then
    transform <- lift (at_index transforms i) ;;
    in_shared (in_world
      (w <- get ;;
       on_scene_meshes
         (_importMorphologyAsMesh uri i (getMaterials (w_scene w)) transform
            material))) ;;;
    ret tt
  else ret tt.

(** The body of the parallel loop of [importCircuit] (without report). *)
Definition circuit_cell (uris : list URI) (transforms : list Matrix4f)
  (mvd3Support : bool) (neuronMatrix : list string) (nbSkippedCells : Z)
  (i : Z) : Eff (Shared * Private) unit :=
  if skipped nbSkippedCells i then ret tt
  else
    uri <- lift (at_index uris i) ;;
    material <-
      (if mvd3Support then
         row <- lift (at_index neuronMatrix i) ;; cast_material row
       else ret (NO_MATERIAL (constants L))) ;;
    cell_mesh uri i transforms material ;;;
    transform <- lift (at_index transforms i) ;;
    s <- get ;;
    r <- on_private_geometry
           (_importMorphology uri i transform None
              (sh_simulationOffset (fst s)) material) ;;
    if fst r then
      let maxDistanceToSoma := snd r in
      s <- get ;;
      (* [simulationOffset += maxDistanceToSoma] on a [size_t] *)
      match
        to_uint64
          (F32.add (of_Z (sh_simulationOffset (fst s))) maxDistanceToSoma)
      with
      | Some simulationOffset =>
          modify (fun s : Shared * Private =>
            (mkShared (sh_world (fst s)) simulationOffset
               (<[0 := maxDistanceToSoma]> (sh_morphologyOffsets (fst s))),
             snd s))
      | None => lift Undefined
      end
    else ret tt.

Definition importCircuit (par : Parallelism) (circuitConfig : URI)
  (target : string) : Eff World bool :=
  if BRAYNS_USE_BRION L then
    bc <- call (open_BlueConfig L (getPath circuitConfig)) ;;
    circuit <- call (open_Circuit L bc) ;;
    gids <-
      call (if empty target then Ok (getGIDs circuit)
            else getGIDs_target circuit target) ;;
    if size gids =? 0 then
      log (BRAYNS_ERROR "Circuit does not contain any cells") ;;;
      ret false
    else
      let transforms := getTransforms circuit gids in
      let uris := getMorphologyURIs circuit gids in
      log (BRAYNS_INFO "Loading cells" [size uris]) ;;;
      (* Read Brion circuit *)
      matrix <-
        getNeuronMatrix bc gids (getColorScheme _geometryParameters) ;;
      let mvd3Support := fst matrix in
      let neuronMatrix := snd matrix in
      let circuitDensity := getCircuitDensity _geometryParameters in
      nbSkippedCells <-
        lift (nbSkippedCells_of (size uris) circuitDensity) ;;
      loadParametricGeometry <-
        (if negb (empty (getMeshedMorphologiesFolder _geometryParameters))
         then
           import_meshes ".h5.bin_decimated.off" uris transforms mvd3Support
             neuronMatrix nbSkippedCells ;;;
           ret (getUseSimulationModel _geometryParameters)
         else ret true) ;;
      (if loadParametricGeometry then
         run_shared
           (parallel_for par (size uris)
              (circuit_cell uris transforms mvd3Support neuronMatrix
                 nbSkippedCells))
       else ret tt) ;;;
      ret true
  else
    log (BRAYNS_ERROR "Brion is required to load circuits") ;;;
    ret false.

(** [std::distance(gids.begin(), std::find(gids.begin(), gids.end(), gid))]:
    the size of the set when the value is absent. *)
Fixpoint find_index (gids : list Z) (gid : Z) : Z :=
  match gids with
  | [] => 0
  | g :: rest => if g =? gid then 0 else 1 + find_index rest gid
  end.

Definition contains (gids : list Z) (gid : Z) : bool :=
  existsb (Z.eqb gid) gids.

(** The body of the parallel loop over the simulated cells. *)
Definition simulated_cell (cr_uris : list URI) (transforms : list Matrix4f)
  (compartmentCounts compartmentOffsets : list (list Z))
  (mvd3Support : bool) (neuronMatrix : list string) (nbSkippedCells : Z)
  (i : Z) : Eff (Shared * Private) unit :=
  if skipped nbSkippedCells i then ret tt
  else
    uri <- lift (at_index cr_uris i) ;;
    counts <- lift (at_index compartmentCounts i) ;;
    offsets <- lift (at_index compartmentOffsets i) ;;
    let simulationInformation := mkSimulationInformation counts offsets in
    material <-
      (if mvd3Support then
         row <- lift (at_index neuronMatrix i) ;; cast_material row
       else ret (NO_MATERIAL (constants L))) ;;
    cell_mesh uri i transforms material ;;;
    transform <- lift (at_index transforms i) ;;
    on_private_geometry
      (_importMorphology uri i transform (Some simulationInformation) 0
         material) ;;;
    ret tt.

(** The body of the parallel loop over the cells without simulation. *)
Definition non_simulated_cell (allUris : list URI)
  (transforms allTransforms : list Matrix4f)
  (mvd3Support : bool) (neuronMatrix : list string) (nbSkippedCells : Z)
  (i : Z) : Eff (Shared * Private) unit :=
  if skipped nbSkippedCells i then ret tt
  else
    uri <- lift (at_index allUris i) ;;
    material <-
      (if mvd3Support then
         row <- lift (at_index neuronMatrix i) ;;
         (* [neuronMatrix[i][0]]: the first character, or the terminator *)
         cast_material
           (match row with
            | String c _ => String c EmptyString
            | EmptyString => String Ascii.zero EmptyString
            end)
       else ret (NO_MATERIAL (constants L))) ;;
    if negb (empty (getMeshedMorphologiesFolder _geometryParameters)) then
      let filenameNoExt := stem L (getPath uri) in
      let meshFilename :=
        (getMeshedMorphologiesFolder _geometryParameters ++ filenameNoExt
         ++ ".off")%string in
      transform <- lift (at_index transforms i) ;;
      modify (fun s : Shared * Private =>
        (map_scene
           (fun sc =>
              importMeshFromFile L meshFilename sc
                (getGeometryQuality _geometryParameters) transform material)
           (fst s),
         snd s))
    else
      transform <- lift (at_index allTransforms i) ;;
      on_private_geometry
        (_importMorphology uri i transform None 0 material) ;;;
      ret tt.

(** [importCircuit] with a compartment report; [par] and [par'] describe
    the executions of its two parallel regions. *)
Definition importCircuit_report (par par' : Parallelism) (circuitConfig : URI)
  (target report : string) : Eff World bool :=
  if BRAYNS_USE_BRION L then
    let filename := getPath circuitConfig in
    bc <- call (open_BlueConfig L filename) ;;
    circuit <- call (open_Circuit L bc) ;;
    gids <-
      call (if empty target then Ok (getGIDs circuit)
            else getGIDs_target circuit target) ;;
    if size gids =? 0 then
      log (BRAYNS_ERROR "Circuit does not contain any cells") ;;;
      ret false
    else
      let transforms := getTransforms circuit gids in
      let uris := getMorphologyURIs circuit gids in
      (* Load simulation information from compartment reports *)
      compartmentReport <-
        call (open_CompartmentReport L
                (getPath (getReportSource bc report)) gids) ;;
      let compartmentCounts := getCompartmentCounts compartmentReport in
      let compartmentOffsets := getOffsets compartmentReport in
      let cr_gids := report_getGIDs compartmentReport in
      (* Read Brion circuit *)
      matrix <-
        getNeuronMatrix bc gids (getColorScheme _geometryParameters) ;;
      let mvd3Support := fst matrix in
      let neuronMatrix := snd matrix in
      log (BRAYNS_INFO "Loading simulated cells" [size cr_gids]) ;;;
      cr_uris <-
        for_each_with cr_gids
          (fun cr_uris cr_gid =>
             let index := find_index gids cr_gid in
             uri <- lift (at_index uris index) ;; ret (cr_uris ++ [uri]))
          [] ;;
      let circuitDensity := getCircuitDensity _geometryParameters in
      nbSkippedCells <-
        lift (nbSkippedCells_of (size uris) circuitDensity) ;;
      loadParametricGeometry <-
        (if negb (empty (getMeshedMorphologiesFolder _geometryParameters))
         then
           import_meshes ".h5.bin_decimated.off" uris transforms mvd3Support
             neuronMatrix nbSkippedCells ;;;
           ret (getUseSimulationModel _geometryParameters)
         else ret true) ;;
      (if loadParametricGeometry then
         run_shared
           (parallel_for par (size cr_uris)
              (simulated_cell cr_uris transforms compartmentCounts
                 compartmentOffsets mvd3Support neuronMatrix nbSkippedCells))
       else ret tt) ;;;
      let nonSimulatedCells := getNonSimulatedCells _geometryParameters in
      (if negb (nonSimulatedCells =? 0) then
         (* Non simulated cells *)
         let allGids := getGIDs circuit in
         let allUris := getMorphologyURIs circuit allGids in
         let allTransforms := getTransforms circuit allGids in
         cr_uris <-
           for_each_with (combine allGids (seqZ 0 (size allGids)))
             (fun cr_uris gid_index =>
                if contains cr_gids (fst gid_index) then ret cr_uris
                else
                  uri <- lift (at_index allUris (snd gid_index)) ;;
                  ret (cr_uris ++ [uri]))
             [] ;;
         let nonSimulatedCells :=
           if size cr_uris <? nonSimulatedCells then size cr_uris
           else nonSimulatedCells in
         log (BRAYNS_INFO "Loading non-simulated cells" [nonSimulatedCells]) ;;;
         run_shared
           (parallel_for par' nonSimulatedCells
              (non_simulated_cell allUris transforms allTransforms mvd3Support
                 neuronMatrix nbSkippedCells))
       else ret tt) ;;;
      ret true
  else
    log (BRAYNS_ERROR "Brion is required to load circuits") ;;;
    ret false.

(** *** [importSimulationData] *)

Definition append_to_file (name : string) (bytes : list Byte.byte)
  : Eff World unit :=
  modify (fun w =>
    mkWorld (w_scene w) (w_log w)
      (<[name := default [] (w_files w !! name) ++ bytes]> (w_files w))).

(** The body of the cache file: the loop
    [for (uint64_t frame = 0; frame < nbFrames; ++frame)], from the frames
    still to write. *)
Fixpoint write_frames (cacheFile : string)
  (simulationHandler : CircuitSimulationHandler)
  (compartmentReport : CompartmentReport) (firstFrame step : float)
  (remaining : nat) (frame : Z) : Eff World unit :=
  match remaining with
  | O => ret tt
  | S remaining' =>
      let frameTime := F32.add firstFrame (F32.mul step (of_Z frame)) in
      match loadFrame compartmentReport frameTime with
      | None => lift Undefined
      | Some values =>
          append_to_file cacheFile (writeFrame L simulationHandler values) ;;;
          write_frames cacheFile simulationHandler compartmentReport
            firstFrame step remaining' (frame + 1)
      end
  end.

Definition importSimulationData (circuitConfig : URI)
  (target report : string) : Eff World bool :=
  if BRAYNS_USE_BRION L then
    let filename := getPath circuitConfig in
    bc <- call (open_BlueConfig L filename) ;;
    circuit <- call (open_Circuit L bc) ;;
    gids <-
      call (if empty target then Ok (getGIDs circuit)
            else getGIDs_target circuit target) ;;
    if size gids =? 0 then
      log (BRAYNS_ERROR "Circuit does not contain any cells") ;;;
      ret false
    else
      (* Load simulation information from compartment reports *)
      compartmentReport <-
        call (open_CompartmentReport L
                (getPath (getReportSource bc report)) gids) ;;
      let simulationHandler := mkHandler _geometryParameters 0 0 in
      modify (fun w =>
        let sc := w_scene w in
        set_scene
          (mkScene (getSpheres sc) (getCylinders sc) (getCones sc)
             (getWorldBounds sc) (getTriangleMeshes sc) (getMaterials sc)
             (Some simulationHandler)) w) ;;;
      let cacheFile := getSimulationCacheFile _geometryParameters in
      w <- get ;;
      if attachSimulationToCacheFile L simulationHandler (w_files w) cacheFile
      then (* Cache already exists, no need to create it. *) ret true
      else
        log (BRAYNS_INFO "Cache file does not exist, creating it" []) ;;;
        if negb (ofstream_is_open L cacheFile) then
          log (BRAYNS_ERROR "Failed to create cache file") ;;;
          ret false
        else
          (* the stream is open: the file exists and is empty *)
          modify (fun w =>
            mkWorld (w_scene w) (w_log w) (<[cacheFile := []]> (w_files w))) ;;;
          let start := getStartTime compartmentReport in
          let end_ := getEndTime compartmentReport in
          let step := getTimestep compartmentReport in
          let firstFrame :=
            std_max start (getStartSimulationTime _geometryParameters) in
          let lastFrame :=
            std_min end_ (getEndSimulationTime _geometryParameters) in
          let frameSize := getFrameSize compartmentReport in
          match to_uint64 (F32.div (F32.sub lastFrame firstFrame) step) with
          | None => lift Undefined
          | Some nbFrames =>
              log (BRAYNS_INFO
                     "Loading values from compartment report and saving them to cache"
                     []) ;;;
              (* Write header *)
              let simulationHandler :=
                mkHandler _geometryParameters nbFrames frameSize in
              modify (fun w =>
                let sc := w_scene w in
                set_scene
                  (mkScene (getSpheres sc) (getCylinders sc) (getCones sc)
                     (getWorldBounds sc) (getTriangleMeshes sc)
                     (getMaterials sc) (Some simulationHandler)) w) ;;;
              append_to_file cacheFile (writeHeader L simulationHandler) ;;;
              (* Write body *)
              write_frames cacheFile simulationHandler compartmentReport
                firstFrame step (Z.to_nat nbFrames) 0 ;;;
              log (BRAYNS_INFO "----------------------------------------" []) ;;;
              log (BRAYNS_INFO "Cache file successfully created" []) ;;;
              log (BRAYNS_INFO "Number of frames: " [nbFrames]) ;;;
              log (BRAYNS_INFO "Frame size      : " [frameSize]) ;;;
              log (BRAYNS_INFO "----------------------------------------" []) ;;;
              ret true
          end
  else
    log (BRAYNS_ERROR "Brion is required to load circuits") ;;;
    ret false.

(** *** Symbolic execution of effectful code *)

Lemma bind_ret {S A B : Type} (a : A) (k : A -> Eff S B) (s : S) :
  bind (ret a) k s = k a s.
Proof. reflexivity. Qed.

Lemma bind_returned {S A B : Type} (a : A) (k : A -> Eff S B) (s : S) :
  bind (lift (Returned a)) k s = k a s.
Proof. reflexivity. Qed.

Lemma bind_ok {S A B : Type} (a : A) (k : A -> Eff S B) (s : S) :
  bind (call (Ok a)) k s = k a s.
Proof. reflexivity. Qed.

Lemma bind_raise {S A B : Type} (e : exn) (k : A -> Eff S B) (s : S) :
  bind (call (Raise e)) k s = (s, Thrown e).
Proof. reflexivity. Qed.

Lemma bind_undefined {S A B : Type} (k : A -> Eff S B) (s : S) :
  bind (lift Undefined) k s = (s, Undefined).
Proof. reflexivity. Qed.

Lemma bind_modify {S B : Type} (f : S -> S) (k : unit -> Eff S B) (s : S) :
  bind (modify f) k s = k tt (f s).
Proof. reflexivity. Qed.

Lemma bind_get {S B : Type} (k : S -> Eff S B) (s : S) :
  bind get k s = k s s.
Proof. reflexivity. Qed.

Lemma bind_log {B : Type} (l : LogLine) (k : unit -> Eff World B) (w : World) :
  bind (log l) k w = k tt (mkWorld (w_scene w) (w_log w ++ [l]) (w_files w)).
Proof. reflexivity. Qed.

Lemma bind_assoc {S A B C : Type} (m : Eff S A) (k : A -> Eff S B)
  (h : B -> Eff S C) (s : S) :
  bind (bind m k) h s = bind m (fun a => bind (k a) h) s.
Proof. unfold bind. destruct (m s) as [s' [a|e| |]]; reflexivity. Qed.

(** An outcome of code that neither throws nor loops. *)
Definition returned_or_undefined {A : Type} (o : outcome A) : Prop :=
  match o with
  | Returned _ | Undefined => True
  | Thrown _ | Unfinished => False
  end.

Lemma at_index_outcome {A : Type} (v : list A) (i : Z) :
  returned_or_undefined (at_index v i).
Proof.
  unfold at_index. destruct (_ && _); [|exact I].
  destruct (nth_error v (Z.to_nat i)); exact I.
Qed.

Lemma at_index_returned {A : Type} (v : list A) (i : Z) (a : A) :
  at_index v i = Returned a <->
  0 <= i < size v /\ nth_error v (Z.to_nat i) = Some a.
Proof.
  unfold at_index, size. split.
  - destruct (0 <=? i) eqn:H0; [|discriminate].
    destruct (i <? Z.of_nat (length v)) eqn:H1; [|discriminate].
    cbn [andb]. destruct (nth_error v (Z.to_nat i)); [|discriminate].
    intros [= ->]. apply Z.leb_le in H0. apply Z.ltb_lt in H1. auto.
  - intros [[H0 H1] ->].
    apply Z.leb_le in H0. apply Z.ltb_lt in H1. now rewrite H0, H1.
Qed.

Lemma for_each_with_outcome {S A V : Type} (body : V -> A -> Eff S V) :
  (forall v a s, returned_or_undefined (snd (body v a s))) ->
  forall l v s, returned_or_undefined (snd (for_each_with l body v s)).
Proof.
  intros Hbody l. induction l as [|a l IH]; intros v s; [exact I|].
  cbn [for_each_with]. unfold bind.
  specialize (Hbody v a s). destruct (body v a s) as [s' [v'| e | |]];
    cbn in *; auto.
Qed.

Lemma getNeuronMatrix_outcome (bc : BlueConfig) (gids : list Z)
  (colorScheme : ColorScheme) (w : World) :
  returned_or_undefined (snd (getNeuronMatrix bc gids colorScheme w)).
Proof.
  assert (Hrows : forall rows (acc : list string) (w : World),
    returned_or_undefined
      (snd (for_each_with rows
              (fun neuronMatrix (a : list string) =>
                 first <- lift (at_index a 0) ;; ret (neuronMatrix ++ [first]))
              acc w))).
  { intros rows acc w0. apply for_each_with_outcome. intros v a s.
    unfold bind, lift. pose proof (at_index_outcome a 0) as H.
    destruct (at_index a 0); cbn in *; auto. }
  unfold getNeuronMatrix.
  destruct (getNeuronAttributes colorScheme); try exact I;
    unfold try_catch_all, bind at 1, call, lift;
    (destruct (brion_Circuit_get L _ gids _) as [rows|e]; cbn [of_result];
     [ unfold bind at 1; specialize (Hrows rows [] w);
       destruct (for_each_with rows _ [] w) as [w' [m|e| |]];
       cbn in *; auto
     | exact I ]).
Qed.

(** *** The number of skipped cells *)

Lemma nbSkippedCells_of_undefined (n d : Z) :
  nbSkippedCells_of n d = Undefined <-> wrap64 (n * d) / 100 = 0.
Proof.
  unfold nbSkippedCells_of, divide.
  destruct (wrap64 (n * d) / 100 =? 0) eqn:H.
  - apply Z.eqb_eq in H. tauto.
  - apply Z.eqb_neq in H. split; [discriminate | tauto].
Qed.

Lemma wrap64_range (z : Z) : 0 <= wrap64 z < 2 ^ 64.
Proof. unfold wrap64. apply Z.mod_pos_bound. reflexivity. Qed.

Lemma density_quotient_zero (n d : Z) :
  wrap64 (n * d) / 100 = 0 <-> wrap64 (n * d) < 100.
Proof.
  pose proof (wrap64_range (n * d)) as H. split.
  - intros Hq. destruct (Z.lt_ge_cases (wrap64 (n * d)) 100) as [|Hge]; [assumption|].
    assert (1 <= wrap64 (n * d) / 100) by (apply Z.div_le_lower_bound; lia).
    lia.
  - intros Hlt. apply Z.div_small. lia.
Qed.

Lemma importCircuit_undefined_division (par : Parallelism)
  (circuitConfig : URI) (target : string) (bc : BlueConfig)
  (circuit : Circuit) (gids : list Z) (w : World) :
  BRAYNS_USE_BRION L = true ->
  open_BlueConfig L (getPath circuitConfig) = Ok bc ->
  open_Circuit L bc = Ok circuit ->
  (if empty target then Ok (getGIDs circuit)
   else getGIDs_target circuit target) = Ok gids ->
  gids <> [] ->
  nbSkippedCells_of (size (getMorphologyURIs circuit gids))
    (getCircuitDensity _geometryParameters) = Undefined ->
  snd (importCircuit par circuitConfig target w) = Undefined.
Proof.
  intros HB Hbc Hc Hg Hne Hdiv. unfold importCircuit.
  rewrite HB, Hbc, bind_ok, Hc, bind_ok, Hg, bind_ok.
  destruct gids as [|g gids]; [congruence|].
  change (size (g :: gids) =? 0) with (Z.of_nat (S (length gids)) =? 0).
  destruct (Z.of_nat (S (length gids)) =? 0) eqn:Hz;
    [apply Z.eqb_eq in Hz; lia|].
  rewrite bind_log. unfold bind at 1.
  pose proof (getNeuronMatrix_outcome bc (g :: gids)
                (getColorScheme _geometryParameters)
                (mkWorld (w_scene w)
                   (w_log w ++ [BRAYNS_INFO "Loading cells"
                      [size (getMorphologyURIs circuit (g :: gids))]])
                   (w_files w))) as Hm.
  destruct (getNeuronMatrix bc (g :: gids) _ _) as [w1 [m|e| |]];
    cbn in Hm; try contradiction; [|reflexivity].
  rewrite Hdiv, bind_undefined. reflexivity.
Qed.

Lemma importCircuit_report_undefined_division (par par' : Parallelism)
  (circuitConfig : URI) (target report : string) (bc : BlueConfig)
  (circuit : Circuit) (gids : list Z) (rep : CompartmentReport) (w : World) :
  BRAYNS_USE_BRION L = true ->
  open_BlueConfig L (getPath circuitConfig) = Ok bc ->
  open_Circuit L bc = Ok circuit ->
  (if empty target then Ok (getGIDs circuit)
   else getGIDs_target circuit target) = Ok gids ->
  gids <> [] ->
  open_CompartmentReport L (getPath (getReportSource bc report)) gids
  = Ok rep ->
  nbSkippedCells_of (size (getMorphologyURIs circuit gids))
    (getCircuitDensity _geometryParameters) = Undefined ->
  snd (importCircuit_report par par' circuitConfig target report w)
  = Undefined.
Proof.
  intros HB Hbc Hc Hg Hne Hrep Hdiv. unfold importCircuit_report.
  rewrite HB. cbv zeta. rewrite Hbc, bind_ok, Hc, bind_ok, Hg, bind_ok.
  destruct gids as [|g gids]; [congruence|].
  change (size (g :: gids) =? 0) with (Z.of_nat (S (length gids)) =? 0).
  destruct (Z.of_nat (S (length gids)) =? 0) eqn:Hz;
    [apply Z.eqb_eq in Hz; lia|].
  rewrite Hrep, bind_ok. unfold bind at 1.
  pose proof (getNeuronMatrix_outcome bc (g :: gids)
                (getColorScheme _geometryParameters) w) as Hm.
  destruct (getNeuronMatrix bc (g :: gids) _ w) as [w1 [m|e| |]];
    cbn in Hm; try contradiction; [|reflexivity].
  rewrite bind_log. unfold bind at 1.
  match goal with
  | |- context [for_each_with ?l ?body ?v ?s] =>
      assert (Hu : returned_or_undefined (snd (for_each_with l body v s)));
      [ apply for_each_with_outcome; intros v0 a s0; unfold bind, lift;
        match goal with
        | |- context [at_index ?x ?y] =>
            pose proof (at_index_outcome x y) as Hi;
            destruct (at_index x y); cbn in *; auto
        end
      | destruct (for_each_with l body v s) as [w2 [c|e| |]];
        cbn in Hu; try contradiction; [|reflexivity] ]
  end.
  rewrite Hdiv, bind_undefined. reflexivity.
Qed.

(** C10.  In both overloads of [importCircuit] the number of skipped cells
    is [uris.size() / (uris.size() * circuitDensity / 100)] in [size_t]
    arithmetic.  The division is undefined exactly when
    [uris.size() * circuitDensity / 100] is zero, that is, when the product
    is below 100 (a density of 0, or few cells at a low density); it is
    defined, with the quotient as its value, when that term is positive.
    When the term is zero, a call of either overload that reaches the
    division (the circuit opens and has cells) runs into the undefined
    division. *)
Theorem nbSkippedCells_division_by_zero
  (par par' : Parallelism) (circuitConfig : URI) (target report : string)
  (bc : BlueConfig) (circuit : Circuit) (gids : list Z) :
  BRAYNS_USE_BRION L = true ->
  open_BlueConfig L (getPath circuitConfig) = Ok bc ->
  open_Circuit L bc = Ok circuit ->
  (if empty target then Ok (getGIDs circuit)
   else getGIDs_target circuit target) = Ok gids ->
  gids <> [] ->
  let nbUris := size (getMorphologyURIs circuit gids) in
  let circuitDensity := getCircuitDensity _geometryParameters in
  (nbSkippedCells_of nbUris circuitDensity = Undefined <->
   wrap64 (nbUris * circuitDensity) / 100 = 0)
  /\ (wrap64 (nbUris * circuitDensity) / 100 = 0 <->
      wrap64 (nbUris * circuitDensity) < 100)
  /\ (0 < wrap64 (nbUris * circuitDensity) / 100 ->
      nbSkippedCells_of nbUris circuitDensity
      = Returned (nbUris / (wrap64 (nbUris * circuitDensity) / 100)))
  /\ (wrap64 (nbUris * circuitDensity) / 100 = 0 ->
      (forall w, snd (importCircuit par circuitConfig target w) = Undefined)
      /\ (forall rep,
            open_CompartmentReport L (getPath (getReportSource bc report))
              gids = Ok rep ->
            forall w,
              snd (importCircuit_report par par' circuitConfig target report w)
              = Undefined)).
Proof.
  intros HB Hbc Hc Hg Hne nbUris circuitDensity.
  split; [apply nbSkippedCells_of_undefined|].
  split; [apply density_quotient_zero|].
  split.
  - intros Hpos. unfold nbSkippedCells_of, divide.
    destruct (wrap64 (nbUris * circuitDensity) / 100 =? 0) eqn:Hz;
      [apply Z.eqb_eq in Hz; lia | reflexivity].
  - intros Hz. apply nbSkippedCells_of_undefined in Hz. split.
    + intros w. eapply importCircuit_undefined_division; eauto.
    + intros rep Hrep w.
      eapply importCircuit_report_undefined_division; eauto.
Qed.

(** *** Failures at the loader boundary *)

Definition logged (l : LogLine) (w : World) : World :=
  mkWorld (w_scene w) (w_log w ++ [l]) (w_files w).

Lemma importMorphology_runtime_error (uri : URI) (morphologyIndex : Z)
  (what : string) (w : World) :
  BRAYNS_USE_BRION L = true ->
  open_Morphology L uri Matrix4f_identity = Raise (runtime_error what) ->
  importMorphology uri morphologyIndex w
  = (logged (BRAYNS_ERROR what) w, Returned false).
Proof.
  intros HB Hopen. unfold importMorphology. rewrite HB.
  destruct w as [[sp cy co bo me ma ha] lg fs].
  destruct (useMetaballs _geometryParameters) eqn:Hmeta.
  - rewrite bind_assoc, bind_get.
    unfold bind at 1, on_scene_meshes, _importMorphologyAsMesh,
      try_catch_runtime_error.
    cbv zeta. rewrite Hopen, bind_raise. reflexivity.
  - rewrite bind_ret.
    unfold on_scene_geometry, _importMorphology, set_maxDistanceToSoma.
    rewrite bind_modify.
    unfold try_catch_runtime_error. rewrite Hopen, bind_raise. reflexivity.
Qed.

Lemma circuit_cell_runtime_error (uris : list URI)
  (transforms : list Matrix4f) (neuronMatrix : list string)
  (nbSkippedCells i : Z) (uri : URI) (transform : Matrix4f) (what : string)
  (sh : Shared) (p : Private) :
  useMetaballs _geometryParameters = false ->
  skipped nbSkippedCells i = false ->
  at_index uris i = Returned uri ->
  at_index transforms i = Returned transform ->
  open_Morphology L uri transform = Raise (runtime_error what) ->
  circuit_cell uris transforms false neuronMatrix nbSkippedCells i (sh, p)
  = ((mkShared (logged (BRAYNS_ERROR what) (sh_world sh))
        (sh_simulationOffset sh) (sh_morphologyOffsets sh), p),
     Returned tt).
Proof.
  intros Hmeta Hskip Huri Htr Hopen. unfold circuit_cell.
  rewrite Hskip, Huri, bind_returned, bind_ret.
  unfold cell_mesh. rewrite Hmeta, bind_ret, Htr, bind_returned, bind_get.
  unfold bind at 1, on_private_geometry, _importMorphology,
    set_maxDistanceToSoma.
  cbn [fst snd]. rewrite bind_modify. unfold try_catch_runtime_error.
  rewrite Hopen, bind_raise. cbn [fst snd].
  destruct p as [sp cy co bo]. reflexivity.
Qed.


(** *** The simulation cache file *)

Lemma write_frames_appends (cacheFile : string)
  (h : CircuitSimulationHandler) (rep : CompartmentReport)
  (firstFrame step : float) :
  forall (remaining : nat) (frame : Z) (w : World) (content : list Byte.byte),
    w_files w !! cacheFile = Some content ->
    (forall k, frame <= k < frame + Z.of_nat remaining ->
       is_Some (loadFrame rep (F32.add firstFrame (F32.mul step (of_Z k))))) ->
    write_frames cacheFile h rep firstFrame step remaining frame w
    = (mkWorld (w_scene w) (w_log w)
         (<[cacheFile :=
              content
              ++ concat
                   (map (fun k =>
                           writeFrame L h
                             (default []
                                (loadFrame rep
                                   (F32.add firstFrame
                                      (F32.mul step (of_Z k))))))
                      (seqZ frame (Z.of_nat remaining)))]> (w_files w)),
       Returned tt).
Proof.
  induction remaining as [|n IH]; intros frame w content Hfile Hload.
  - cbn [write_frames]. unfold ret. f_equal.
    destruct w as [sc lg fs]. cbn in *. f_equal.
    rewrite app_nil_r. symmetry. now apply insert_id.
  - cbn [write_frames].
    destruct (Hload frame ltac:(lia)) as [values Hv]. rewrite Hv.
    unfold append_to_file. rewrite bind_modify.
    rewrite Hfile. cbn [default].
    rewrite (IH (frame + 1) _ (content ++ writeFrame L h values)).
    + cbn [w_scene w_log w_files]. f_equal. f_equal.
      rewrite insert_insert_eq. f_equal.
      rewrite (seqZ_cons frame (Z.of_nat (S n))) by lia.
      cbn [map concat]. rewrite Hv. cbn [default].
      replace (Z.pred (Z.of_nat (S n))) with (Z.of_nat n) by lia.
      replace (Z.succ frame) with (frame + 1) by lia.
      now rewrite app_assoc.
    + cbn [w_files]. apply lookup_insert_eq.
    + intros k Hk. apply Hload. lia.
Qed.

Lemma importSimulationData_creates_cache
  (circuitConfig : URI) (target report : string) (bc : BlueConfig)
  (circuit : Circuit) (gids : list Z) (rep : CompartmentReport)
  (nbFrames : Z) (w : World) :
  let cacheFile := getSimulationCacheFile _geometryParameters in
  let step := getTimestep rep in
  let firstFrame :=
    std_max (getStartTime rep) (getStartSimulationTime _geometryParameters) in
  let lastFrame :=
    std_min (getEndTime rep) (getEndSimulationTime _geometryParameters) in
  let h := mkHandler _geometryParameters nbFrames (getFrameSize rep) in
  BRAYNS_USE_BRION L = true ->
  open_BlueConfig L (getPath circuitConfig) = Ok bc ->
  open_Circuit L bc = Ok circuit ->
  (if empty target then Ok (getGIDs circuit)
   else getGIDs_target circuit target) = Ok gids ->
  gids <> [] ->
  open_CompartmentReport L (getPath (getReportSource bc report)) gids
  = Ok rep ->
  attachSimulationToCacheFile L (mkHandler _geometryParameters 0 0)
    (w_files w) cacheFile = false ->
  ofstream_is_open L cacheFile = true ->
  to_uint64 (F32.div (F32.sub lastFrame firstFrame) step) = Some nbFrames ->
  (forall k, 0 <= k < nbFrames ->
     is_Some (loadFrame rep (F32.add firstFrame (F32.mul step (of_Z k))))) ->
  exists w',
    importSimulationData circuitConfig target report w = (w', Returned true)
    /\ w_files w' !! cacheFile
       = Some (writeHeader L h
               ++ concat
                    (map (fun k =>
                            writeFrame L h
                              (default []
                                 (loadFrame rep
                                    (F32.add firstFrame
                                       (F32.mul step (of_Z k))))))
                       (seqZ 0 nbFrames))).
Proof.
  intros cacheFile step firstFrame lastFrame h HB Hbc Hc Hg Hne Hrep Hatt
    Hopen Hn Hload.
  pose proof (to_uint64_range _ _ Hn) as Hrange.
  unfold importSimulationData. rewrite HB. cbv zeta.
  rewrite Hbc, bind_ok, Hc, bind_ok, Hg, bind_ok.
  destruct gids as [|g gids]; [congruence|].
  change (size (g :: gids) =? 0) with (Z.of_nat (S (length gids)) =? 0).
  destruct (Z.of_nat (S (length gids)) =? 0) eqn:Hz;
    [apply Z.eqb_eq in Hz; lia|].
  rewrite Hrep, bind_ok, bind_modify.
  match goal with |- context [bind get _ ?x] => set (w1 := x) end.
  assert (Hf1 : w_files w1 = w_files w) by reflexivity.
  rewrite bind_get, Hf1. fold cacheFile. rewrite Hatt, bind_log, Hopen.
  cbn [negb]. rewrite bind_modify. fold step firstFrame lastFrame.
  rewrite Hn, bind_log, bind_modify. fold h.
  unfold append_to_file at 1. rewrite bind_modify.
  match goal with |- context [bind (write_frames _ _ _ _ _ _ _) _ ?x] =>
    set (w2 := x)
  end.
  assert (Hf2 : w_files w2 !! cacheFile = Some (writeHeader L h)).
  { subst w2. cbn [w_files w_scene w_log set_scene].
    rewrite !lookup_insert_eq. reflexivity. }
  unfold bind at 1.
  rewrite (write_frames_appends cacheFile h rep firstFrame step
             (Z.to_nat nbFrames) 0 w2 (writeHeader L h) Hf2)
    by (intros k Hk; apply Hload; lia).
  rewrite !bind_log. unfold ret.
  eexists. split; [reflexivity|].
  cbn [w_files]. rewrite lookup_insert_eq.
  rewrite Z2Nat.id by lia. reflexivity.
Qed.

(** C5.  When [importSimulationData] creates the cache file (the circuit
    and the report open, the cell set is not empty, no cache can be
    attached, the file can be created, the number of frames is representable
    and every frame loads), it returns true and the file holds the header
    followed by exactly [nbFrames] frames in increasing frame order, where
    [nbFrames] is [(lastFrame - firstFrame) / step] truncated to an unsigned
    integer, [firstFrame] is the larger of the report's and the configured
    start time, [lastFrame] the smaller of the two end times, and frame
    number [k] is the array loaded from the report at
    [firstFrame + step * k]. *)
Theorem importSimulationData_cache_file
  (circuitConfig : URI) (target report : string) (bc : BlueConfig)
  (circuit : Circuit) (gids : list Z) (rep : CompartmentReport)
  (nbFrames : Z) (w : World) :
  let cacheFile := getSimulationCacheFile _geometryParameters in
  let step := getTimestep rep in
  let firstFrame :=
    std_max (getStartTime rep) (getStartSimulationTime _geometryParameters) in
  let lastFrame :=
    std_min (getEndTime rep) (getEndSimulationTime _geometryParameters) in
  let h := mkHandler _geometryParameters nbFrames (getFrameSize rep) in
  BRAYNS_USE_BRION L = true ->
  open_BlueConfig L (getPath circuitConfig) = Ok bc ->
  open_Circuit L bc = Ok circuit ->
  (if empty target then Ok (getGIDs circuit)
   else getGIDs_target circuit target) = Ok gids ->
  gids <> [] ->
  open_CompartmentReport L (getPath (getReportSource bc report)) gids
  = Ok rep ->
  attachSimulationToCacheFile L (mkHandler _geometryParameters 0 0)
    (w_files w) cacheFile = false ->
  ofstream_is_open L cacheFile = true ->
  to_uint64 (F32.div (F32.sub lastFrame firstFrame) step) = Some nbFrames ->
  (forall k, 0 <= k < nbFrames ->
     is_Some (loadFrame rep (F32.add firstFrame (F32.mul step (of_Z k))))) ->
  snd (importSimulationData circuitConfig target report w) = Returned true
  /\ w_files (fst (importSimulationData circuitConfig target report w))
     !! cacheFile
     = Some (writeHeader L h
             ++ concat
                  (map (fun k =>
                          writeFrame L h
                            (default []
                               (loadFrame rep
                                  (F32.add firstFrame
                                     (F32.mul step (of_Z k))))))
                     (seqZ 0 nbFrames))).
Proof.
  intros cacheFile step firstFrame lastFrame h HB Hbc Hc Hg Hne Hrep Hatt
    Hopen Hn Hload.
  destruct (importSimulationData_creates_cache circuitConfig target report bc
              circuit gids rep nbFrames w HB Hbc Hc Hg Hne Hrep Hatt Hopen Hn
              Hload) as (w' & -> & Hfile).
  split; [reflexivity | exact Hfile].
Qed.

(** *** Invariants of effectful code *)

(** [m] keeps the invariant [I] of the state, whatever its outcome, and a
    value it returns satisfies [Q]. *)
Definition keeps {S A : Type} (I : S -> Prop) (m : Eff S A) (Q : A -> Prop)
  : Prop :=
  forall s, I s -> I (fst (m s)) /\ forall a, snd (m s) = Returned a -> Q a.

Lemma keeps_ret {S A : Type} (I : S -> Prop) (a : A) (Q : A -> Prop) :
  Q a -> keeps I (ret a) Q.
Proof. intros Ha s Hs. split; [exact Hs|]. now intros a' [= <-]. Qed.

Lemma keeps_lift {S A : Type} (I : S -> Prop) (o : outcome A)
  (Q : A -> Prop) :
  (forall a, o = Returned a -> Q a) -> keeps I (lift o) Q.
Proof. intros Ho s Hs. split; [exact Hs | exact Ho]. Qed.

Lemma keeps_modify {S : Type} (I : S -> Prop) (f : S -> S) :
  (forall s, I s -> I (f s)) -> keeps I (modify f) (fun _ => True).
Proof. intros Hf s Hs. split; [now apply Hf | trivial]. Qed.

Lemma keeps_get {S : Type} (I : S -> Prop) : keeps I get (fun _ => True).
Proof. intros s Hs. split; [exact Hs | trivial]. Qed.

Lemma keeps_bind {S A B : Type} (I : S -> Prop) (m : Eff S A)
  (k : A -> Eff S B) (Q : A -> Prop) (R : B -> Prop) :
  keeps I m Q -> (forall a, Q a -> keeps I (k a) R) -> keeps I (bind m k) R.
Proof.
  intros Hm Hk s Hs. destruct (Hm s Hs) as [H1 H2]. unfold bind.
  destruct (m s) as [s' [a|e| |]]; cbn [fst snd] in *;
    try (split; [exact H1 | discriminate]).
  exact (Hk a (H2 a eq_refl) s' H1).
Qed.

Lemma keeps_weaken {S A : Type} (I : S -> Prop) (m : Eff S A)
  (Q Q' : A -> Prop) :
  keeps I m Q -> (forall a, Q a -> Q' a) -> keeps I m Q'.
Proof.
  intros Hm HQ s Hs. destruct (Hm s Hs) as [H1 H2]. split; [exact H1|].
  intros a Ha. apply HQ, H2, Ha.
Qed.

Lemma keeps_try_catch {S A : Type} (I : S -> Prop) (m : Eff S A)
  (handler : string -> Eff S A) (Q : A -> Prop) :
  keeps I m Q -> (forall what, keeps I (handler what) Q) ->
  keeps I (try_catch_runtime_error m handler) Q.
Proof.
  intros Hm Hh s Hs. destruct (Hm s Hs) as [H1 H2].
  unfold try_catch_runtime_error.
  destruct (m s) as [s' [a|[what| |what]| |]]; cbn [fst snd] in *;
    try (split; [exact H1 | try discriminate; exact H2]).
  exact (Hh what s' H1).
Qed.

Lemma keeps_for_each {S A : Type} (I : S -> Prop) (l : list A)
  (body : A -> Eff S unit) :
  (forall a, keeps I (body a) (fun _ => True)) ->
  keeps I (for_each l body) (fun _ => True).
Proof.
  intros Hbody. induction l as [|a l IH]; cbn [for_each].
  - now apply keeps_ret.
  - eapply keeps_bind; [apply Hbody | intros _ _; exact IH].
Qed.

Lemma keeps_for_each_with {S A V : Type} (I : S -> Prop) (Q : V -> Prop)
  (body : V -> A -> Eff S V) :
  (forall v a, Q v -> keeps I (body v a) Q) ->
  forall l v, Q v -> keeps I (for_each_with l body v) Q.
Proof.
  intros Hbody l. induction l as [|a l IH]; intros v Hv; cbn [for_each_with].
  - now apply keeps_ret.
  - eapply keeps_bind; [now apply Hbody | intros v' Hv'; now apply IH].
Qed.

(** *** Containers that only grow *)

(** [m'] holds what [m] holds and, behind it, elements that satisfy [P]. *)
Definition grown {A : Type} (P : A -> Prop) (m m' : gmap Z (list A)) : Prop :=
  forall key,
    exists added,
      default [] (m' !! key) = default [] (m !! key) ++ added
      /\ Forall P added.

Lemma grown_refl {A : Type} (P : A -> Prop) (m : gmap Z (list A)) :
  grown P m m.
Proof. intros key. exists []. now rewrite app_nil_r. Qed.

Lemma grown_trans {A : Type} (P : A -> Prop) (m1 m2 m3 : gmap Z (list A)) :
  grown P m1 m2 -> grown P m2 m3 -> grown P m1 m3.
Proof.
  intros H12 H23 key.
  destruct (H12 key) as (a1 & E1 & F1). destruct (H23 key) as (a2 & E2 & F2).
  exists (a1 ++ a2). split.
  - now rewrite E2, E1, app_assoc.
  - apply Forall_app. auto.
Qed.

Lemma grown_push_back {A : Type} (P : A -> Prop) (m : gmap Z (list A))
  (key : Z) (x : A) :
  P x -> grown P m (push_back m key x).
Proof.
  intros Hx k. unfold push_back. destruct (decide (key = k)) as [->|Hne].
  - exists [x]. rewrite lookup_insert_eq. cbn [default]. auto.
  - exists []. rewrite lookup_insert_ne by exact Hne.
    now rewrite app_nil_r.
Qed.

(** The primitives added to [b0] carry the simulation offset [base]. *)
Definition offsets_are (base : float) (b0 b : Build) : Prop :=
  grown (fun s => sphere_offset s = base) (b_spheres b0) (b_spheres b)
  /\ grown (fun c => cylinder_offset c = base)
       (b_cylinders b0) (b_cylinders b)
  /\ grown (fun c => cone_offset c = base) (b_cones b0) (b_cones b).

Lemma offsets_are_refl (base : float) (b : Build) : offsets_are base b b.
Proof. repeat split; apply grown_refl. Qed.

Lemma keeps_push_sphere (base : float) (b0 : Build) (material : Z)
  (s : Sphere) :
  sphere_offset s = base ->
  keeps (offsets_are base b0) (push_sphere material s) (fun _ => True).
Proof.
  intros Hs. apply keeps_modify. intros b (H1 & H2 & H3).
  split; [|split]; cbn; [|assumption|assumption].
  eapply grown_trans; [exact H1 | now apply grown_push_back].
Qed.

Lemma keeps_push_cylinder (base : float) (b0 : Build) (material : Z)
  (c : Cylinder) :
  cylinder_offset c = base ->
  keeps (offsets_are base b0) (push_cylinder material c) (fun _ => True).
Proof.
  intros Hs. apply keeps_modify. intros b (H1 & H2 & H3).
  split; [|split]; cbn; [assumption| |assumption].
  eapply grown_trans; [exact H2 | now apply grown_push_back].
Qed.

Lemma keeps_push_cone (base : float) (b0 : Build) (material : Z) (c : Cone) :
  cone_offset c = base ->
  keeps (offsets_are base b0) (push_cone material c) (fun _ => True).
Proof.
  intros Hs. apply keeps_modify. intros b (H1 & H2 & H3).
  split; [|split]; cbn; [assumption|assumption|].
  eapply grown_trans; [exact H3 | now apply grown_push_back].
Qed.

Lemma keeps_bounds_merge (base : float) (b0 : Build) (p : Vector3f) :
  keeps (offsets_are base b0) (bounds_merge p) (fun _ => True).
Proof. apply keeps_modify. intros b H. exact H. Qed.

Lemma keeps_set_maxDistanceToSoma (base : float) (b0 : Build) (d : float) :
  keeps (offsets_are base b0) (set_maxDistanceToSoma d) (fun _ => True).
Proof. apply keeps_modify. intros b H. exact H. Qed.

(** *** The simulation offset of the primitives of a section *)

Lemma segmentStep_of_nonempty (info : SimulationInformation)
  (samples : list Vector4f) (sectionId : Z) :
  samples <> [] -> segmentStep_of (Some info) samples sectionId = Returned zero.
Proof. intros H. destruct samples; [congruence | reflexivity]. Qed.

Lemma sample_offset_of_section (info : SimulationInformation)
  (simulationOffset sectionId i o : Z) (distance offset : float) :
  at_index (compartmentOffsets info) sectionId = Returned o ->
  0 <= o < 2 ^ 64 -> 0 <= i < 2 ^ 64 ->
  sample_offset (Some info) simulationOffset sectionId i zero distance offset
  = Returned (of_Z o).
Proof.
  intros Ho Hr Hi. unfold sample_offset. rewrite Ho.
  now rewrite add_mul_zero.
Qed.

Lemma segments_offsets (info : SimulationInformation)
  (simulationOffset sectionId material : Z) (translation : Vector3f)
  (section : Section_) (step o : Z) (b0 : Build) :
  at_index (compartmentOffsets info) sectionId = Returned o ->
  0 <= o < 2 ^ 64 ->
  forall (n : nat) (v : SegmentVars),
    0 <= seg_i v < 2 ^ 64 ->
    keeps (offsets_are (of_Z o) b0)
      (segments n (Some info) simulationOffset sectionId material translation
         section step zero v)
      (fun _ => True).
Proof.
  intros Ho Hr n. induction n as [|n IH]; intros v Hv; cbn [segments];
    (destruct (negb (seg_done v)
               && (seg_i v <? wrap64 (size (getSamples section) + step)));
     [|now apply keeps_ret]).
  - apply keeps_lift. discriminate.
  - assert (Hi : forall i done,
              (if size (getSamples section) <=? seg_i v
               then (wrap64 (size (getSamples section) - 1), true)
               else (seg_i v, seg_done v)) = (i, done) ->
              0 <= i < 2 ^ 64).
    { intros i done. destruct (size (getSamples section) <=? seg_i v);
        intros [= <- <-]; [apply wrap64_range | exact Hv]. }
    destruct (if size (getSamples section) <=? seg_i v
              then (wrap64 (size (getSamples section) - 1), true)
              else (seg_i v, seg_done v)) as [i done].
    specialize (Hi i done eq_refl).
    eapply keeps_bind; [apply keeps_lift; intros; exact I|]. intros d _.
    eapply keeps_bind; [apply keeps_get|]. intros b _.
    eapply keeps_bind; [apply keeps_set_maxDistanceToSoma|]. intros _ _.
    eapply (keeps_bind _ _ _ (fun offset => offset = of_Z o)).
    { apply keeps_lift. intros a Ha.
      rewrite (sample_offset_of_section info simulationOffset sectionId i o)
        in Ha by assumption.
      now injection Ha as <-. }
    intros offset ->.
    eapply keeps_bind; [apply keeps_lift; intros; exact I|]. intros sample _.
    eapply (keeps_bind _ _ _ (fun _ => True)).
    { destruct (F32.neqb _ _); [now apply keeps_ret|].
      eapply keeps_bind; [apply keeps_lift; intros; exact I|].
      intros previous _. now apply keeps_ret. }
    intros previousRadius _.
    eapply (keeps_bind _ _ _ (fun _ => True)).
    { destruct (F32.gtb _ _); [|now apply keeps_ret].
      now apply keeps_push_sphere. }
    intros _ _.
    eapply keeps_bind; [apply keeps_bounds_merge|]. intros _ _.
    eapply (keeps_bind _ _ _ (fun _ => True)).
    { destruct (_ && _); [|now apply keeps_ret].
      eapply (keeps_bind _ _ _ (fun _ => True)).
      - destruct (F32.eqb _ _);
          [now apply keeps_push_cylinder | now apply keeps_push_cone].
      - intros _ _. apply keeps_bounds_merge. }
    intros _ _. apply IH. cbn [seg_i]. apply wrap64_range.
Qed.

Lemma quality_step_range (n : Z) :
  0 <= n < 2 ^ 64 -> 0 <= quality_step n < 2 ^ 64.
Proof.
  intros Hn. unfold quality_step.
  destruct (getGeometryQuality _geometryParameters).
  - apply wrap64_range.
  - destruct (n / 2 =? 0) eqn:Hz; [lia|].
    assert (0 <= n / 2) by (apply Z.div_pos; lia).
    assert (n / 2 <= n) by (apply Z.div_le_upper_bound; lia).
    lia.
  - lia.
Qed.

Lemma import_section_offsets (info : SimulationInformation)
  (simulationOffset morphologyIndex forcedMaterial sectionId o : Z)
  (translation : Vector3f) (offset : float) (section : Section_)
  (b0 : Build) :
  size (getSamples section) < 2 ^ 64 ->
  at_index (compartmentOffsets info) sectionId = Returned o ->
  0 <= o < 2 ^ 64 ->
  keeps (offsets_are (of_Z o) b0)
    (import_section (Some info) simulationOffset morphologyIndex
       forcedMaterial translation (sectionId, offset) section)
    (fun _ => True).
Proof.
  intros Hsize Ho Hr. unfold import_section.
  destruct (size (getSamples section) =? 0) eqn:Hz; [now apply keeps_ret|].
  eapply keeps_bind; [apply keeps_lift; intros; exact I|].
  intros previousSample _.
  rewrite segmentStep_of_nonempty.
  2:{ intros He. rewrite He in Hz. discriminate. }
  eapply (keeps_bind _ _ _ (fun segmentStep => segmentStep = zero));
    [apply keeps_lift; now intros a [= <-]|].
  intros segmentStep ->.
  eapply keeps_bind; [|intros v _; now apply keeps_ret].
  apply segments_offsets; [assumption|assumption|].
  cbn [seg_i]. apply quality_step_range. unfold size in *. lia.
Qed.

(** C9.  With [simulationInformation] given, [segmentStep] is [0.f] for
    every section that is processed (a section without samples is skipped
    before, and the guard of the assignment asks for [samples.empty()]).
    Hence the offset computed for sample [i] of a section,
    [compartmentOffsets[sectionId] + float(i) * segmentStep], is the
    compartment offset of the section whatever [i] is, and every sphere,
    cylinder and cone that the loop body adds for the section carries that
    offset. *)
Theorem section_offset_ignores_sample_index
  (info : SimulationInformation)
  (simulationOffset morphologyIndex forcedMaterial sectionId o : Z)
  (translation : Vector3f) (offset : float) (section : Section_)
  (b : Build) :
  size (getSamples section) < 2 ^ 64 ->
  at_index (compartmentOffsets info) sectionId = Returned o ->
  0 <= o < 2 ^ 64 ->
  let b' :=
    fst (import_section (Some info) simulationOffset morphologyIndex
           forcedMaterial translation (sectionId, offset) section b) in
  (getSamples section <> [] ->
   segmentStep_of (Some info) (getSamples section) sectionId = Returned zero)
  /\ (forall i distance previous,
        0 <= i < 2 ^ 64 ->
        sample_offset (Some info) simulationOffset sectionId i zero distance
          previous = Returned (of_Z o))
  /\ grown (fun s => sphere_offset s = of_Z o) (b_spheres b) (b_spheres b')
  /\ grown (fun c => cylinder_offset c = of_Z o)
       (b_cylinders b) (b_cylinders b')
  /\ grown (fun c => cone_offset c = of_Z o) (b_cones b) (b_cones b').
Proof.
  intros Hsize Ho Hr b'. split; [|split].
  - apply segmentStep_of_nonempty.
  - intros i distance previous Hi. now apply sample_offset_of_section.
  - exact (proj1 (import_section_offsets info simulationOffset morphologyIndex
                    forcedMaterial sectionId o translation offset section b
                    Hsize Ho Hr b (offsets_are_refl (of_Z o) b))).
Qed.

(** *** What the parallel region gathers *)

(** Every element of [m], under its key, is in [m']. *)
Definition within {A : Type} (m m' : gmap Z (list A)) : Prop :=
  forall key x, x ∈ default [] (m !! key) -> x ∈ default [] (m' !! key).

Lemma within_refl {A : Type} (m : gmap Z (list A)) : within m m.
Proof. intros key x H. exact H. Qed.

Lemma within_trans {A : Type} (m1 m2 m3 : gmap Z (list A)) :
  within m1 m2 -> within m2 m3 -> within m1 m3.
Proof. intros H12 H23 key x H. apply H23, H12, H. Qed.

Lemma within_push_back {A : Type} (m : gmap Z (list A)) (key : Z) (x : A) :
  within m (push_back m key x).
Proof.
  intros k y Hy. unfold push_back. destruct (decide (key = k)) as [->|Hne].
  - rewrite lookup_insert_eq. cbn [default]. apply elem_of_app. now left.
  - now rewrite lookup_insert_ne by exact Hne.
Qed.

Lemma append_all_lookup {A : Type} (dst src : gmap Z (list A)) (key : Z) :
  default [] (append_all dst src !! key)
  = default [] (dst !! key) ++ default [] (src !! key).
Proof.
  unfold append_all. revert key.
  apply (map_fold_weak_ind
           (fun (r : gmap Z (list A)) (m : gmap Z (list A)) =>
              forall key,
                default [] (r !! key)
                = default [] (dst !! key) ++ default [] (m !! key))).
  - intros key. rewrite lookup_empty. cbn [default]. now rewrite app_nil_r.
  - intros i x m r Hi IH key.
    destruct (decide (i = key)) as [->|Hne].
    + rewrite !lookup_insert_eq. cbn [default]. rewrite IH, Hi.
      cbn [default]. now rewrite app_nil_r.
    + rewrite !lookup_insert_ne by exact Hne. apply IH.
Qed.

Lemma within_append_all_l {A : Type} (dst src : gmap Z (list A)) :
  within dst (append_all dst src).
Proof.
  intros key x Hx. rewrite append_all_lookup. apply elem_of_app. now left.
Qed.

Lemma within_append_all_r {A : Type} (dst src : gmap Z (list A)) :
  within src (append_all dst src).
Proof.
  intros key x Hx. rewrite append_all_lookup. apply elem_of_app. now right.
Qed.

(** The sphere, cylinder and cone containers of [b] hold those of [b0]. *)
Definition grows (b0 b : Build) : Prop :=
  within (b_spheres b0) (b_spheres b)
  /\ within (b_cylinders b0) (b_cylinders b)
  /\ within (b_cones b0) (b_cones b).

Lemma grows_refl (b : Build) : grows b b.
Proof. repeat split; apply within_refl. Qed.

Lemma keeps_grows_push_sphere (b0 : Build) (material : Z) (s : Sphere) :
  keeps (grows b0) (push_sphere material s) (fun _ => True).
Proof.
  apply keeps_modify. intros b (H1 & H2 & H3).
  split; [|split]; cbn; [|assumption|assumption].
  eapply within_trans; [exact H1 | apply within_push_back].
Qed.

Lemma keeps_grows_push_cylinder (b0 : Build) (material : Z) (c : Cylinder) :
  keeps (grows b0) (push_cylinder material c) (fun _ => True).
Proof.
  apply keeps_modify. intros b (H1 & H2 & H3).
  split; [|split]; cbn; [assumption| |assumption].
  eapply within_trans; [exact H2 | apply within_push_back].
Qed.

Lemma keeps_grows_push_cone (b0 : Build) (material : Z) (c : Cone) :
  keeps (grows b0) (push_cone material c) (fun _ => True).
Proof.
  apply keeps_modify. intros b (H1 & H2 & H3).
  split; [|split]; cbn; [assumption|assumption|].
  eapply within_trans; [exact H3 | apply within_push_back].
Qed.

Lemma keeps_grows_bounds_merge (b0 : Build) (p : Vector3f) :
  keeps (grows b0) (bounds_merge p) (fun _ => True).
Proof. apply keeps_modify. intros b H. exact H. Qed.

Lemma keeps_grows_set_maxDistanceToSoma (b0 : Build) (d : float) :
  keeps (grows b0) (set_maxDistanceToSoma d) (fun _ => True).
Proof. apply keeps_modify. intros b H. exact H. Qed.

Lemma keeps_grows_build_log (b0 : Build) (l : LogLine) :
  keeps (grows b0) (build_log l) (fun _ => True).
Proof. apply keeps_modify. intros b H. exact H. Qed.

(** One step of a proof that code keeps [grows]. *)
Ltac keeps_grows_step :=
  first
    [ apply keeps_ret; exact I
    | apply keeps_lift; intros; exact I
    | apply keeps_get
    | apply keeps_grows_push_sphere
    | apply keeps_grows_push_cylinder
    | apply keeps_grows_push_cone
    | apply keeps_grows_bounds_merge
    | apply keeps_grows_set_maxDistanceToSoma
    | apply keeps_grows_build_log
    | match goal with
      | |- keeps _ (if ?c then _ else _) _ => destruct c
      | |- keeps _ (match ?c with _ => _ end) _ => destruct c
      end
    | eapply (keeps_bind _ _ _ (fun _ => True)); [|intros ? _] ].

Lemma segments_grow (simulationInformation : option SimulationInformation)
  (simulationOffset sectionId material : Z) (translation : Vector3f)
  (section : Section_) (step : Z) (segmentStep : float) (b0 : Build) :
  forall (n : nat) (v : SegmentVars),
    keeps (grows b0)
      (segments n simulationInformation simulationOffset sectionId material
         translation section step segmentStep v)
      (fun _ => True).
Proof.
  induction n as [|n IH]; intros v; cbn [segments].
  - repeat keeps_grows_step.
  - destruct (negb (seg_done v) && _); [|now apply keeps_ret].
    destruct (if size (getSamples section) <=? seg_i v then _ else _)
      as [i done].
    repeat first [apply IH | keeps_grows_step].
Qed.

Lemma import_section_grows
  (simulationInformation : option SimulationInformation)
  (simulationOffset morphologyIndex forcedMaterial : Z)
  (translation : Vector3f) (vars : Z * float) (section : Section_)
  (b0 : Build) :
  keeps (grows b0)
    (import_section simulationInformation simulationOffset morphologyIndex
       forcedMaterial translation vars section)
    (fun _ => True).
Proof.
  unfold import_section. destruct vars as [sectionId offset].
  repeat first [apply segments_grow | keeps_grows_step].
Qed.

Lemma import_soma_grows (morphology : Morphology)
  (morphologyIndex forcedMaterial : Z) (translation : Vector3f)
  (offset : float) (b0 : Build) :
  keeps (grows b0)
    (import_soma morphology morphologyIndex forcedMaterial translation offset)
    (fun _ => True).
Proof.
  unfold import_soma, call.
  repeat first [apply keeps_for_each; intros child | keeps_grows_step].
Qed.

Lemma _importMorphology_grows (source : URI) (morphologyIndex : Z)
  (transformation : Matrix4f)
  (simulationInformation : option SimulationInformation)
  (simulationOffset forcedMaterial : Z) (b0 : Build) :
  keeps (grows b0)
    (_importMorphology source morphologyIndex transformation
       simulationInformation simulationOffset forcedMaterial)
    (fun _ => True).
Proof.
  unfold _importMorphology, call.
  eapply (keeps_bind _ _ _ (fun _ => True)); [keeps_grows_step|].
  intros _ _. apply keeps_try_catch.
  - eapply (keeps_bind _ _ _ (fun _ => True)); [keeps_grows_step|].
    intros morphology _.
    eapply (keeps_bind _ _ _ (fun _ => True)).
    { repeat keeps_grows_step. }
    intros offset _.
    eapply (keeps_bind _ _ _ (fun _ => True)).
    { destruct (_ && _); [apply import_soma_grows | keeps_grows_step]. }
    intros _ _.
    eapply (keeps_bind _ _ _ (fun _ => True)); [|intros; keeps_grows_step].
    apply keeps_for_each_with; [|exact I].
    intros v a _. apply import_section_grows.
  - intros what. repeat keeps_grows_step.
Qed.

Definition scene_of (sh : Shared) : Scene := w_scene (sh_world sh).

Definition private_within (p p' : Private) : Prop :=
  within (private_spheres p) (private_spheres p')
  /\ within (private_cylinders p) (private_cylinders p')
  /\ within (private_cones p) (private_cones p').

Definition scene_within (sc sc' : Scene) : Prop :=
  within (getSpheres sc) (getSpheres sc')
  /\ within (getCylinders sc) (getCylinders sc')
  /\ within (getCones sc) (getCones sc').

(** The spheres, cylinders and cones of [p] are in the scene, each under
    its material key. *)
Definition gathered (p : Private) (sc : Scene) : Prop :=
  within (private_spheres p) (getSpheres sc)
  /\ within (private_cylinders p) (getCylinders sc)
  /\ within (private_cones p) (getCones sc).

Lemma private_within_refl (p : Private) : private_within p p.
Proof. repeat split; apply within_refl. Qed.

Lemma scene_within_refl (sc : Scene) : scene_within sc sc.
Proof. repeat split; apply within_refl. Qed.

Lemma scene_within_trans (s1 s2 s3 : Scene) :
  scene_within s1 s2 -> scene_within s2 s3 -> scene_within s1 s3.
Proof.
  intros (A1 & A2 & A3) (B1 & B2 & B3).
  repeat split; eapply within_trans; eassumption.
Qed.

Lemma gathered_mono (p p' : Private) (sc sc' : Scene) :
  private_within p p' -> gathered p' sc -> scene_within sc sc' ->
  gathered p sc'.
Proof.
  intros (A1 & A2 & A3) (B1 & B2 & B3) (C1 & C2 & C3).
  repeat split; (eapply within_trans; [eassumption|]);
    eapply within_trans; eassumption.
Qed.

(** A loop iteration that only adds to the private containers of its thread
    and only adds to the containers of the scene. *)
Definition only_adds (iteration : Z -> Eff (Shared * Private) unit) : Prop :=
  forall i sh p,
    scene_within (scene_of sh) (scene_of (fst (fst (iteration i (sh, p)))))
    /\ private_within p (snd (fst (iteration i (sh, p)))).

Definition cell_invariant (sc0 : Scene) (p0 : Private)
  (s : Shared * Private) : Prop :=
  scene_within sc0 (scene_of (fst s)) /\ private_within p0 (snd s).

Lemma keeps_on_private_geometry (sc0 : Scene) (p0 : Private)
  (m : Eff Build bool) :
  (forall b0, keeps (grows b0) m (fun _ => True)) ->
  keeps (cell_invariant sc0 p0) (on_private_geometry m) (fun _ => True).
Proof.
  intros Hm [sh p] [Hs Hp]. split; [|trivial].
  unfold on_private_geometry. cbn [fst snd] in *.
  pose proof (Hm _ _ (grows_refl
    (mkBuild (private_spheres p) (private_cylinders p) (private_cones p)
       (private_bounds p) zero (w_log (sh_world sh))))) as [(G1 & G2 & G3) _].
  destruct (m _) as [b o]. cbn [fst snd b_spheres b_cylinders b_cones] in *.
  split; [exact Hs|].
  destruct Hp as (P1 & P2 & P3).
  repeat split; cbn; eapply within_trans; eassumption.
Qed.

Lemma keeps_cell_mesh (sc0 : Scene) (p0 : Private) (uri : URI) (i : Z)
  (transforms : list Matrix4f) (material : Z) :
  keeps (cell_invariant sc0 p0) (cell_mesh uri i transforms material)
    (fun _ => True).
Proof.
  unfold cell_mesh. destruct (useMetaballs _geometryParameters);
    [|now apply keeps_ret].
  eapply (keeps_bind _ _ _ (fun _ => True));
    [apply keeps_lift; intros; exact I|].
  intros transform _.
  eapply (keeps_bind _ _ _ (fun _ => True)); [|intros; now apply keeps_ret].
  intros [sh p] [Hs Hp]. split; [|trivial].
  unfold in_shared, in_world. cbn [fst snd]. rewrite bind_get.
  unfold on_scene_meshes.
  destruct (_importMorphologyAsMesh _ _ _ _ _ _) as [b o].
  split; [|exact Hp]. exact Hs.
Qed.

Lemma circuit_cell_only_adds (uris : list URI) (transforms : list Matrix4f)
  (mvd3Support : bool) (neuronMatrix : list string) (nbSkippedCells : Z) :
  only_adds
    (circuit_cell uris transforms mvd3Support neuronMatrix nbSkippedCells).
Proof.
  intros i sh p.
  cut (keeps (cell_invariant (scene_of sh) p)
         (circuit_cell uris transforms mvd3Support neuronMatrix
            nbSkippedCells i) (fun _ => True)).
  { intros H. apply (H (sh, p)). split;
      [apply scene_within_refl | apply private_within_refl]. }
  unfold circuit_cell.
  destruct (skipped nbSkippedCells i); [now apply keeps_ret|].
  eapply (keeps_bind _ _ _ (fun _ => True));
    [apply keeps_lift; intros; exact I|]. intros uri _.
  eapply (keeps_bind _ _ _ (fun _ => True)).
  { destruct mvd3Support; [|now apply keeps_ret].
    eapply (keeps_bind _ _ _ (fun _ => True));
      [apply keeps_lift; intros; exact I|]. intros row _.
    unfold cast_material. destruct (lexical_cast L row);
      [now apply keeps_ret | apply keeps_lift; intros; exact I]. }
  intros material _.
  eapply (keeps_bind _ _ _ (fun _ => True)); [apply keeps_cell_mesh|].
  intros _ _.
  eapply (keeps_bind _ _ _ (fun _ => True));
    [apply keeps_lift; intros; exact I|]. intros transform _.
  eapply (keeps_bind _ _ _ (fun _ => True)); [apply keeps_get|].
  intros s _.
  eapply (keeps_bind _ _ _ (fun _ => True)).
  { apply keeps_on_private_geometry. intros b0.
    apply _importMorphology_grows. }
  intros r _. destruct (fst r); [|now apply keeps_ret].
  eapply (keeps_bind _ _ _ (fun _ => True)); [apply keeps_get|].
  intros s' _. destruct (to_uint64 _);
    [|apply keeps_lift; intros; exact I].
  apply keeps_modify. intros s0 H. exact H.
Qed.

(** **** The interleavings of a parallel region *)

Section Region.

Variable iteration : Z -> Eff (Shared * Private) unit.
Hypothesis iteration_only_adds : only_adds iteration.

(** The containers that [t] has already appended to the scene. *)
Definition merged_in (sc : Scene) (t : Thread) : Prop :=
  ((1 <= thread_merged t)%nat ->
   within (private_spheres (thread_private t)) (getSpheres sc))
  /\ ((2 <= thread_merged t)%nat ->
      within (private_cylinders (thread_private t)) (getCylinders sc))
  /\ ((3 <= thread_merged t)%nat ->
      within (private_cones (thread_private t)) (getCones sc)).

Lemma merged_in_mono (sc sc' : Scene) (t : Thread) :
  scene_within sc sc' -> merged_in sc t -> merged_in sc' t.
Proof.
  intros (S1 & S2 & S3) (M1 & M2 & M3).
  repeat split; intros H; eapply within_trans; eauto.
Qed.

(** The event is what [iteration] does from the state the event records. *)
Definition genuine (e : Event) : Prop :=
  ev_result e
  = snd (fst (iteration (ev_iteration e) (ev_shared e, ev_private e))).

Lemma thread_step_spec (sh sh' : Shared) (t t' : Thread) (o : outcome unit)
  (events : list Event) :
  thread_step iteration sh t = (sh', t', o, events) ->
  scene_within (scene_of sh) (scene_of sh')
  /\ private_within (thread_private t) (thread_private t')
  /\ (merged_in (scene_of sh) t -> merged_in (scene_of sh') t')
  /\ (forall e, e ∈ events -> ev_result e = thread_private t' /\ genuine e)
  /\ (forall i, i ∈ thread_todo t ->
        (exists e, e ∈ events /\ ev_iteration e = i) \/ i ∈ thread_todo t').
Proof.
  unfold thread_step. destruct (thread_todo t) as [|i rest] eqn:Htodo.
  - assert (Hnone : forall (l : list Z) (i : Z), i ∈ [] ->
              (exists e : Event, e ∈ [] /\ ev_iteration e = i) \/ i ∈ l)
      by (intros l i Hi; now apply elem_of_nil in Hi).
    assert (Hev : forall e : Event, e ∈ [] ->
              ev_result e = thread_private t /\ genuine e)
      by (intros e He; now apply elem_of_nil in He).
    destruct (thread_merged t) as [|[|[|[|n]]]] eqn:Hm;
      intros [= <- <- <- <-]; cbn [thread_private thread_todo];
      (split; [|split; [apply private_within_refl|
                split; [|split; [exact Hev | apply Hnone]]]]).
    + repeat split; cbn; first [apply within_append_all_l | apply within_refl].
    + intros _. unfold merged_in. cbn.
      repeat split; intros H; try lia. apply within_append_all_r.
    + repeat split; cbn; first [apply within_append_all_l | apply within_refl].
    + intros (M1 & _). unfold merged_in. cbn.
      repeat split; intros H; try lia;
        [apply M1; lia | apply within_append_all_r].
    + repeat split; cbn; first [apply within_append_all_l | apply within_refl].
    + intros (M1 & M2 & _). unfold merged_in. cbn.
      repeat split; intros H;
        [apply M1; lia | apply M2; lia | apply within_append_all_r].
    + repeat split; cbn; apply within_refl.
    + intros (M1 & M2 & M3). unfold merged_in. cbn.
      repeat split; intros H; [apply M1 | apply M2 | apply M3]; lia.
    + apply scene_within_refl.
    + intros H. exact H.
  - pose proof (iteration_only_adds i sh (thread_private t)) as [Hs Hp].
    destruct (iteration i (sh, thread_private t)) as [[sh1 p1] o1] eqn:Hrun.
    cbn [fst snd] in Hs, Hp.
    intros [= <- <- <- <-]. cbn [thread_private thread_todo].
    split; [exact Hs|]. split; [exact Hp|]. split; [|split].
    + intros _. unfold merged_in. cbn. repeat split; intros H; lia.
    + intros e He. apply list_elem_of_singleton in He. subst e.
      split; [reflexivity|]. unfold genuine. cbn. now rewrite Hrun.
    + intros j Hj. apply elem_of_cons in Hj as [->|Hj]; [left|now right].
      eexists. split; [apply list_elem_of_singleton; reflexivity|].
      reflexivity.
Qed.

(** What holds of an execution that reaches the end of the region. *)
Lemma run_threads_gathers (steps : list nat) :
  forall (sh : Shared) (threads : list Thread),
    let ex := run_threads iteration steps sh threads in
    ex_outcome ex = Returned tt ->
    (forall j t, threads !! j = Some t -> merged_in (scene_of sh) t) ->
    scene_within (scene_of sh) (scene_of (ex_shared ex))
    /\ (forall j t, threads !! j = Some t ->
          gathered (thread_private t) (scene_of (ex_shared ex)))
    /\ (forall e, e ∈ ex_trace ex ->
          genuine e /\ gathered (ev_result e) (scene_of (ex_shared ex)))
    /\ (forall j t i, threads !! j = Some t -> i ∈ thread_todo t ->
          exists e, e ∈ ex_trace ex /\ ev_iteration e = i)
    /\ (forall t, t ∈ ex_threads ex ->
          thread_finished t = true
          /\ gathered (thread_private t) (scene_of (ex_shared ex))).
Proof.
  induction steps as [|k rest IH]; intros sh threads; cbn [run_threads].
  - cbn. destruct (forallb thread_finished threads) eqn:Hall; [|discriminate].
    intros _ Hinv. rewrite forallb_forall in Hall.
    assert (Hfin : forall j t, threads !! j = Some t ->
              thread_finished t = true).
    { intros j t Hj. apply Hall. apply list_elem_of_In.
      eapply list_elem_of_lookup_2, Hj. }
    assert (Hg : forall j t, threads !! j = Some t ->
              gathered (thread_private t) (scene_of sh)).
    { intros j t Hj. pose proof (Hfin j t Hj) as Hf.
      destruct (Hinv j t Hj) as (M1 & M2 & M3).
      unfold thread_finished in Hf. destruct (thread_todo t); [|discriminate].
      apply Nat.leb_le in Hf.
      repeat split; [apply M1 | apply M2 | apply M3]; lia. }
    split; [apply scene_within_refl|]. split; [exact Hg|].
    split; [|split].
    + intros e He. now apply elem_of_nil in He.
    + intros j t i Hj Hi. pose proof (Hfin j t Hj) as Hf.
      unfold thread_finished in Hf. destruct (thread_todo t); [|discriminate].
      now apply elem_of_nil in Hi.
    + intros t Ht. apply list_elem_of_lookup_1 in Ht as [j Hj]. eauto.
  - destruct (threads !! k) as [t|] eqn:Hk; [|apply IH].
    destruct (thread_step iteration sh t) as [[[sh' t'] o] events] eqn:Hstep.
    apply thread_step_spec in Hstep as (Hs & Hp & Hm & Hev & Htodo).
    destruct o as [[]| | |]; cbn; try discriminate.
    intros Hout Hinv.
    assert (Hk' : (k < length threads)%nat)
      by (eapply lookup_lt_Some, Hk).
    specialize (IH sh' (<[k := t']> threads) Hout).
    destruct IH as (I1 & I2 & I3 & I4 & I5).
    { intros j t0 Hj. destruct (decide (k = j)) as [<-|Hne].
      - rewrite list_lookup_insert_eq in Hj by exact Hk'.
        injection Hj as <-. apply Hm, (Hinv k t Hk).
      - rewrite list_lookup_insert_ne in Hj by exact Hne.
        eapply merged_in_mono; [exact Hs | eapply Hinv, Hj]. }
    assert (Hnew : <[k := t']> threads !! k = Some t')
      by (now apply list_lookup_insert_eq).
    split; [eapply scene_within_trans; eassumption|].
    split; [|split; [|split]].
    + intros j t0 Hj. destruct (decide (k = j)) as [<-|Hne].
      * assert (t0 = t) as -> by congruence.
        eapply gathered_mono;
          [exact Hp | apply (I2 k t' Hnew) | apply scene_within_refl].
      * apply (I2 j). now rewrite list_lookup_insert_ne by exact Hne.
    + intros e He. apply elem_of_app in He as [He|He]; [|now apply I3].
      destruct (Hev e He) as [Hres Hgen]. split; [exact Hgen|].
      rewrite Hres. apply (I2 k t' Hnew).
    + intros j t0 i Hj Hi. destruct (decide (k = j)) as [<-|Hne].
      * assert (t0 = t) as -> by congruence.
        destruct (Htodo i Hi) as [(e & He & Hei)|Hi'].
        -- exists e. split; [apply elem_of_app; now left | exact Hei].
        -- destruct (I4 k t' i Hnew Hi') as (e & He & Hei).
           exists e. split; [apply elem_of_app; now right | exact Hei].
      * destruct (I4 j t0 i) as (e & He & Hei);
          [now rewrite list_lookup_insert_ne by exact Hne | exact Hi |].
        exists e. split; [apply elem_of_app; now right | exact Hei].
    + exact I5.
Qed.

(** A loop iteration that leaves the world bounds of the scene alone. *)
Definition keeps_bounds : Prop :=
  forall i sh p,
    getWorldBounds (scene_of (fst (fst (iteration i (sh, p)))))
    = getWorldBounds (scene_of sh).

(** The private bounds of thread [j]. *)
Definition bounds_of (threads : list Thread) (j : nat) : Boxf :=
  match threads !! j with
  | Some t => private_bounds (thread_private t)
  | None => Boxf_new L
  end.

Lemma thread_step_finished (sh : Shared) (t : Thread) :
  thread_finished t = true ->
  thread_step iteration sh t = (sh, t, Returned tt, []).
Proof.
  unfold thread_finished, thread_step.
  destruct (thread_todo t); [|discriminate].
  destruct (thread_merged t) as [|[|[|[|n]]]]; now try discriminate.
Qed.

Lemma run_threads_finished_stay (steps : list nat) :
  forall (sh : Shared) (threads : list Thread) (j : nat) (t : Thread),
    threads !! j = Some t -> thread_finished t = true ->
    ex_threads (run_threads iteration steps sh threads) !! j = Some t.
Proof.
  induction steps as [|k rest IH]; intros sh threads j t Hj Hf;
    cbn [run_threads]; [exact Hj|].
  destruct (threads !! k) as [t0|] eqn:Hk; [|now apply IH].
  destruct (decide (k = j)) as [->|Hne].
  - assert (t0 = t) as -> by congruence.
    rewrite (thread_step_finished sh t Hf). cbn.
    apply IH; [|exact Hf]. apply list_lookup_insert_eq.
    eapply lookup_lt_Some, Hj.
  - destruct (thread_step iteration sh t0) as [[[sh' t'] o] events].
    destruct o; cbn;
      first [apply IH; [|exact Hf] | idtac];
      now rewrite list_lookup_insert_ne by exact Hne.
Qed.

Lemma thread_step_bounds (sh sh' : Shared) (t t' : Thread) (o : outcome unit)
  (events : list Event) :
  keeps_bounds ->
  thread_step iteration sh t = (sh', t', o, events) ->
  (thread_finished t = false /\ thread_finished t' = true
   /\ getWorldBounds (scene_of sh')
      = merge_box L (getWorldBounds (scene_of sh))
          (private_bounds (thread_private t')))
  \/ (thread_finished t' = thread_finished t
      /\ getWorldBounds (scene_of sh') = getWorldBounds (scene_of sh)).
Proof.
  intros Hkeeps. unfold thread_step, thread_finished.
  destruct (thread_todo t) as [|i rest] eqn:Htodo.
  - destruct (thread_merged t) as [|[|[|[|n]]]] eqn:Hm;
      intros [= <- <- <- <-]; cbn; rewrite ?Htodo, ?Hm; auto.
  - pose proof (Hkeeps i sh (thread_private t)) as Hb.
    destruct (iteration i (sh, thread_private t)) as [[sh1 p1] o1].
    cbn [fst snd] in Hb. intros [= <- <- <- <-]. right. cbn.
    split; [now destruct rest | exact Hb].
Qed.

(** Each thread that had not finished merges its bounds into the world
    bounds once. *)
Lemma run_threads_bounds (Hkeeps : keeps_bounds) (steps : list nat) :
  forall (sh : Shared) (threads : list Thread),
    let ex := run_threads iteration steps sh threads in
    ex_outcome ex = Returned tt ->
    exists order : list nat,
      NoDup order
      /\ (forall j, j ∈ order <->
            exists t, threads !! j = Some t /\ thread_finished t = false)
      /\ getWorldBounds (scene_of (ex_shared ex))
         = fold_left
             (fun b j => merge_box L b (bounds_of (ex_threads ex) j))
             order (getWorldBounds (scene_of sh)).
Proof.
  induction steps as [|k rest IH]; intros sh threads; cbn [run_threads].
  - cbn. destruct (forallb thread_finished threads) eqn:Hall; [|discriminate].
    intros _. rewrite forallb_forall in Hall.
    exists []. split; [constructor|]. split; [|reflexivity].
    intros j. split; [intros H; now apply elem_of_nil in H|].
    intros (t & Hj & Hf). apply list_elem_of_lookup_2, list_elem_of_In in Hj.
    rewrite (Hall t Hj) in Hf. discriminate.
  - destruct (threads !! k) as [t|] eqn:Hk; [|apply IH].
    destruct (thread_step iteration sh t) as [[[sh' t'] o] events] eqn:Hstep.
    apply (thread_step_bounds _ _ _ _ _ _ Hkeeps) in Hstep.
    destruct o as [[]| | |]; cbn; try discriminate.
    intros Hout.
    assert (Hk' : (k < length threads)%nat) by (eapply lookup_lt_Some, Hk).
    assert (Hnew : <[k := t']> threads !! k = Some t')
      by (now apply list_lookup_insert_eq).
    destruct (IH sh' (<[k := t']> threads) Hout) as (order & Hnd & Hin & Hb).
    destruct Hstep as [(Hf & Hf' & Hbox)|[Hf Hbox]].
    + exists (k :: order). split; [|split].
      * constructor; [|exact Hnd]. intros Hko. apply Hin in Hko.
        destruct Hko as (t0 & Ht0 & Hf0). congruence.
      * intros j. rewrite elem_of_cons, Hin. split.
        -- intros [->|(t0 & Ht0 & Hf0)]; [now exists t|].
           destruct (decide (k = j)) as [<-|Hne]; [congruence|].
           rewrite list_lookup_insert_ne in Ht0 by exact Hne. now exists t0.
        -- intros (t0 & Ht0 & Hf0).
           destruct (decide (k = j)) as [<-|Hne]; [now left|right].
           exists t0. now rewrite list_lookup_insert_ne by exact Hne.
      * rewrite Hb, Hbox. cbn [fold_left]. f_equal. f_equal.
        unfold bounds_of.
        now rewrite (run_threads_finished_stay rest sh' _ k t' Hnew Hf').
    + exists order. split; [exact Hnd|]. split; [|now rewrite Hb, Hbox].
      intros j. rewrite Hin. destruct (decide (k = j)) as [<-|Hne].
      * rewrite Hnew, Hk. split; intros (t0 & [= <-] & Hf0); eexists;
          (split; [reflexivity|]); congruence.
      * now rewrite list_lookup_insert_ne by exact Hne.
Qed.

End Region.

(** **** The parallel region of [importCircuit] *)

Lemma bind_run {S A B : Type} (m : Eff S A) (k : A -> Eff S B) (s s' : S)
  (a : A) :
  m s = (s', Returned a) -> bind m k s = k a s'.
Proof. intros H. unfold bind. now rewrite H. Qed.

Lemma map_lookup {A B : Type} (f : A -> B) (l : list A) :
  forall (j : nat) (x : A), l !! j = Some x -> map f l !! j = Some (f x).
Proof.
  induction l as [|a l IH]; intros [|j] x H; cbn in *;
    try discriminate; [congruence | now apply IH].
Qed.

Lemma start_threads_lookup (par : Parallelism) (n : Z) (j : nat) (t : Thread) :
  start_threads par n !! j = Some t ->
  thread_merged t = 0%nat /\ thread_private t = new_private.
Proof.
  intros H. apply list_elem_of_lookup_2, list_elem_of_In in H.
  unfold start_threads in H. apply in_map_iff in H as (k & <- & _).
  now split.
Qed.

Lemma start_threads_length (par : Parallelism) (n : Z) :
  length (start_threads par n) = S (more_threads par).
Proof. unfold start_threads. now rewrite length_map, length_seq. Qed.

(** Every index of the loop is given to a thread. *)
Lemma start_threads_cover (par : Parallelism) (n i : Z) :
  0 <= i < n ->
  exists j t, start_threads par n !! j = Some t /\ i ∈ thread_todo t.
Proof.
  intros Hi. set (k := (owner par i mod S (more_threads par))%nat).
  assert (Hk : (k < S (more_threads par))%nat)
    by (apply Nat.mod_upper_bound; lia).
  exists k. eexists. split.
  - unfold start_threads. apply map_lookup.
    rewrite lookup_seq_lt by exact Hk. reflexivity.
  - cbn [thread_todo]. apply list_elem_of_filter. split; [reflexivity|].
    apply elem_of_seqZ. lia.
Qed.

Lemma start_threads_unfinished (par : Parallelism) (n : Z) (j : nat) :
  (exists t, start_threads par n !! j = Some t /\ thread_finished t = false)
  <-> (j < S (more_threads par))%nat.
Proof.
  split.
  - intros (t & Hj & _). apply lookup_lt_Some in Hj.
    now rewrite start_threads_length in Hj.
  - intros Hj. rewrite <- (start_threads_length par n) in Hj.
    apply lookup_lt_is_Some_2 in Hj as [t Ht]. exists t. split; [exact Ht|].
    apply start_threads_lookup in Ht as [Hm _].
    unfold thread_finished. rewrite Hm. now destruct (thread_todo t).
Qed.

Lemma on_private_geometry_scene (m : Eff Build bool) (s : Shared * Private) :
  scene_of (fst (fst (on_private_geometry m s))) = scene_of (fst s).
Proof. unfold on_private_geometry. now destruct (m _). Qed.

(** Without metaballs a loop iteration leaves the scene alone. *)
Lemma circuit_cell_keeps_bounds (uris : list URI) (transforms : list Matrix4f)
  (mvd3Support : bool) (neuronMatrix : list string) (nbSkippedCells : Z) :
  useMetaballs _geometryParameters = false ->
  keeps_bounds
    (circuit_cell uris transforms mvd3Support neuronMatrix nbSkippedCells).
Proof.
  intros Hmeta i sh p.
  set (same := fun s : Shared * Private =>
                 getWorldBounds (scene_of (fst s))
                 = getWorldBounds (scene_of sh)).
  cut (keeps same
         (circuit_cell uris transforms mvd3Support neuronMatrix
            nbSkippedCells i) (fun _ => True)).
  { intros H. now apply (H (sh, p)). }
  unfold circuit_cell, cell_mesh. rewrite Hmeta.
  destruct (skipped nbSkippedCells i); [now apply keeps_ret|].
  eapply (keeps_bind _ _ _ (fun _ => True));
    [apply keeps_lift; intros; exact I|]. intros uri _.
  eapply (keeps_bind _ _ _ (fun _ => True)).
  { destruct mvd3Support; [|now apply keeps_ret].
    eapply (keeps_bind _ _ _ (fun _ => True));
      [apply keeps_lift; intros; exact I|]. intros row _.
    unfold cast_material. destruct (lexical_cast L row);
      [now apply keeps_ret | apply keeps_lift; intros; exact I]. }
  intros material _.
  eapply (keeps_bind _ _ _ (fun _ => True)); [now apply keeps_ret|].
  intros _ _.
  eapply (keeps_bind _ _ _ (fun _ => True));
    [apply keeps_lift; intros; exact I|]. intros transform _.
  eapply (keeps_bind _ _ _ (fun _ => True)); [apply keeps_get|].
  intros s _.
  eapply (keeps_bind _ _ _ (fun _ => True)).
  { intros s0 H0. split; [|trivial]. unfold same.
    now rewrite on_private_geometry_scene. }
  intros r _. destruct (fst r); [|now apply keeps_ret].
  eapply (keeps_bind _ _ _ (fun _ => True)); [apply keeps_get|].
  intros s' _. destruct (to_uint64 _);
    [|apply keeps_lift; intros; exact I].
  apply keeps_modify. intros s0 H. exact H.
Qed.


End Loader.

(** ** A circuit of three cells *)

Arguments mkLibraries {Boxf Meshes Materials}.
Arguments mkScene {Boxf Meshes Materials}.
Arguments mkWorld {Boxf Meshes Materials}.
Arguments mkShared {Boxf Meshes Materials}.
Arguments mkBuild {Boxf}.
Arguments w_scene {Boxf Meshes Materials}.
Arguments w_log {Boxf Meshes Materials}.
Arguments w_files {Boxf Meshes Materials}.
Arguments getSpheres {Boxf Meshes Materials}.
Arguments getCylinders {Boxf Meshes Materials}.
Arguments getCones {Boxf Meshes Materials}.
Arguments getWorldBounds {Boxf Meshes Materials}.
Arguments b_spheres {Boxf}.
Arguments b_cylinders {Boxf}.
Arguments b_cones {Boxf}.
Arguments sh_world {Boxf Meshes Materials}.
Arguments ex_shared {Boxf Meshes Materials}.
Arguments ex_threads {Boxf Meshes Materials}.
Arguments ex_trace {Boxf Meshes Materials}.
Arguments ex_outcome {Boxf Meshes Materials}.
Arguments ev_result {Boxf Meshes Materials}.
Arguments ev_iteration {Boxf Meshes Materials}.
Arguments thread_private {Boxf}.
Arguments thread_finished {Boxf}.
Arguments gathered {Boxf Meshes Materials}.
Arguments run_threads {Boxf Meshes Materials}.
Arguments start_threads {Boxf Meshes Materials}.
Arguments circuit_cell {Boxf Meshes Materials}.
Arguments import_section {Boxf Meshes Materials}.
Arguments importMorphology {Boxf Meshes Materials}.
Arguments importCircuit {Boxf Meshes Materials}.
Arguments importCircuit_report {Boxf Meshes Materials}.
Arguments importSimulationData {Boxf Meshes Materials}.

(** A bounding box as the points merged into it. *)
Definition Box : Type := list Vector3f.

Definition sample_constants : Constants :=
  mkConstants (2 ^ 64 - 1) 200 6 1 2 4 8.

Definition sample_dendrite : Section_ :=
  mkSection dendrite
    [mkV4 (of_Z 0) (of_Z 0) (of_Z 0) (of_Z 2);
     mkV4 (of_Z 1) (of_Z 0) (of_Z 0) (of_Z 2);
     mkV4 (of_Z 2) (of_Z 0) (of_Z 0) (of_Z 4)]
    (of_Z 3) [of_Z 0; of_Z 1; of_Z 2] (Some soma).

Definition sample_morphology : Morphology :=
  mkMorphology []
    (Ok (mkSoma (mkV3 (of_Z 0) (of_Z 0) (of_Z 0)) (of_Z 3) [sample_dendrite]))
    (fun _ => [sample_dendrite]).

(** Gid 3 names a morphology file that cannot be read. *)
Definition sample_circuit : Circuit :=
  mkCircuit [1; 2; 3]
    (fun target =>
       if String.eqb target "Nothing" then Ok []
       else Raise (runtime_error "Unknown target"))
    (map (fun _ => Matrix4f_identity))
    (map (fun gid => mkURI (if gid =? 3 then "missing.h5" else "cell.h5"))).

Definition sample_report (gids : list Z) : CompartmentReport :=
  mkReport [[1]; [1]; [1]] [[0]; [1]; [2]] gids (of_Z 0) (of_Z 3) (of_Z 1) 2
    (fun time => Some [time; time]).

Definition sample_libraries : Libraries Box unit unit :=
  mkLibraries true sample_constants []
    (fun box point => box ++ [point])
    (fun box other => box ++ other)
    (fun _ => mkV3 zero zero zero)
    (fun a b =>
       F32.neqb (v3x a) (v3x b) || F32.neqb (v3y a) (v3y b)
       || F32.neqb (v3z a) (v3z b))
    (fun uri _ =>
       if String.eqb (getPath uri) "cell.h5" then Ok sample_morphology
       else Raise (runtime_error "Could not open morphology file"))
    (fun path =>
       if String.eqb path "BlueConfig"
       then Ok (mkBlueConfig (mkURI "circuit.mvd2") mkURI)
       else Raise (runtime_error "Cannot open the circuit configuration"))
    (fun _ => Ok sample_circuit)
    (fun _ gids => Ok (sample_report gids))
    (fun _ _ _ => Raise (other_exception "Not an MVD3 circuit"))
    (fun _ => None)
    (fun path => path)
    (fun _ _ _ _ _ meshes => meshes)
    (fun _ scene _ _ _ => scene)
    (fun _ _ _ => false)
    (fun _ => true)
    (fun h => [Byte.x01])
    (fun h frame => map (fun _ => Byte.x00) frame).

Definition sample_parameters (circuitDensity : Z) : GeometryParameters :=
  mkParameters false 15 cs_none zero one (mkLayout 0 0 0) high false 0 0 zero
    circuitDensity "" 0 "cache.bin" (of_Z 0) (of_Z 2).

Definition empty_world : World Box unit unit :=
  mkWorld (mkScene ∅ ∅ ∅ [] tt tt None) [] ∅.

(** The world when the parallel region starts. *)
Definition loading_world : World Box unit unit :=
  mkWorld (mkScene ∅ ∅ ∅ [] tt tt None) [BRAYNS_INFO "Loading cells" [3]] ∅.

(** Two threads that take the even and the odd indices. *)
Definition two_threads : Parallelism :=
  mkParallelism 1 Z.to_nat [0; 1; 1; 0; 0; 1; 0; 1; 1; 0; 0]%nat.

Definition sample_execution : Execution Box unit unit :=
  run_threads sample_libraries
    (circuit_cell sample_libraries (sample_parameters 100) 10
       (getMorphologyURIs sample_circuit [1; 2; 3])
       (getTransforms sample_circuit [1; 2; 3]) false [] 1)
    (schedule two_threads) (mkShared loading_world 1 ∅)
    (start_threads sample_libraries two_threads
       (size (getMorphologyURIs sample_circuit [1; 2; 3]))).


Lemma nbSkippedCells_division_by_zero_witness :
  nbSkippedCells_of 3 10 = Undefined
  /\ snd (importCircuit sample_libraries (sample_parameters 10) 10 two_threads
            (mkURI "BlueConfig") "" empty_world) = Undefined
  /\ snd (importCircuit_report sample_libraries (sample_parameters 10) 10
            two_threads two_threads (mkURI "BlueConfig") "" "report"
            empty_world) = Undefined.
Proof.
  destruct (nbSkippedCells_division_by_zero Box unit unit sample_libraries
              (sample_parameters 10) 10 two_threads two_threads
              (mkURI "BlueConfig") "" "report"
              (mkBlueConfig (mkURI "circuit.mvd2") mkURI) sample_circuit
              [1; 2; 3])
    as (H1 & _ & _ & H4).
  - reflexivity.
  - reflexivity.
  - reflexivity.
  - reflexivity.
  - discriminate.
  - pose proof (proj2 H1 eq_refl) as G1.
    pose proof (proj1 (H4 eq_refl) empty_world) as G2.
    pose proof (proj2 (H4 eq_refl) (sample_report [1; 2; 3]) eq_refl
                  empty_world) as G3.
    split; [exact G1|]. split; [exact G2 | exact G3].
Defined.


Lemma importSimulationData_cache_file_witness :
  snd (importSimulationData sample_libraries (sample_parameters 100)
         (mkURI "BlueConfig") "" "report" empty_world) = Returned true
  /\ w_files
       (fst (importSimulationData sample_libraries (sample_parameters 100)
               (mkURI "BlueConfig") "" "report" empty_world))
     !! "cache.bin"
     = Some [Byte.x01; Byte.x00; Byte.x00; Byte.x00; Byte.x00].
Proof.
  destruct (importSimulationData_cache_file Box unit unit sample_libraries
              (sample_parameters 100) (mkURI "BlueConfig") "" "report"
              (mkBlueConfig (mkURI "circuit.mvd2") mkURI) sample_circuit
              [1; 2; 3] (sample_report [1; 2; 3]) 2 empty_world)
    as [H1 H2].
  - reflexivity.
  - reflexivity.
  - reflexivity.
  - reflexivity.
  - discriminate.
  - reflexivity.
  - reflexivity.
  - reflexivity.
  - vm_compute. reflexivity.
  - intros k _. eexists. reflexivity.
  - split; [exact H1|]. etransitivity; [exact H2|]. vm_compute. reflexivity.
Defined.

Definition sample_information : SimulationInformation :=
  mkSimulationInformation [3; 3] [7; 9].

Definition empty_build : Build Box := mkBuild ∅ ∅ ∅ [] zero [].

Lemma section_offset_ignores_sample_index_witness :
  let b' :=
    fst (import_section sample_libraries (sample_parameters 100) 10
           (Some sample_information) 1 0 (2 ^ 64 - 1) (mkV3 zero zero zero)
           (0, zero) sample_dendrite empty_build) in
  grown (fun s => sphere_offset s = of_Z 7) ∅ (b_spheres b')
  /\ map sphere_offset (default [] (b_spheres b' !! 0))
     = [of_Z 7; of_Z 7; of_Z 7]
  /\ map cylinder_offset (default [] (b_cylinders b' !! 0)) = [of_Z 7]
  /\ map cone_offset (default [] (b_cones b' !! 0)) = [of_Z 7].
Proof.
  cbv zeta.
  destruct (section_offset_ignores_sample_index Box unit unit sample_libraries
              (sample_parameters 100) 10 sample_information 1 0 (2 ^ 64 - 1)
              0 7 (mkV3 zero zero zero) zero sample_dendrite empty_build)
    as (_ & _ & H & _).
  - reflexivity.
  - reflexivity.
  - lia.
  - split; [exact H|]. repeat split; vm_compute; reflexivity.
Defined.

End MorphologyLoader.
